(** * BTCMarkets client: request signing and response normalisation

  A shallow embedding of [BTCMarkets/client.py].  Python values are
  modelled as the interpreter has them: a [str] is a sequence of Unicode
  code points, a [bytes] object a sequence of bytes, a JSON document a
  tree of lists and insertion-ordered dicts, and objects that the code
  mutates or returns by reference live in a store.  The pieces of the
  standard library the signer relies on (UTF-8, base64, SHA-512, HMAC)
  are written out so that signatures can be computed inside Rocq. *)

From Stdlib Require Import ZArith NArith List Lia.
From Stdlib.Strings Require Import Ascii String Byte.
From Stdlib Require Import DecimalString.
From Stdlib.Floats Require Import SpecFloat.
From stdpp Require Import base option list gmap.

Local Open Scope N_scope.

(** ** Python strings and bytes *)

(** A Python [str]: the sequence of its code points. *)
Definition pystr := list N.

(** A Python [bytes] object. *)
Definition pybytes := list byte.

(** The code points of an ASCII literal of the source. *)
Definition py (s : string) : pystr :=
map N_of_ascii (list_ascii_of_string s).

Definition byte_of_N (n : N) : byte :=
match Byte.of_N (n mod 256) with
| Some b => b
| None => x00
end.

(** [str(n)] for a Python [int]. *)
Definition str_of_int (z : Z) : pystr :=
py (NilZero.string_of_int (Z.to_int z)).

Module Utf8.

Definition is_surrogate (c : N) : bool :=
  (0xD800 <=? c) && (c <=? 0xDFFF).

(** The bytes of one code point; [None] where the strict codec raises
    [UnicodeEncodeError] (lone surrogates; values above U+10FFFF are not
    code points of any [str]). *)
Definition encode_char (c : N) : option pybytes :=
  if c <? 0x80 then Some [byte_of_N c]
  else if c <? 0x800 then
    Some [byte_of_N (N.lor 0xC0 (N.shiftr c 6));
          byte_of_N (N.lor 0x80 (N.land c 0x3F))]
  else if c <? 0x10000 then
    if is_surrogate c then None
    else Some [byte_of_N (N.lor 0xE0 (N.shiftr c 12));
               byte_of_N (N.lor 0x80 (N.land (N.shiftr c 6) 0x3F));
               byte_of_N (N.lor 0x80 (N.land c 0x3F))]
  else if c <? 0x110000 then
    Some [byte_of_N (N.lor 0xF0 (N.shiftr c 18));
          byte_of_N (N.lor 0x80 (N.land (N.shiftr c 12) 0x3F));
          byte_of_N (N.lor 0x80 (N.land (N.shiftr c 6) 0x3F));
          byte_of_N (N.lor 0x80 (N.land c 0x3F))]
  else None.

(** [s.encode("utf-8")] *)
Fixpoint encode (s : pystr) : option pybytes :=
  match s with
  | [] => Some []
  | c :: s' =>
      match encode_char c, encode s' with
      | Some bs, Some rest => Some (bs ++ rest)
      | _, _ => None
      end
  end.

Definition is_cont (b : byte) : bool :=
  let n := Byte.to_N b in (0x80 <=? n) && (n <=? 0xBF).

Definition cont_bits (b : byte) : N := N.land (Byte.to_N b) 0x3F.

(** [b.decode("utf8")], strict: [None] where the codec raises
    [UnicodeDecodeError] (stray or missing continuation bytes, overlong
    forms, encoded surrogates, values above U+10FFFF). *)
Fixpoint decode (bs : pybytes) : option pystr :=
  match bs with
  | [] => Some []
  | b0 :: r0 =>
      let n0 := Byte.to_N b0 in
      if n0 <? 0x80 then cons n0 <$> decode r0
      else if n0 <? 0xC2 then None
      else if n0 <? 0xE0 then
        match r0 with
        | b1 :: r1 =>
            if is_cont b1
            then cons (N.lor (N.shiftl (N.land n0 0x1F) 6) (cont_bits b1))
                   <$> decode r1
            else None
        | _ => None
        end
      else if n0 <? 0xF0 then
        match r0 with
        | b1 :: b2 :: r2 =>
            let c := N.lor (N.shiftl (N.land n0 0x0F) 12)
                       (N.lor (N.shiftl (cont_bits b1) 6) (cont_bits b2)) in
            if is_cont b1 && is_cont b2 && (0x800 <=? c)
               && negb (is_surrogate c)
            then cons c <$> decode r2
            else None
        | _ => None
        end
      else if n0 <? 0xF5 then
        match r0 with
        | b1 :: b2 :: b3 :: r3 =>
            let c := N.lor (N.shiftl (N.land n0 0x07) 18)
                       (N.lor (N.shiftl (cont_bits b1) 12)
                          (N.lor (N.shiftl (cont_bits b2) 6) (cont_bits b3))) in
            if is_cont b1 && is_cont b2 && is_cont b3
               && (0x10000 <=? c) && (c <? 0x110000)
            then cons c <$> decode r3
            else None
        | _ => None
        end
      else None
  end.

End Utf8.

(** ** [base64.b64encode] *)

Module Base64.

Definition alphabet : list byte :=
  map byte_of_ascii (list_ascii_of_string
    "ABCDEFGHIJKLMNOPQRSTUVWXYZabcdefghijklmnopqrstuvwxyz0123456789+/").

Definition pad : byte := byte_of_ascii "=".

Definition sextet (n : N) : byte :=
  nth (N.to_nat (N.land n 0x3F)) alphabet pad.

Fixpoint b64encode (bs : pybytes) : pybytes :=
  match bs with
  | [] => []
  | [a] =>
      let n := N.shiftl (Byte.to_N a) 16 in
      [sextet (N.shiftr n 18); sextet (N.shiftr n 12); pad; pad]
  | [a; b] =>
      let n := N.lor (N.shiftl (Byte.to_N a) 16) (N.shiftl (Byte.to_N b) 8) in
      [sextet (N.shiftr n 18); sextet (N.shiftr n 12);
       sextet (N.shiftr n 6); pad]
  | a :: b :: c :: rest =>
      let n := N.lor (N.shiftl (Byte.to_N a) 16)
                 (N.lor (N.shiftl (Byte.to_N b) 8) (Byte.to_N c)) in
      sextet (N.shiftr n 18) :: sextet (N.shiftr n 12)
        :: sextet (N.shiftr n 6) :: sextet n :: b64encode rest
  end.

End Base64.

(** ** [hashlib.sha512] (FIPS 180-4) on 64-bit words kept in [N] *)

Module Sha512.

Definition mask64 : N := 0xFFFFFFFFFFFFFFFF.

Definition add64 (x y : N) : N := N.land (x + y) mask64.

Definition rotr (n x : N) : N :=
  N.land (N.lor (N.shiftr x n) (N.shiftl x (64 - n))) mask64.

Definition not64 (x : N) : N := N.lxor x mask64.

Definition Ch (x y z : N) : N :=
  N.lxor (N.land x y) (N.land (not64 x) z).

Definition Maj (x y z : N) : N :=
  N.lxor (N.lxor (N.land x y) (N.land x z)) (N.land y z).

Definition Sigma0 (x : N) : N :=
  N.lxor (N.lxor (rotr 28 x) (rotr 34 x)) (rotr 39 x).

Definition Sigma1 (x : N) : N :=
  N.lxor (N.lxor (rotr 14 x) (rotr 18 x)) (rotr 41 x).

Definition sigma0 (x : N) : N :=
  N.lxor (N.lxor (rotr 1 x) (rotr 8 x)) (N.shiftr x 7).

Definition sigma1 (x : N) : N :=
  N.lxor (N.lxor (rotr 19 x) (rotr 61 x)) (N.shiftr x 6).

Definition K : list N :=
[0x428a2f98d728ae22; 0x7137449123ef65cd; 0xb5c0fbcfec4d3b2f; 0xe9b5dba58189dbbc;
 0x3956c25bf348b538; 0x59f111f1b605d019; 0x923f82a4af194f9b; 0xab1c5ed5da6d8118;
 0xd807aa98a3030242; 0x12835b0145706fbe; 0x243185be4ee4b28c; 0x550c7dc3d5ffb4e2;
 0x72be5d74f27b896f; 0x80deb1fe3b1696b1; 0x9bdc06a725c71235; 0xc19bf174cf692694;
 0xe49b69c19ef14ad2; 0xefbe4786384f25e3; 0x0fc19dc68b8cd5b5; 0x240ca1cc77ac9c65;
 0x2de92c6f592b0275; 0x4a7484aa6ea6e483; 0x5cb0a9dcbd41fbd4; 0x76f988da831153b5;
 0x983e5152ee66dfab; 0xa831c66d2db43210; 0xb00327c898fb213f; 0xbf597fc7beef0ee4;
 0xc6e00bf33da88fc2; 0xd5a79147930aa725; 0x06ca6351e003826f; 0x142929670a0e6e70;
 0x27b70a8546d22ffc; 0x2e1b21385c26c926; 0x4d2c6dfc5ac42aed; 0x53380d139d95b3df;
 0x650a73548baf63de; 0x766a0abb3c77b2a8; 0x81c2c92e47edaee6; 0x92722c851482353b;
 0xa2bfe8a14cf10364; 0xa81a664bbc423001; 0xc24b8b70d0f89791; 0xc76c51a30654be30;
 0xd192e819d6ef5218; 0xd69906245565a910; 0xf40e35855771202a; 0x106aa07032bbd1b8;
 0x19a4c116b8d2d0c8; 0x1e376c085141ab53; 0x2748774cdf8eeb99; 0x34b0bcb5e19b48a8;
 0x391c0cb3c5c95a63; 0x4ed8aa4ae3418acb; 0x5b9cca4f7763e373; 0x682e6ff3d6b2b8a3;
 0x748f82ee5defb2fc; 0x78a5636f43172f60; 0x84c87814a1f0ab72; 0x8cc702081a6439ec;
 0x90befffa23631e28; 0xa4506cebde82bde9; 0xbef9a3f7b2c67915; 0xc67178f2e372532b;
 0xca273eceea26619c; 0xd186b8c721c0c207; 0xeada7dd6cde0eb1e; 0xf57d4f7fee6ed178;
 0x06f067aa72176fba; 0x0a637dc5a2c898a6; 0x113f9804bef90dae; 0x1b710b35131c471b;
 0x28db77f523047d84; 0x32caab7b40c72493; 0x3c9ebe0a15c9bebc; 0x431d67c49c100d4c;
 0x4cc5d4becb3e42b6; 0x597f299cfc657e2a; 0x5fcb6fab3ad6faec; 0x6c44198c4a475817].

Definition H0 : list N :=
[0x6a09e667f3bcc908; 0xbb67ae8584caa73b; 0x3c6ef372fe94f82b; 0xa54ff53a5f1d36f1;
 0x510e527fade682d1; 0x9b05688c2b3e6c1f; 0x1f83d9abfb41bd6b; 0x5be0cd19137e2179].

(** Big-endian bytes of a word, most significant first. *)
Fixpoint be_bytes (count : nat) (x : N) : pybytes :=
  match count with
  | O => []
  | S k => byte_of_N (N.shiftr x (8 * N.of_nat k)) :: be_bytes k x
  end.

Definition be_word (bs : pybytes) : N :=
  fold_left (fun acc b => N.lor (N.shiftl acc 8) (Byte.to_N b)) bs 0.

(** Message padding: a one bit, zeros up to 112 mod 128 bytes, then the
    bit length as a 128-bit big-endian integer. *)
Definition padding (len : nat) : pybytes :=
  let zeros := ((128 + 111 - len mod 128) mod 128)%nat in
  x80 :: repeat x00 zeros ++ be_bytes 16 (8 * N.of_nat len).

Fixpoint chunks (count size : nat) (bs : pybytes) : list pybytes :=
  match count with
  | O => []
  | S k => firstn size bs :: chunks k size (skipn size bs)
  end.

Definition blocks (bs : pybytes) : list pybytes :=
  chunks (length bs / 128)%nat 128 bs.

(** The message schedule, newest word first while it is being built. *)
Fixpoint extend (count : nat) (w : list N) : list N :=
  match count with
  | O => w
  | S k =>
      let x := add64 (add64 (sigma1 (nth 1 w 0)) (nth 6 w 0))
                 (add64 (sigma0 (nth 14 w 0)) (nth 15 w 0)) in
      extend k (x :: w)
  end.

Definition schedule (block : pybytes) : list N :=
  rev (extend 64 (rev (map be_word (chunks 16 8 block)))).

Record regs := Regs { ra : N; rb : N; rc : N; rd : N;
                      re : N; rf : N; rg : N; rh : N }.

Definition round (s : regs) (kw : N * N) : regs :=
  let '(k, w) := kw in
  let t1 := add64 (add64 (add64 (rh s) (Sigma1 (re s)))
                     (add64 (Ch (re s) (rf s) (rg s)) k)) w in
  let t2 := add64 (Sigma0 (ra s)) (Maj (ra s) (rb s) (rc s)) in
  Regs (add64 t1 t2) (ra s) (rb s) (rc s) (add64 (rd s) t1) (re s) (rf s) (rg s).

Definition regs_of (h : list N) : regs :=
  Regs (nth 0 h 0) (nth 1 h 0) (nth 2 h 0) (nth 3 h 0)
       (nth 4 h 0) (nth 5 h 0) (nth 6 h 0) (nth 7 h 0).

Definition list_of (s : regs) : list N :=
  [ra s; rb s; rc s; rd s; re s; rf s; rg s; rh s].

Definition compress (h : list N) (block : pybytes) : list N :=
  let s := fold_left round (combine K (schedule block)) (regs_of h) in
  map (fun xy => add64 (fst xy) (snd xy)) (combine h (list_of s)).

(** [hashlib.sha512(msg).digest()] *)
Definition digest (msg : pybytes) : pybytes :=
  let h := fold_left compress (blocks (msg ++ padding (length msg))) H0 in
  concat (map (be_bytes 8) h).

Definition block_size : nat := 128.

End Sha512.

(** ** [hmac.new(key, msg, digestmod=hashlib.sha512).digest()] (RFC 2104) *)

Module Hmac.

Definition xor_byte (c : N) (b : byte) : byte :=
  byte_of_N (N.lxor (Byte.to_N b) c).

Definition block_key (key : pybytes) : pybytes :=
  let k := if Nat.ltb Sha512.block_size (length key)
           then Sha512.digest key else key in
  k ++ repeat x00 (Sha512.block_size - length k)%nat.

Definition hmac_sha512 (key msg : pybytes) : pybytes :=
  let k := block_key key in
  let inner := Sha512.digest (map (xor_byte 0x36) k ++ msg) in
  Sha512.digest (map (xor_byte 0x5C) k ++ inner).

End Hmac.


(** ** Interpreter values *)

(** Builtins and library calls on floats, dates and case mapping that the
    client uses but does not define: they are taken as an interface. *)
Class PyLib := {
  (** the type of Python [float] values *)
  pyfloat : Type;
  (** the type of [pandas.Timestamp] values *)
  pytimestamp : Type;
  (** [float(s)] for a [str]; [None] where it raises [ValueError] *)
  float_of_str : pystr -> option pyfloat;
  (** [float(n)] for an [int]; [None] where it raises [OverflowError] *)
  float_of_int : Z -> option pyfloat;
  (** the text [json.dumps] writes for a float *)
  float_json : pyfloat -> pystr;
  (** the missing-value marker pandas fills absent entries with *)
  float_nan : pyfloat;
  (** [s.upper()] *)
  str_upper : pystr -> pystr
}.

Inductive exn_kind :=
| UnicodeEncodeError | UnicodeDecodeError | TypeError | ValueError
| KeyError | OverflowError | AttributeError | JSONDecodeError
| ReferenceError | Exception_.

(** Objects are addressed by locations of the store. *)
Definition loc := positive.

(** The argument an exception was built with. *)
Inductive exn_arg :=
| NoArg                  (* raised by a library; its text is not modelled *)
| Msg (msg : pystr)      (* [ValueError(msg)] *)
| Obj (payload : loc).   (* [Exception(errObject)] *)

Inductive exn := Exn (kind : exn_kind) (arg : exn_arg).

Inductive outcome (A : Type) :=
| Ok (a : A)
| Raise (e : exn).
Arguments Ok {A} a.
Arguments Raise {A} e.

Definition is_raise {A} (r : outcome A) : Prop :=
  match r with Raise _ => True | Ok _ => False end.

Definition of_option {A} (k : exn_kind) (o : option A) : outcome A :=
  match o with Some a => Ok a | None => Raise (Exn k NoArg) end.

Definition obind {A B} (r : outcome A) (f : A -> outcome B) : outcome B :=
  match r with Ok a => f a | Raise e => Raise e end.

(** [[f(x) for x in l]], stopping at the first exception. *)
Fixpoint omap {A B} (f : A -> outcome B) (l : list A) : outcome (list B) :=
  match l with
  | [] => Ok []
  | x :: l' =>
      obind (f x) (fun y => obind (omap f l') (fun ys => Ok (y :: ys)))
  end.

(** *** Insertion-ordered dicts with [str] keys *)

Fixpoint dict_get {V} (k : pystr) (d : list (pystr * V)) : option V :=
  match d with
  | [] => None
  | (k', v) :: d' => if decide (k = k') then Some v else dict_get k d'
  end.

(** [k in d] *)
Definition dict_has {V} (k : pystr) (d : list (pystr * V)) : bool :=
  match dict_get k d with Some _ => true | None => false end.

(** [d[k] = v]: an existing key keeps its position, a new one goes last. *)
Fixpoint dict_set {V} (k : pystr) (v : V) (d : list (pystr * V))
  : list (pystr * V) :=
  match d with
  | [] => [(k, v)]
  | (k', v') :: d' =>
      if decide (k = k') then (k', v) :: d' else (k', v') :: dict_set k v d'
  end.

Section Values.
Context {L : PyLib}.

(** A decoded JSON document, as [json.loads] builds it. *)
#[warnings="-register-all"] Inductive json :=
| JNone
| JBool (b : bool)
| JInt (n : Z)
| JFloat (x : pyfloat)
| JStr (s : pystr)
| JList (items : list json)
| JDict (entries : list (pystr * json)).

(** An entry of a pandas container. *)
Inductive cell :=
| CVal (v : json)
| CTime (t : pytimestamp).

(** A [pandas.DataFrame]: the length of its index and its columns. *)
Record frame := Frame { nrows : nat; columns : list (pystr * list cell) }.

(** A [pandas.Series] indexed by field names. *)
Definition series := list (pystr * cell).

(** What a normaliser hands back: a reference to a JSON object of the
    store, or a pandas container it has just built. *)
Inductive value :=
| VRef (l : loc)
| VFrame (f : frame)
| VSeries (s : series).

Record http_request := Request {
  req_method : pystr;
  req_url : pystr;
  req_headers : list (pystr * pystr);
  (** the [data] argument of [Request(...)] *)
  req_data : option pystr;
  (** the [data=] argument of [urlopen], which replaces it on the wire *)
  req_body : option pybytes
}.

Inductive http_outcome :=
| HttpOk (body : pybytes)
| HTTPError (code : Z) (body : pybytes)
| URLError                       (* no response object attached *)
| HttpRaise (e : exn).           (* any exception that is not a URLError *)

(** What the calls of the client can observe and change. *)
Record world := World {
  (** [clock n] is the value [int(time.time() * 1000)] takes at the
      [n]-th reading of the system clock *)
  clock : nat -> Z;
  ticks : nat;
  (** the server: its answer to a request, given the requests before *)
  network : list http_request -> http_request -> http_outcome;
  sent : list http_request;
  stdout : list pystr;
  (** the JSON objects (decoded responses) alive in the program *)
  store : gmap loc json
}.

Definition M (A : Type) : Type := world -> outcome A * world.

Definition ret {A} (a : A) : M A := fun w => (Ok a, w).
Definition raise {A} (e : exn) : M A := fun w => (Raise e, w).
Definition bind {A B} (m : M A) (f : A -> M B) : M B :=
  fun w => match m w with
           | (Ok a, w') => f a w'
           | (Raise e, w') => (Raise e, w')
           end.
Definition lift {A} (r : outcome A) : M A := fun w => (r, w).

End Values.

Notation "x <- m ;; k" := (bind m (fun x => k))
  (at level 100, m at next level, right associativity).
Notation "m ;;; k" := (bind m (fun _ => k))
  (at level 100, right associativity).

(** The [errors] argument of [pd.to_numeric] and [pd.to_datetime]: what
    becomes of an entry the converter cannot parse.  Both default to
    ['raise']. *)
Inductive errors_policy :=
| ErrorsRaise       (* ['raise']: the error of the entry is raised *)
| ErrorsCoerce.     (* ['coerce']: the entry becomes [NaN] or [NaT] *)

(** Library calls on JSON text and pandas containers, taken as an
    interface as well. *)
Class PyExt {L : PyLib} := {
  (** [json.loads(text)] *)
  json_loads : pystr -> outcome json;
  (** [json.loads(body)] for a [bytes] body *)
  json_loads_bytes : pybytes -> outcome json;
  (** [pd.DataFrame(data)] for [data] that is not a list of dicts *)
  DataFrame_other : json -> outcome frame;
  (** [pd.Series(data)] for [data] that is not a dict *)
  Series_other : json -> outcome series;
  (** what [pd.to_numeric] reads from one entry: the number, the
      missing-value marker for an entry it counts as missing, or the
      error that reports an entry it cannot parse *)
  numeric_entry : cell -> outcome cell;
  (** the column [pd.to_numeric] returns for the entries it has read, once
      they have their common dtype *)
  numeric_column : list cell -> outcome (list cell);
  (** the same two steps of [pd.to_datetime] *)
  datetime_entry : cell -> outcome cell;
  datetime_column : list cell -> outcome (list cell);
  (** the missing-value marker [pd.NaT] *)
  NaT : pytimestamp;
  (** [panda[labels] = value] when [labels] repeats a name *)
  frame_setitem_other : frame -> list pystr -> frame -> outcome frame;
  series_setitem_other : series -> list pystr -> series -> outcome series
}.

Section Client.
Context {L : PyLib} {X : PyExt}.

(** *** State primitives *)

Definition set_ticks (n : nat) (w : world) : world :=
  World (clock w) n (network w) (sent w) (stdout w) (store w).
Definition set_sent (l : list http_request) (w : world) : world :=
  World (clock w) (ticks w) (network w) l (stdout w) (store w).
Definition set_stdout (l : list pystr) (w : world) : world :=
  World (clock w) (ticks w) (network w) (sent w) l (store w).
Definition set_store (s : gmap loc json) (w : world) : world :=
  World (clock w) (ticks w) (network w) (sent w) (stdout w) s.

(** [int(time.time() * 1000)] *)
Definition time_ms : M Z :=
  fun w => (Ok (clock w (ticks w)), set_ticks (S (ticks w)) w).

(** [print(msg)] *)
Definition print (msg : pystr) : M unit :=
  fun w => (Ok tt, set_stdout (stdout w ++ [msg]) w).

(** [urlopen(request)] *)
Definition urlopen (r : http_request) : M http_outcome :=
  fun w => (Ok (network w (sent w) r), set_sent (sent w ++ [r]) w).

(** A new object. *)
Definition alloc (o : json) : M loc :=
  fun w => let l := fresh (dom (store w)) in
           (Ok l, set_store (<[l := o]> (store w)) w).

(** The object behind a reference; a location without an object cannot
    be held by a running program and is answered with [ReferenceError]. *)
Definition load (l : loc) : M json :=
  fun w => (of_option ReferenceError (store w !! l), w).

Definition save (l : loc) (o : json) : M unit :=
  fun w => (Ok tt, set_store (<[l := o]> (store w)) w).

(** ** Signer *)

Definition signMessage (privateKey : pybytes) (message : pystr)
  : outcome pystr :=
  obind (of_option UnicodeEncodeError (Utf8.encode message)) (fun bs =>
  let presignature := Base64.b64encode (Hmac.hmac_sha512 privateKey bs) in
  of_option UnicodeDecodeError (Utf8.decode presignature)).

(** [method + path + now], then [+ data] when there is a body. *)
Definition canonical_message (method path now : pystr)
    (data : option pystr) : pystr :=
  let message := method ++ path ++ now in
  match data with
  | Some d => message ++ d
  | None => message
  end.

Definition buildHeaders (method apiKey : pystr) (privateKey : pybytes)
    (path : pystr) (data : option pystr) : M (list (pystr * pystr)) :=
  t <- time_ms ;;
  let now := str_of_int t in
  let message := canonical_message method path now data in
  signature <- lift (signMessage privateKey message) ;;
  ret [ (py "Accept", py "application/json");
        (py "Accept-Charset", py "UTF-8");
        (py "Content-Type", py "application/json");
        (py "BM-AUTH-APIKEY", apiKey);
        (py "BM-AUTH-TIMESTAMP", now);
        (py "BM-AUTH-SIGNATURE", signature) ].


(** ** [json.dumps] with its default settings *)

Fixpoint join (sep : pystr) (l : list pystr) : pystr :=
  match l with
  | [] => []
  | [x] => x
  | x :: l' => x ++ sep ++ join sep l'
  end.

Definition hex_lower (n : N) : N :=
  nth (N.to_nat (N.land n 0xF)) (py "0123456789abcdef") 0.

Definition hex_upper (n : N) : N :=
  nth (N.to_nat (N.land n 0xF)) (py "0123456789ABCDEF") 0.

(** [\uXXXX] *)
Definition u_escape (n : N) : pystr :=
  [0x5C; 0x75; hex_lower (N.shiftr n 12); hex_lower (N.shiftr n 8);
   hex_lower (N.shiftr n 4); hex_lower n].

Definition escape_char (c : N) : pystr :=
  if c =? 0x5C then [0x5C; 0x5C]
  else if c =? 0x22 then [0x5C; 0x22]
  else if c =? 0x08 then [0x5C; 0x62]
  else if c =? 0x0C then [0x5C; 0x66]
  else if c =? 0x0A then [0x5C; 0x6E]
  else if c =? 0x0D then [0x5C; 0x72]
  else if c =? 0x09 then [0x5C; 0x74]
  else if (0x20 <=? c) && (c <=? 0x7E) then [c]
  else if c <? 0x10000 then u_escape c
  else
    let n := c - 0x10000 in
    u_escape (N.lor 0xD800 (N.land (N.shiftr n 10) 0x3FF))
      ++ u_escape (N.lor 0xDC00 (N.land n 0x3FF)).

Definition encode_basestring_ascii (s : pystr) : pystr :=
  [0x22] ++ flat_map escape_char s ++ [0x22].

Fixpoint json_dumps (v : json) : pystr :=
  match v with
  | JNone => py "null"
  | JBool true => py "true"
  | JBool false => py "false"
  | JInt n => str_of_int n
  | JFloat x => float_json x
  | JStr s => encode_basestring_ascii s
  | JList items => py "[" ++ join (py ", ") (map json_dumps items) ++ py "]"
  | JDict entries =>
      py "{"
      ++ join (py ", ")
           (map (fun kv => encode_basestring_ascii (fst kv) ++ py ": "
                           ++ json_dumps (snd kv)) entries)
      ++ py "}"
  end.

(** ** [urllib.parse.urlencode] of a dict of [str] and [int] values *)

Inductive qval :=
| QStr (s : pystr)
| QInt (n : Z).

Definition qval_str (v : qval) : pystr :=
  match v with
  | QStr s => s
  | QInt n => str_of_int n
  end.

Definition always_safe (c : N) : bool :=
  ((0x41 <=? c) && (c <=? 0x5A)) || ((0x61 <=? c) && (c <=? 0x7A))
  || ((0x30 <=? c) && (c <=? 0x39))
  || (c =? 0x5F) || (c =? 0x2E) || (c =? 0x2D) || (c =? 0x7E).

Definition quote_byte (b : byte) : pystr :=
  let c := Byte.to_N b in
  if c =? 0x20 then [0x2B]
  else if always_safe c then [c]
  else [0x25; hex_upper (N.shiftr c 4); hex_upper c].

Definition quote_plus (s : pystr) : outcome pystr :=
  obind (of_option UnicodeEncodeError (Utf8.encode s)) (fun bs =>
  Ok (flat_map quote_byte bs)).

Definition urlencode (query : list (pystr * qval)) : outcome pystr :=
  obind (omap (fun kv =>
                 obind (quote_plus (fst kv)) (fun k =>
                 obind (quote_plus (qval_str (snd kv))) (fun v =>
                 Ok (k ++ py "=" ++ v)))) query) (fun l =>
  Ok (join (py "&") l)).

(** ** The client *)

Definition base_url : pystr := py "https://api.btcmarkets.net".

(** [self]: the API key, the private key as [base64.b64decode] left it in
    [__init__], and the error policy. *)
Record client := Client {
  apiKey : pystr;
  privateKey : pybytes;
  exception_on_error : bool
}.

Definition handle_error (self : client) (msg : pystr) : M (option value) :=
  let msg := py "No market_ids provided" in
  if exception_on_error self then raise (Exn ValueError (Msg msg))
  else print msg ;;; ret None.

Definition is_post_or_put (method : pystr) : bool :=
  bool_decide (method = py "POST") || bool_decide (method = py "PUT").

(** [errObject["statusCode"] = code] *)
Definition set_status_code (errObject : json) (code : Z) : outcome json :=
  match errObject with
  | JDict d => Ok (JDict (dict_set (py "statusCode") (JInt code) d))
  | _ => Raise (Exn TypeError NoArg)
  end.

(** What [makeHttpCall] does with the answer of [urlopen]: the rest of
    its [try] block and its [except URLError] handler. *)
Definition receive (self : client) (response : http_outcome) : M loc :=
  match response with
  | HttpOk raw =>
      text <- lift (of_option UnicodeDecodeError (Utf8.decode raw)) ;;
      v <- lift (json_loads text) ;;
      alloc v
  | HTTPError code raw =>
      errObject <- lift (json_loads_bytes raw) ;;
      errObject <- lift (set_status_code errObject code) ;;
      l <- alloc errObject ;;
      if exception_on_error self then raise (Exn Exception_ (Obj l))
      else ret l
  | URLError => raise (Exn AttributeError NoArg)
  | HttpRaise e => raise e
  end.

Definition makeHttpCall (self : client) (method path : pystr)
    (query_params : option (list (pystr * qval))) (data : option json)
  : M loc :=
  let data := json_dumps <$> data in
  headers <- buildHeaders method (apiKey self) (privateKey self) path data ;;
  path <- match query_params with
          | Some q =>
              qs <- lift (urlencode q) ;; ret (path ++ py "?" ++ qs)
          | None => ret path
          end ;;
  body <- (if is_post_or_put method then
             match data with
             | Some d =>
                 bs <- lift (of_option UnicodeEncodeError (Utf8.encode d)) ;;
                 ret (Some bs)
             | None => raise (Exn TypeError NoArg)
             end
           else ret None) ;;
  response <- urlopen (Request method (base_url ++ path) headers data body) ;;
  receive self response.

(** ** ResponseNormalizer *)

(** *** The pandas operations the normaliser uses *)

Definition nan_cell : cell := CVal (JFloat float_nan).

(** The keys of a list of records, in order of first appearance. *)
Definition add_key (acc : list pystr) (kv : pystr * json) : list pystr :=
  if bool_decide (fst kv ∈ acc) then acc else acc ++ [fst kv].

Definition record_keys (rows : list (list (pystr * json))) : list pystr :=
  fold_left (fun acc row => fold_left add_key row acc) rows [].

Definition frame_of_records (rows : list (list (pystr * json))) : frame :=
  Frame (length rows)
    (map (fun k =>
            (k, map (fun row => match dict_get k row with
                                | Some v => CVal v
                                | None => nan_cell
                                end) rows))
       (record_keys rows)).

Fixpoint as_records (items : list json) : option (list (list (pystr * json))) :=
  match items with
  | [] => Some []
  | JDict d :: items' => cons d <$> as_records items'
  | _ => None
  end.

(** [pd.DataFrame(data)] *)
Definition DataFrame (data : json) : outcome frame :=
  match data with
  | JList items =>
      match as_records items with
      | Some rows => Ok (frame_of_records rows)
      | None => DataFrame_other data
      end
  | _ => DataFrame_other data
  end.

(** [pd.Series(data)] *)
Definition Series (data : json) : outcome series :=
  match data with
  | JDict d => Ok (map (fun kv => (fst kv, CVal (snd kv))) d)
  | _ => Series_other data
  end.

(** [panda[labels]]: every label has to name a column. *)
Definition frame_getitem (f : frame) (labels : list pystr) : outcome frame :=
  obind (omap (fun k => of_option KeyError
                          (pair k <$> dict_get k (columns f))) labels)
    (fun cols => Ok (Frame (nrows f) cols)).

(** [sub.apply(conv)]: column by column; a frame without rows or without
    columns is handed back as it is. *)
Definition frame_apply (conv : list cell -> outcome (list cell)) (f : frame)
  : outcome frame :=
  if (Nat.eqb (nrows f) 0) || (Nat.eqb (length (columns f)) 0) then Ok f
  else obind (omap (fun kc => obind (conv (snd kc))
                                (fun c => Ok (fst kc, c))) (columns f))
         (fun cols => Ok (Frame (nrows f) cols)).

(** [panda[labels] = value] *)
Definition frame_setitem (f : frame) (labels : list pystr) (value : frame)
  : outcome frame :=
  if bool_decide (NoDup labels) then
    Ok (Frame (nrows f)
          (fold_left (fun cols kc => dict_set (fst kc) (snd (snd kc)) cols)
             (combine labels (columns value)) (columns f)))
  else frame_setitem_other f labels value.

Definition series_getitem (s : series) (labels : list pystr) : outcome series :=
  omap (fun k => of_option KeyError (pair k <$> dict_get k s)) labels.

(** [sub.apply(conv)]: entry by entry. *)
Definition series_apply (conv : cell -> outcome cell) (s : series)
  : outcome series :=
  omap (fun kc => obind (conv (snd kc)) (fun c => Ok (fst kc, c))) s.

Definition series_setitem (s : series) (labels : list pystr) (value : series)
  : outcome series :=
  if bool_decide (NoDup labels) then
    Ok (fold_left (fun acc kc => dict_set (fst kc) (snd (snd kc)) acc)
          (combine labels value) s)
  else series_setitem_other s labels value.

(** *** [pd.to_numeric] and [pd.to_datetime] *)

(** The converters on one entry: the entry as pandas reads it, and for an
    entry it cannot parse what the [errors] argument says. *)
Definition convert_entry (read : cell -> outcome cell) (missing : cell)
    (errors : errors_policy) (c : cell) : outcome cell :=
  match read c, errors with
  | Ok x, _ => Ok x
  | Raise e, ErrorsRaise => Raise e
  | Raise _, ErrorsCoerce => Ok missing
  end.

Definition to_numeric_scalar (errors : errors_policy) (c : cell)
  : outcome cell :=
  convert_entry numeric_entry nan_cell errors c.

Definition to_datetime_scalar (errors : errors_policy) (c : cell)
  : outcome cell :=
  convert_entry datetime_entry (CTime NaT) errors c.

(** The converters on a column: entry by entry from the first, then the
    column as a whole. *)
Definition to_numeric (errors : errors_policy) (col : list cell)
  : outcome (list cell) :=
  obind (omap (to_numeric_scalar errors) col) numeric_column.

Definition to_datetime (errors : errors_policy) (col : list cell)
  : outcome (list cell) :=
  obind (omap (to_datetime_scalar errors) col) datetime_column.

(** *** [process_panda], [make_df], [make_series] *)

(** [panda[labels] = panda[labels].apply(conv)] on a DataFrame *)
Definition convert_frame (conv : list cell -> outcome (list cell))
    (labels : option (list pystr)) (panda : frame) : outcome frame :=
  match labels with
  | Some labels =>
      obind (frame_getitem panda labels) (fun sub =>
      obind (frame_apply conv sub) (fun converted =>
      frame_setitem panda labels converted))
  | None => Ok panda
  end.

(** the same statement on a Series *)
Definition convert_series (conv : cell -> outcome cell)
    (labels : option (list pystr)) (panda : series) : outcome series :=
  match labels with
  | Some labels =>
      obind (series_getitem panda labels) (fun sub =>
      obind (series_apply conv sub) (fun converted =>
      series_setitem panda labels converted))
  | None => Ok panda
  end.

(** [process_panda] is written once in the source and runs on either
    container; the container is new and known to the caller alone, so
    the update is returned rather than stored.  [apply] calls the
    converters with the column (a DataFrame) or the entry (a Series) as
    their only argument, so [errors] has its default, ['raise']. *)
Definition process_panda (panda : value) (numeric time : option (list pystr))
  : outcome value :=
  match panda with
  | VFrame f =>
      obind (convert_frame (to_numeric ErrorsRaise) numeric f) (fun f =>
      obind (convert_frame (to_datetime ErrorsRaise) time f) (fun f =>
      Ok (VFrame f)))
  | VSeries s =>
      obind (convert_series (to_numeric_scalar ErrorsRaise) numeric s)
        (fun s =>
      obind (convert_series (to_datetime_scalar ErrorsRaise) time s)
        (fun s =>
      Ok (VSeries s)))
  | VRef l =>
      match numeric, time with
      | None, None => Ok (VRef l)
      | _, _ => Raise (Exn TypeError NoArg)
      end
  end.

(** [type(data) == type({}) and "statusCode" in data] *)
Definition is_error_message (data : json) : bool :=
  match data with
  | JDict d => dict_has (py "statusCode") d
  | _ => false
  end.

Definition make_df (data : loc) (numeric time : option (list pystr))
  : M value :=
  v <- load data ;;
  if is_error_message v then ret (VRef data)
  else
    f <- lift (DataFrame v) ;;
    lift (process_panda (VFrame f) numeric time).

Definition make_series (data : loc) (numeric time : option (list pystr))
  : M value :=
  v <- load data ;;
  if is_error_message v then ret (VRef data)
  else
    s <- lift (Series v) ;;
    lift (process_panda (VSeries s) numeric time).

(** *** [process_orderbook] *)

(** [float(v)] *)
Definition py_float (v : json) : outcome json :=
  match v with
  | JStr s => obind (of_option ValueError (float_of_str s))
                (fun x => Ok (JFloat x))
  | JInt n => obind (of_option OverflowError (float_of_int n))
                (fun x => Ok (JFloat x))
  | JBool b => obind (of_option OverflowError
                        (float_of_int (if b then 1 else 0)%Z))
                 (fun x => Ok (JFloat x))
  | JFloat x => Ok (JFloat x)
  | JNone | JList _ | JDict _ => Raise (Exn TypeError NoArg)
  end.

(** The items a [for] loop or an unpacking draws from a value. *)
Definition py_iter (v : json) : outcome (list json) :=
  match v with
  | JList items => Ok items
  | JStr s => Ok (map (fun c => JStr [c]) s)
  | JDict d => Ok (map (fun kv => JStr (fst kv)) d)
  | JNone | JBool _ | JInt _ | JFloat _ => Raise (Exn TypeError NoArg)
  end.

(** [price, amount = row] *)
Definition unpack2 (row : json) : outcome (json * json) :=
  obind (py_iter row) (fun items =>
  match items with
  | [price; amount] => Ok (price, amount)
  | _ => Raise (Exn ValueError NoArg)
  end).

(** [[float(price), float(amount)]] for one row *)
Definition float_pair (row : json) : outcome json :=
  obind (unpack2 row) (fun pa =>
  obind (py_float (fst pa)) (fun price =>
  obind (py_float (snd pa)) (fun amount =>
  Ok (JList [price; amount])))).

(** [[[float(price), float(amount)] for price, amount in rows]] *)
Definition float_pairs (rows : json) : outcome json :=
  obind (py_iter rows) (fun items =>
  obind (omap float_pair items) (fun l => Ok (JList l))).

Fixpoint is_prefix (p s : pystr) : bool :=
  match p, s with
  | [], _ => true
  | _ :: _, [] => false
  | a :: p', b :: s' => (a =? b) && is_prefix p' s'
  end.

(** [p in s] on two [str] *)
Fixpoint is_substring (p s : pystr) : bool :=
  is_prefix p s ||
  match s with
  | [] => false
  | _ :: s' => is_substring p s'
  end.

Definition is_str (k : pystr) (v : json) : bool :=
  match v with
  | JStr s => bool_decide (s = k)
  | _ => false
  end.

(** One turn of the loop over the sides: [if side in orderbook:
    orderbook[side] = ...], on the object behind [orderbook]. *)
Definition process_side (orderbook : loc) (side : pystr) : M unit :=
  o <- load orderbook ;;
  match o with
  | JDict d =>
      match dict_get side d with
      | Some rows =>
          converted <- lift (float_pairs rows) ;;
          save orderbook (JDict (dict_set side converted d))
      | None => ret tt
      end
  | JList items =>
      if existsb (is_str side) items then raise (Exn TypeError NoArg)
      else ret tt
  | JStr s =>
      if is_substring side s then raise (Exn TypeError NoArg) else ret tt
  | JNone | JBool _ | JInt _ | JFloat _ => raise (Exn TypeError NoArg)
  end.

Definition process_orderbook (orderbook : loc) : M loc :=
  process_side orderbook (py "bids") ;;;
  process_side orderbook (py "asks") ;;;
  ret orderbook.


(** ** Endpoint methods *)

(** One constructor per method of the class that issues a request, with
    the arguments the request is built from (identifiers and amounts are
    [str], filters are [str] or [int], as the docstrings type them).
    [fee_by_market] issues the request of [trading_fees] and
    [recent_candles] that of [candles]. *)
Inductive endpoint :=
| Markets
| Ticker (market_id : pystr)
| Tickers (market_ids : list pystr)
| MarketTrades (market_id : pystr) (before after limit : option qval)
| Orderbook (market_id : pystr) (level : qval)
| Orderbooks (market_ids : list pystr)
| Candles (market_id : pystr) (timeWindow from_time to_time : qval)
| PlaceOrder (market_id price amount side order_type : pystr)
    (triggerPrice targetAmount : option pystr) (timeInForce : pystr)
    (postOnly : bool) (selfTrade : pystr) (client_order_id : option pystr)
| Orders (market_id status before after limit : option qval)
| CancelOpenOrders (market_id : option qval)
| OrderById (order_id : pystr)
| CancelOrder (order_id : pystr)
| ReplaceOrder (order_id new_price new_amount : pystr)
    (client_order_id : option pystr)
| PlaceAndCancelOrders (place_orders cancel_orders : list json)
| OrdersByIds (ids : list pystr)
| CancelOrdersByIds (ids : list pystr)
| ListTrades (market_id order_id before after limit : option qval)
| TradeById (trade_id : pystr)
| RequestWithdrawal (asset_name amount : pystr)
    (to_address account_name account_number bsb_number bank_name
       payment_description client_transfer_id : option pystr)
| ListWithdrawals (before after limit : option qval)
| WithdrawalById (withdrawal_id : pystr)
| ListDeposits (before after limit : option qval)
| DepositById (deposit_id : pystr)
| ListDepositsWithdrawals (before after limit : option qval)
| DepositsWithdrawalsById (transaction_id : pystr)
| DepositAddress (asset_name : qval)
| WithdrawalFees
| ListAssets
| TradingFees
| WithdrawalLimits
| AccountBalance
| Transactions (asset_name before after limit : option qval)
| CreateNewReport (report_type report_format : pystr)
| ReportById (report_id : pystr)
| GetServerTime.

(** An entry of a dict comprehension that drops [None] values. *)
Definition opt_entry {V W} (f : V -> W) (k : string) (v : option V)
  : list (pystr * W) :=
  match v with
  | Some x => [(py k, f x)]
  | None => []
  end.

(** The truth value of an optional [str]. *)
Definition truthy (v : option pystr) : bool :=
  match v with
  | Some (_ :: _) => true
  | _ => false
  end.

Definition paging (before after limit : option qval) : list (pystr * qval) :=
  opt_entry id "before" before ++ opt_entry id "after" after
  ++ opt_entry id "limit" limit.

(** The arguments of the [makeHttpCall] each method performs:
    method, path, [query_params], [data]. *)
Definition request_of (e : endpoint)
  : pystr * pystr * option (list (pystr * qval)) * option json :=
  match e with
  | Markets => (py "GET", py "/v3/markets", None, None)
  | Ticker market_id =>
      (py "GET", py "/v3/markets/" ++ market_id ++ py "/ticker", None, None)
  | Tickers market_ids =>
      (py "GET",
       py "/v3/markets/tickers?" ++ py "marketId="
         ++ join (py "&marketId=") market_ids,
       None, None)
  | MarketTrades market_id before after limit =>
      (py "GET", py "/v3/markets/" ++ market_id ++ py "/trades",
       Some (paging before after limit), None)
  | Orderbook market_id level =>
      (py "GET", py "/v3/markets/" ++ market_id ++ py "/orderbook",
       Some [(py "level", level)], None)
  | Orderbooks market_ids =>
      (py "GET",
       py "/v3/markets/orderbooks?" ++ py "marketId="
         ++ join (py "&marketId=") market_ids,
       None, None)
  | Candles market_id timeWindow from_time to_time =>
      (py "GET", py "/v3/markets/" ++ market_id ++ py "/candles",
       Some [(py "timeWindow", timeWindow); (py "from", from_time);
             (py "to", to_time)],
       None)
  | PlaceOrder market_id price amount side order_type triggerPrice
      targetAmount timeInForce postOnly selfTrade client_order_id =>
      let data :=
        [(py "marketId", JStr market_id); (py "price", JStr price);
         (py "amount", JStr amount); (py "type", JStr order_type);
         (py "side", JStr side); (py "selfTrade", JStr selfTrade);
         (py "timeInForce", JStr timeInForce); (py "postOnly", JBool postOnly)]
        ++ opt_entry JStr "triggerPrice" triggerPrice
        ++ opt_entry JStr "targetAmount" targetAmount
        ++ opt_entry JStr "clientOrderId" client_order_id in
      (py "POST", py "/v3/orders", None, Some (JStr (json_dumps (JDict data))))
  | Orders market_id status before after limit =>
      (py "GET", py "/v3/orders",
       Some (opt_entry id "marketId" market_id ++ opt_entry id "status" status
             ++ paging before after limit),
       None)
  | CancelOpenOrders market_id =>
      (py "DELETE", py "/v3/orders", Some (opt_entry id "marketId" market_id),
       None)
  | OrderById order_id => (py "GET", py "/v3/orders/" ++ order_id, None, None)
  | CancelOrder order_id =>
      (py "DELETE", py "/v3/orders/" ++ order_id, None, None)
  | ReplaceOrder order_id new_price new_amount client_order_id =>
      let data :=
        [(py "price", JStr new_price); (py "amount", JStr new_amount)]
        ++ (if truthy client_order_id
            then opt_entry JStr "clientOrderId" client_order_id else []) in
      (py "PUT", py "/v3/orders/" ++ order_id, None,
       Some (JStr (json_dumps (JDict data))))
  | PlaceAndCancelOrders place_orders cancel_orders =>
      let batch_orders :=
        map (fun order => JDict [(py "placeOrder", order)]) place_orders
        ++ map (fun order => JDict [(py "cancelOrder", order)]) cancel_orders in
      (py "POST", py "/v3/batchorders", None,
       Some (JStr (json_dumps (JList batch_orders))))
  | OrdersByIds ids =>
      (py "GET", py "/v3/batchorders/" ++ join (py ",") ids, None, None)
  | CancelOrdersByIds ids =>
      (py "DELETE", py "/v3/batchorders/" ++ join (py ",") ids, None, None)
  | ListTrades market_id order_id before after limit =>
      (py "GET", py "/v3/trades",
       Some (opt_entry id "marketId" market_id
             ++ opt_entry id "orderId" order_id ++ paging before after limit),
       None)
  | TradeById trade_id => (py "GET", py "/v3/trades/" ++ trade_id, None, None)
  | RequestWithdrawal asset_name amount to_address account_name account_number
      bsb_number bank_name payment_description client_transfer_id =>
      let data :=
        [(py "assetName", JStr asset_name); (py "amount", JStr amount)]
        ++ opt_entry JStr "toAddress" to_address
        ++ opt_entry JStr "accountName" account_name
        ++ opt_entry JStr "accountNumber" account_number
        ++ opt_entry JStr "bsbNumber" bsb_number
        ++ opt_entry JStr "bankName" bank_name
        ++ opt_entry JStr "paymentDescription" payment_description
        ++ opt_entry JStr "clientTransferId" client_transfer_id in
      (py "POST", py "/v3/withdrawals", None, Some (JDict data))
  | ListWithdrawals before after limit =>
      (py "GET", py "/v3/withdrawals", Some (paging before after limit), None)
  | WithdrawalById withdrawal_id =>
      (py "GET", py "/v3/withdrawals/" ++ withdrawal_id, None, None)
  | ListDeposits before after limit =>
      (py "GET", py "/v3/deposits", Some (paging before after limit), None)
  | DepositById deposit_id =>
      (py "GET", py "/v3/deposits/" ++ deposit_id, None, None)
  | ListDepositsWithdrawals before after limit =>
      (py "GET", py "/v3/transfers", Some (paging before after limit), None)
  | DepositsWithdrawalsById transaction_id =>
      (py "GET", py "/v3/transfers/" ++ transaction_id, None, None)
  | DepositAddress asset_name =>
      (py "GET", py "/v3/addresses", Some [(py "assetName", asset_name)], None)
  | WithdrawalFees => (py "GET", py "/v3/withdrawal-fees", None, None)
  | ListAssets => (py "GET", py "/v3/assets", None, None)
  | TradingFees => (py "GET", py "/v3/accounts/me/trading-fees", None, None)
  | WithdrawalLimits =>
      (py "GET", py "/v3/accounts/me/withdrawal-limits", None, None)
  | AccountBalance => (py "GET", py "/v3/accounts/me/balances", None, None)
  | Transactions asset_name before after limit =>
      (py "GET", py "/v3/accounts/me/transactions",
       Some (opt_entry id "assetName" asset_name ++ paging before after limit),
       None)
  | CreateNewReport report_type report_format =>
      (py "POST", py "/v3/reports", None,
       Some (JStr (json_dumps (JDict [(py "type", JStr report_type);
                                      (py "format", JStr report_format)]))))
  | ReportById report_id =>
      (py "GET", py "/v3/reports/" ++ report_id, None, None)
  | GetServerTime => (py "GET", py "/v3/time", None, None)
  end.

(** [self.makeHttpCall(...)] with the arguments of the method. *)
Definition invoke (self : client) (e : endpoint) : M loc :=
  let '(method, path, query_params, data) := request_of e in
  makeHttpCall self method path query_params data.

(** The argument strings a method writes into its path. *)
Definition path_args (e : endpoint) : list pystr :=
  match e with
  | Ticker market_id | MarketTrades market_id _ _ _ | Orderbook market_id _
  | Candles market_id _ _ _ => [market_id]
  | Tickers market_ids | Orderbooks market_ids => market_ids
  | OrderById order_id | CancelOrder order_id
  | ReplaceOrder order_id _ _ _ => [order_id]
  | OrdersByIds ids | CancelOrdersByIds ids => ids
  | TradeById trade_id => [trade_id]
  | WithdrawalById withdrawal_id => [withdrawal_id]
  | DepositById deposit_id => [deposit_id]
  | DepositsWithdrawalsById transaction_id => [transaction_id]
  | ReportById report_id => [report_id]
  | _ => []
  end.

(** The two methods that repeat the key [marketId] and therefore write
    the query string into the path themselves. *)
Definition writes_own_query (e : endpoint) : bool :=
  match e with
  | Tickers _ | Orderbooks _ => true
  | _ => false
  end.

(** ['?' in s] *)
Definition has_query (s : pystr) : bool := existsb (N.eqb 0x3F) s.

(** The text [makeHttpCall] appends to the path for [query_params]. *)
Definition query_text (query_params : option (list (pystr * qval)))
    (qs : pystr) : Prop :=
  match query_params with
  | Some q => exists enc, urlencode q = Ok enc /\ qs = py "?" ++ enc
  | None => qs = []
  end.

(** The bytes [makeHttpCall] hands to [urlopen] for the body text. *)
Definition wire_body (method : pystr) (text : option pystr)
    (body : option pybytes) : Prop :=
  if is_post_or_put method
  then exists d bs, text = Some d /\ Utf8.encode d = Some bs /\ body = Some bs
  else body = None.

Definition ticker_numeric : list pystr :=
  [py "bestBid"; py "bestAsk"; py "lastPrice"; py "volume24h";
   py "volumeQte24h"; py "price24h"; py "pricePct24h"; py "low24h";
   py "high24h"].

Definition tickers (self : client) (market_ids : list pystr)
  : M (option value) :=
  if Nat.eqb (length market_ids) 0 then
    handle_error self (py "tickers called with no market_ids provided")
  else
    data <- invoke self (Tickers market_ids) ;;
    df <- make_df data (Some ticker_numeric) (Some [py "timestamp"]) ;;
    ret (Some df).

Definition orderbook (self : client) (market_id : pystr) (level : qval)
  : M (option value) :=
  data <- invoke self (Orderbook market_id level) ;;
  book <- process_orderbook data ;;
  ret (Some (VRef book)).

Definition place_order (self : client)
    (market_id price amount side order_type : pystr)
    (triggerPrice targetAmount : option pystr) (timeInForce : pystr)
    (postOnly : bool) (selfTrade : pystr) (client_order_id : option pystr)
  : M (option value) :=
  if bool_decide (order_type ∈ [py "Stop"; py "Stop Limit"; py "Take Profit"])
     && bool_decide (triggerPrice = None)
  then handle_error self (order_type ++ py " requires triggerPrice")
  else
    let selfTrade := str_upper selfTrade in
    if negb (bool_decide (selfTrade ∈ [py "P"; py "A"])) then
      handle_error self
        (selfTrade ++ py " must be either 'P' (prevent) or 'A' (allow)")
    else
      response <- invoke self
        (PlaceOrder market_id price amount side order_type triggerPrice
           targetAmount timeInForce postOnly selfTrade client_order_id) ;;
      ret (Some (VRef response)).

Definition request_withdrawal (self : client) (asset_name amount : pystr)
    (to_address account_name account_number bsb_number bank_name
       payment_description client_transfer_id : option pystr)
  : M (option value) :=
  let bank := [account_name; account_number; bsb_number; bank_name] in
  if negb (truthy (Some asset_name)) then
    handle_error self (py "Asset name must be a non-empty string.")
  else if negb (truthy (Some amount)) then
    handle_error self (py "Amount must be a non-empty string.")
  else if bool_decide (asset_name = py "AUD")
          && existsb truthy bank && negb (forallb truthy bank) then
    handle_error self
      (py "For AUD withdrawals, all bank details must be provided if any are provided.")
  else if bool_decide (asset_name = py "AUD")
          && truthy payment_description
          && Nat.ltb 18 (length (default [] payment_description)) then
    handle_error self
      (py "Payment description must be less than or equal to 18 characters.")
  else if negb (bool_decide (asset_name = py "AUD"))
          && negb (truthy to_address) then
    handle_error self
      (py "Destination address is mandatory for crypto asset withdrawals.")
  else
    response <- invoke self
      (RequestWithdrawal asset_name amount to_address account_name
         account_number bsb_number bank_name payment_description
         client_transfer_id) ;;
    ret (Some (VRef response)).

(** ** The other endpoint methods *)

(** *** Methods that hand the decoded response to a normaliser *)

Definition markets (self : client) : M value :=
  data <- invoke self Markets ;;
  make_df data
    (Some [py "minOrderAmount"; py "maxOrderAmount"; py "amountDecimals";
           py "priceDecimals"])
    None.

Definition ticker (self : client) (market_id : pystr) : M value :=
  data <- invoke self (Ticker market_id) ;;
  make_series data (Some ticker_numeric) (Some [py "timestamp"]).

Definition order_by_id (self : client) (order_id : pystr) : M value :=
  data <- invoke self (OrderById order_id) ;;
  make_series data (Some [py "price"; py "amount"; py "openAmount"])
    (Some [py "creationTime"]).

Definition list_trades (self : client)
    (market_id order_id before after limit : option qval) : M value :=
  response <- invoke self (ListTrades market_id order_id before after limit) ;;
  make_df response
    (Some [py "price"; py "amount"; py "fee"; py "valueInQuoteAsset"])
    (Some [py "timestamp"]).

Definition trade_by_id (self : client) (trade_id : pystr) : M value :=
  response <- invoke self (TradeById trade_id) ;;
  make_series response
    (Some [py "price"; py "amount"; py "fee"; py "valueInQuoteAsset"])
    (Some [py "timestamp"]).

Definition list_withdrawals (self : client) (before after limit : option qval)
  : M value :=
  data <- invoke self (ListWithdrawals before after limit) ;;
  make_df data (Some [py "amount"; py "fee"])
    (Some [py "creationTime"; py "lastUpdate"]).

Definition withdrawal_by_id (self : client) (withdrawal_id : pystr)
  : M value :=
  response <- invoke self (WithdrawalById withdrawal_id) ;;
  make_series response (Some [py "amount"; py "fee"])
    (Some [py "creationTime"; py "lastUpdate"]).

Definition list_deposits (self : client) (before after limit : option qval)
  : M value :=
  response <- invoke self (ListDeposits before after limit) ;;
  make_df response (Some [py "amount"; py "fee"])
    (Some [py "creationTime"; py "lastUpdate"]).

Definition deposit_by_id (self : client) (deposit_id : pystr) : M value :=
  data <- invoke self (DepositById deposit_id) ;;
  make_series data (Some [py "amount"; py "fee"])
    (Some [py "creationTime"; py "lastUpdate"]).

Definition list_deposits_withdrawals (self : client)
    (before after limit : option qval) : M value :=
  response <- invoke self (ListDepositsWithdrawals before after limit) ;;
  make_df response (Some [py "amount"; py "fee"])
    (Some [py "creationTime"; py "lastUpdate"]).

Definition deposits_withdrawals_by_id (self : client)
    (transaction_id : pystr) : M value :=
  data <- invoke self (DepositsWithdrawalsById transaction_id) ;;
  make_series data (Some [py "amount"; py "fee"])
    (Some [py "creationTime"; py "lastUpdate"]).

Definition deposit_address (self : client) (asset_name : qval) : M value :=
  data <- invoke self (DepositAddress asset_name) ;;
  make_series data None None.

Definition withdrawal_fees (self : client) : M value :=
  data <- invoke self WithdrawalFees ;;
  make_df data (Some [py "fee"]) None.

Definition list_assets (self : client) : M value :=
  data <- invoke self ListAssets ;;
  make_df data
    (Some [py "minDepositAmount"; py "maxDepositAmount"; py "depositFee";
           py "minWithdrawalAmount"; py "maxWithdrawalAmount";
           py "withdrawalFee"; py "depositDecimals"; py "withdrawalDecimals"])
    None.

Definition transactions (self : client)
    (asset_name before after limit : option qval) : M value :=
  transactions <- invoke self (Transactions asset_name before after limit) ;;
  make_df transactions (Some [py "amount"; py "balance"])
    (Some [py "creationTime"]).

(** [len(v)] *)
Definition py_len (v : json) : outcome nat :=
  match v with
  | JList items => Ok (length items)
  | JDict d => Ok (length d)
  | JStr s => Ok (length s)
  | JNone | JBool _ | JInt _ | JFloat _ => Raise (Exn TypeError NoArg)
  end.

Definition orders (self : client)
    (market_id status before after limit : option qval) : M value :=
  data <- invoke self (Orders market_id status before after limit) ;;
  v <- load data ;;
  n <- lift (py_len v) ;;
  if Nat.eqb n 0 then ret (VRef data)
  else
    make_df data (Some [py "price"; py "amount"; py "openAmount"])
      (Some [py "creationTime"]).

(** *** Methods that return the decoded response as it is *)

Definition cancel_open_orders (self : client) (market_id : option qval)
  : M loc :=
  invoke self (CancelOpenOrders market_id).

Definition cancel_order (self : client) (order_id : pystr) : M loc :=
  invoke self (CancelOrder order_id).

Definition replace_order (self : client)
    (order_id new_price new_amount : pystr) (client_order_id : option pystr)
  : M loc :=
  invoke self (ReplaceOrder order_id new_price new_amount client_order_id).

Definition place_and_cancel_orders (self : client)
    (place_orders cancel_orders : list json) : M loc :=
  invoke self (PlaceAndCancelOrders place_orders cancel_orders).

Definition cancel_orders_by_ids (self : client) (ids : list pystr) : M loc :=
  invoke self (CancelOrdersByIds ids).

Definition trading_fees (self : client) : M loc :=
  invoke self TradingFees.

Definition withdrawal_limits (self : client) : M loc :=
  invoke self WithdrawalLimits.

Definition create_new_report (self : client)
    (report_type report_format : pystr) : M loc :=
  invoke self (CreateNewReport report_type report_format).

Definition report_by_id (self : client) (report_id : pystr) : M loc :=
  invoke self (ReportById report_id).

(** *** [orderbooks] and [get_server_time], which index the response *)

(** One turn of the loop of [process_orderbook] on an object that sits
    inside another one (an element of a decoded list): whether the turn
    raises, and what the object holds after it. *)
Definition process_side_nested (side : pystr) (o : json)
  : outcome unit * json :=
  match o with
  | JDict d =>
      match dict_get side d with
      | Some rows =>
          match float_pairs rows with
          | Ok converted => (Ok tt, JDict (dict_set side converted d))
          | Raise e => (Raise e, o)
          end
      | None => (Ok tt, o)
      end
  | JList items =>
      if existsb (is_str side) items then (Raise (Exn TypeError NoArg), o)
      else (Ok tt, o)
  | JStr s =>
      if is_substring side s then (Raise (Exn TypeError NoArg), o)
      else (Ok tt, o)
  | JNone | JBool _ | JInt _ | JFloat _ => (Raise (Exn TypeError NoArg), o)
  end.

Definition process_orderbook_nested (o : json) : outcome unit * json :=
  match process_side_nested (py "bids") o with
  | (Ok _, o') => process_side_nested (py "asks") o'
  | (Raise e, o') => (Raise e, o')
  end.

(** [for i in range(len(orderbooks)): orderbooks[i] =
    process_orderbook(orderbooks[i])] on a list: the elements already
    visited and those still to visit.  An element is updated in place, so
    the list holds what a failed conversion left of it; the assignment
    puts back the object that was read. *)
Fixpoint orderbooks_loop (orderbooks : loc) (visited todo : list json)
  : M unit :=
  match todo with
  | [] => ret tt
  | book :: todo' =>
      let '(r, book') := process_orderbook_nested book in
      save orderbooks (JList (visited ++ book' :: todo')) ;;;
      lift r ;;;
      orderbooks_loop orderbooks (visited ++ [book']) todo'
  end.

(** A dict answers [len] with the number of its keys and has no key [0];
    a [str] yields its first character, which [process_orderbook] hands
    back, and refuses the assignment. *)
Definition orderbooks (self : client) (market_ids : list pystr) : M loc :=
  orderbooks <- invoke self (Orderbooks market_ids) ;;
  v <- load orderbooks ;;
  n <- lift (py_len v) ;;
  if Nat.eqb n 0 then ret orderbooks
  else
    match v with
    | JList items => orderbooks_loop orderbooks [] items ;;; ret orderbooks
    | JStr s =>
        lift (fst (process_orderbook_nested (JStr (take 1 s)))) ;;;
        raise (Exn TypeError NoArg)
    | _ => raise (Exn KeyError NoArg)
    end.

(** [v[key]] for a [str] key *)
Definition py_getitem_str (v : json) (key : pystr) : outcome json :=
  match v with
  | JDict d => of_option KeyError (dict_get key d)
  | _ => Raise (Exn TypeError NoArg)
  end.

Definition get_server_time (self : client) : M cell :=
  response <- invoke self GetServerTime ;;
  v <- load response ;;
  timestamp <- lift (py_getitem_str v (py "timestamp")) ;;
  lift (to_datetime_scalar ErrorsRaise (CVal timestamp)).

(** *** Devices of the statements *)

(** The request [makeHttpCall] hands to [urlopen], or the exception it
    raises before, given the text of the clock reading. *)
Definition prepare (self : client) (method path : pystr)
    (query_params : option (list (pystr * qval))) (data : option json)
    (now : pystr) : outcome http_request :=
  let data := json_dumps <$> data in
  obind (signMessage (privateKey self)
           (canonical_message method path now data)) (fun signature =>
  obind (match query_params with
         | Some q => obind (urlencode q) (fun qs => Ok (path ++ py "?" ++ qs))
         | None => Ok path
         end) (fun path =>
  obind (if is_post_or_put method then
           match data with
           | Some d =>
               obind (of_option UnicodeEncodeError (Utf8.encode d))
                 (fun bs => Ok (Some bs))
           | None => Raise (Exn TypeError NoArg)
           end
         else Ok None) (fun body =>
  Ok (Request method (base_url ++ path)
        [ (py "Accept", py "application/json");
          (py "Accept-Charset", py "UTF-8");
          (py "Content-Type", py "application/json");
          (py "BM-AUTH-APIKEY", apiKey self);
          (py "BM-AUTH-TIMESTAMP", now);
          (py "BM-AUTH-SIGNATURE", signature) ]
        data body)))).

(** The request of an endpoint method in a given world. *)
Definition request (self : client) (e : endpoint) (w : world)
  : outcome http_request :=
  let '(method, path, query_params, data) := request_of e in
  prepare self method path query_params data (str_of_int (clock w (ticks w))).

(** The world once a request has left: one clock reading, one request. *)
Definition after_request (req : http_request) (w : world) : world :=
  set_sent (sent w ++ [req]) (set_ticks (S (ticks w)) w).

(** The methods that return [make_df] of the decoded response. *)
Definition table_method (self : client) (e : endpoint) : option (M value) :=
  match e with
  | Markets => Some (markets self)
  | ListTrades market_id order_id before after limit =>
      Some (list_trades self market_id order_id before after limit)
  | ListWithdrawals before after limit =>
      Some (list_withdrawals self before after limit)
  | ListDeposits before after limit =>
      Some (list_deposits self before after limit)
  | ListDepositsWithdrawals before after limit =>
      Some (list_deposits_withdrawals self before after limit)
  | WithdrawalFees => Some (withdrawal_fees self)
  | ListAssets => Some (list_assets self)
  | Transactions asset_name before after limit =>
      Some (transactions self asset_name before after limit)
  | _ => None
  end.

(** The methods that return [make_series] of the decoded response. *)
Definition record_method (self : client) (e : endpoint) : option (M value) :=
  match e with
  | Ticker market_id => Some (ticker self market_id)
  | OrderById order_id => Some (order_by_id self order_id)
  | TradeById trade_id => Some (trade_by_id self trade_id)
  | WithdrawalById withdrawal_id => Some (withdrawal_by_id self withdrawal_id)
  | DepositById deposit_id => Some (deposit_by_id self deposit_id)
  | DepositsWithdrawalsById transaction_id =>
      Some (deposits_withdrawals_by_id self transaction_id)
  | DepositAddress asset_name => Some (deposit_address self asset_name)
  | _ => None
  end.

(** The methods that return the decoded response itself. *)
Definition plain_method (self : client) (e : endpoint) : option (M loc) :=
  match e with
  | CancelOpenOrders market_id => Some (cancel_open_orders self market_id)
  | CancelOrder order_id => Some (cancel_order self order_id)
  | ReplaceOrder order_id new_price new_amount client_order_id =>
      Some (replace_order self order_id new_price new_amount client_order_id)
  | PlaceAndCancelOrders place_orders cancel_orders =>
      Some (place_and_cancel_orders self place_orders cancel_orders)
  | CancelOrdersByIds ids => Some (cancel_orders_by_ids self ids)
  | TradingFees => Some (trading_fees self)
  | WithdrawalLimits => Some (withdrawal_limits self)
  | CreateNewReport report_type report_format =>
      Some (create_new_report self report_type report_format)
  | ReportById report_id => Some (report_by_id self report_id)
  | _ => None
  end.

End Client.


(** ** A concrete interpreter for running examples

    Floats are IEEE 754 binary64 values; [float] reads decimal literals
    ([-12.5], [.5], [3.], [1e-3], [1_000]) with correct rounding, [inf]
    and [nan], and rejects any other text; [upper] maps the ASCII
    letters.  Timestamps count
    nanoseconds since the epoch.  The JSON decoder knows the documents
    listed in [documents].  Entries of the interface that no example
    reaches are answered with an exception, or with a fixed text for
    [float_json]. *)

Module Sample.

Definition digit (c : N) : option Z :=
  if (0x30 <=? c) && (c <=? 0x39) then Some (Z.of_N (c - 0x30)) else None.

(** The value of a run of digits after [acc], and how many there were. *)
Fixpoint digits (s : pystr) (acc : Z) (count : nat) : option (Z * nat) :=
  match s with
  | [] => Some (acc, count)
  | c :: s' =>
      match digit c with
      | Some d => digits s' (10 * acc + d)%Z (S count)
      | None => None
      end
  end.

Definition split_sign (s : pystr) : bool * pystr :=
  match s with
  | 0x2D :: s' => (true, s')
  | 0x2B :: s' => (false, s')
  | _ => (false, s)
  end.

(** Blanks as [str.strip] and [float] know them, within ASCII. *)
Definition is_space (c : N) : bool :=
  (c =? 0x20) || ((0x09 <=? c) && (c <=? 0x0D)) || ((0x1C <=? c) && (c <=? 0x1F)).

Fixpoint lstrip (s : pystr) : pystr :=
  match s with
  | c :: s' => if is_space c then lstrip s' else s
  | [] => []
  end.

Definition strip (s : pystr) : pystr := rev (lstrip (rev (lstrip s))).

(** A run of digits, single underscores between them allowed: its value
    after [acc], the number of digits and the text that follows. *)
Fixpoint digitpart (s : pystr) (acc : Z) (count : nat) : Z * nat * pystr :=
  match s with
  | c :: s' =>
      match digit c with
      | Some d => digitpart s' (10 * acc + d)%Z (S count)
      | None =>
          match s' with
          | c' :: s'' =>
              match digit c' with
              | Some d =>
                  if (c =? 0x5F) && negb (Nat.eqb count 0)
                  then digitpart s'' (10 * acc + d)%Z (S count)
                  else (acc, count, s)
              | None => (acc, count, s)
              end
          | [] => (acc, count, s)
          end
      end
  | [] => (acc, count, s)
  end.

(** The exponent [e[+-]digits] that ends a literal, or nothing. *)
Definition exponent (s : pystr) : option Z :=
  match s with
  | [] => Some 0%Z
  | c :: s1 =>
      if (c =? 0x65) || (c =? 0x45) then
        let '(neg, s2) := split_sign s1 in
        match digitpart s2 0%Z 0%nat with
        | (e, S _, []) => Some (if neg then (- e)%Z else e)
        | _ => None
        end
      else None
  end.

(** Sign, mantissa and exponent of ten of a decimal literal:
    [[sign] digits [. [digits]] [exponent]] or [[sign] . digits
    [exponent]]. *)
Definition decimal_of_str (s : pystr) : option (bool * Z * Z) :=
  let '(neg, body) := split_sign s in
  let '(i, ni, s1) := digitpart body 0%Z 0%nat in
  let '(m, nf, s2) := match s1 with
                      | 0x2E :: s1' => digitpart s1' i 0%nat
                      | _ => (i, 0%nat, s1)
                      end in
  if Nat.eqb (ni + nf) 0 then None
  else match exponent s2 with
       | Some e => Some (neg, m, (e - Z.of_nat nf)%Z)
       | None => None
       end.

(** The binary64 value nearest to [m * 10^e] (ties to even): the quotient
    is taken with enough bits and a sticky bit, then rounded. *)
Definition binary64_of_decimal (neg : bool) (m : Z) (e : Z) : spec_float :=
  let scaled := (if 0 <=? e then m * 10 ^ e else m)%Z in
  let den := (if 0 <=? e then 1 else 10 ^ (- e))%Z in
  let s := (57 + Z.log2 den)%Z in
  let num := (scaled * 2 ^ s)%Z in
  let q := (num / den)%Z in
  let sticky := if (num mod den =? 0)%Z then 0%Z else 1%Z in
  let mant := (2 * q + sticky)%Z in
  binary_normalize 53 1024 (if neg then - mant else mant)%Z (- (s + 1))%Z neg.

Definition lower_char (c : N) : N :=
  if (0x41 <=? c) && (c <=? 0x5A) then c + 0x20 else c.

(** [float(s)]: blanks around the text are dropped; the text is a
    decimal literal, [inf], [infinity] or [nan], signed or not, in
    either case. *)
Definition parse_float (s : pystr) : option spec_float :=
  let text := strip s in
  let '(neg, body) := split_sign text in
  let word := map lower_char body in
  if bool_decide (word = py "inf") || bool_decide (word = py "infinity")
  then Some (S754_infinity neg)
  else if bool_decide (word = py "nan") then Some S754_nan
  else match decimal_of_str text with
       | Some (neg, m, e) => Some (binary64_of_decimal neg m e)
       | None => None
       end.

Definition int_to_float (n : Z) : option spec_float :=
  match binary_normalize 53 1024 n 0 false with
  | S754_infinity _ => None
  | x => Some x
  end.

Definition upper_char (c : N) : N :=
  if (0x61 <=? c) && (c <=? 0x7A) then c - 0x20 else c.

#[export] Instance lib : PyLib := {|
  pyfloat := spec_float;
  pytimestamp := Z;
  float_of_str := parse_float;
  float_of_int := int_to_float;
  float_json := fun _ => py "NaN";
  float_nan := S754_nan;
  str_upper := map upper_char
|}.

(** [pd.to_numeric] on one entry.  [None] and the empty string are
    missing values; a run of digits with an optional sign is an integer,
    which has to fit 64 bits; any other text is read as [float] reads it,
    underscores apart; numbers stay as they are.  Containers are not
    exercised. *)
Definition int_of_str (s : pystr) : option Z :=
  let '(neg, body) := split_sign (strip s) in
  match body with
  | [] => None
  | _ => match digits body 0%Z 0%nat with
         | Some (n, _) => Some (if neg then (- n)%Z else n)
         | None => None
         end
  end.

Definition numeric_scalar (c : cell) : outcome cell :=
  match c with
  | CVal JNone | CVal (JStr []) => Ok (CVal (JFloat S754_nan))
  | CVal (JStr s) =>
      match int_of_str s with
      | Some n =>
          if ((- 2 ^ 63 <=? n) && (n <? 2 ^ 64))%Z then Ok (CVal (JInt n))
          else Raise (Exn ValueError NoArg)
      | None =>
          if existsb (N.eqb 0x5F) s then Raise (Exn ValueError NoArg)
          else obind (of_option ValueError (parse_float s))
                 (fun x => Ok (CVal (JFloat x)))
      end
  | CVal (JInt _) | CVal (JFloat _) | CVal (JBool _) => Ok c
  | _ => Raise (Exn TypeError NoArg)
  end.

(** The common dtype of a converted column: floats as soon as one entry
    is a float (a missing value is one), integers otherwise. *)
Definition is_float_cell (c : cell) : bool :=
  match c with CVal (JFloat _) => true | _ => false end.

Definition is_int_cell (c : cell) : bool :=
  match c with CVal (JInt _) => true | _ => false end.

Definition int_of_bool (c : cell) : cell :=
  match c with
  | CVal (JBool b) => CVal (JInt (if b then 1 else 0))
  | _ => c
  end.

Definition float_of_cell (c : cell) : cell :=
  match int_of_bool c with
  | CVal (JInt n) =>
      match int_to_float n with
      | Some x => CVal (JFloat x)
      | None => c
      end
  | c' => c'
  end.

Definition numeric_dtype (col : list cell) : list cell :=
  if existsb is_float_cell col then map float_of_cell col
  else if existsb is_int_cell col then map int_of_bool col
  else col.

(** [pd.to_datetime] on one entry.  Timestamps are counted in nanoseconds
    since 1970-01-01T00:00:00 UTC, as [Timestamp.value] gives them, and
    [NaT] is the least 64-bit integer.  [None], the empty string and
    [NaN] are missing values; an integer counts nanoseconds; a text is
    read as ISO 8601, [YYYY-MM-DD] with an optional time of day
    [HH:MM[:SS[.fraction]]] after [T] or a blank and an optional [Z] or
    [+HH:MM] offset, each field within its range.  The other formats
    pandas knows are not exercised. *)
Fixpoint take_digits (n : nat) (s : pystr) (acc : Z) : option (Z * pystr) :=
  match n, s with
  | O, _ => Some (acc, s)
  | S n', c :: s' =>
      match digit c with
      | Some d => take_digits n' s' (10 * acc + d)%Z
      | None => None
      end
  | S _, [] => None
  end.

Definition expect (c : N) (s : pystr) : option pystr :=
  match s with
  | c' :: s' => if c =? c' then Some s' else None
  | [] => None
  end.

Definition is_leap (y : Z) : bool :=
  (((y mod 4 =? 0) && negb (y mod 100 =? 0)) || (y mod 400 =? 0))%Z.

Definition days_in_month (y m : Z) : Z :=
  (if m =? 2 then (if is_leap y then 29 else 28)
   else if (m =? 4) || (m =? 6) || (m =? 9) || (m =? 11) then 30
   else 31)%Z.

(** The number of days from 1970-01-01 to [y-m-d]. *)
Definition days_from_civil (y m d : Z) : Z :=
  (let y' := if m <=? 2 then y - 1 else y in
   let era := y' / 400 in
   let yoe := y' - era * 400 in
   let mp := (m + 9) mod 12 in
   let doy := (153 * mp + 2) / 5 + d - 1 in
   let doe := yoe * 365 + yoe / 4 - yoe / 100 + doy in
   era * 146097 + doe - 719468)%Z.

(** The digits of a fraction of a second, and the text after them. *)
Fixpoint fraction (s : pystr) (acc : Z) (count : nat) : Z * nat * pystr :=
  match s with
  | c :: s' =>
      match digit c with
      | Some d => fraction s' (10 * acc + d)%Z (S count)
      | None => (acc, count, s)
      end
  | [] => (acc, count, s)
  end.

(** The nanoseconds of the seconds field [:SS[.fraction]], absent or not. *)
Definition seconds_ns (s : pystr) : option (Z * pystr) :=
  match s with
  | 0x3A :: s1 =>
      '(sec, s2) ← take_digits 2 s1 0%Z;
      match s2 with
      | 0x2E :: s3 =>
          let '(f, n, s4) := fraction s3 0%Z 0%nat in
          if Nat.leb 1 n && Nat.leb n 9
          then Some (sec * 10 ^ 9 + f * 10 ^ Z.of_nat (9 - n), s4)%Z
          else None
      | _ => Some (sec * 10 ^ 9, s2)%Z
      end
  | _ => Some (0%Z, s)
  end.

(** The nanoseconds of a time of day [HH:MM[:SS[.fraction]]]. *)
Definition time_of_day (s : pystr) : option (Z * pystr) :=
  '(h, s1) ← take_digits 2 s 0%Z;
  s2 ← expect 0x3A s1;
  '(mi, s3) ← take_digits 2 s2 0%Z;
  '(sec, s4) ← seconds_ns s3;
  if ((h <? 24) && (mi <? 60) && (sec <? 60 * 10 ^ 9))%Z
  then Some (((h * 3600 + mi * 60) * 10 ^ 9 + sec)%Z, s4)
  else None.

(** The nanoseconds a UTC offset adds to local time: nothing, [Z] or
    [+HH:MM]. *)
Definition utc_offset (s : pystr) : option Z :=
  match s with
  | [] | [0x5A] => Some 0%Z
  | sign :: s1 =>
      if (sign =? 0x2B) || (sign =? 0x2D) then
        '(h, s2) ← take_digits 2 s1 0%Z;
        s3 ← expect 0x3A s2;
        '(mi, s4) ← take_digits 2 s3 0%Z;
        match s4 with
        | [] =>
            let ns := ((h * 3600 + mi * 60) * 10 ^ 9)%Z in
            if ((h <? 24) && (mi <? 60))%Z
            then Some (if sign =? 0x2B then ns else (- ns)%Z)
            else None
        | _ => None
        end
      else None
  end.

Definition iso_ns (s : pystr) : option Z :=
  '(y, s1) ← take_digits 4 s 0%Z;
  s2 ← expect 0x2D s1;
  '(m, s3) ← take_digits 2 s2 0%Z;
  s4 ← expect 0x2D s3;
  '(d, s5) ← take_digits 2 s4 0%Z;
  if ((1 <=? m) && (m <=? 12) && (1 <=? d) && (d <=? days_in_month y m))%Z
  then
    let day := (days_from_civil y m d * 86400 * 10 ^ 9)%Z in
    match s5 with
    | [] => Some day
    | c :: s6 =>
        if (c =? 0x54) || (c =? 0x20) then
          '(t, s7) ← time_of_day s6;
          offset ← utc_offset s7;
          Some (day + t - offset)%Z
        else None
    end
  else None.

Definition nat_value : Z := (- 2 ^ 63)%Z.

Definition in_range (t : Z) : bool := ((nat_value <? t) && (t <? 2 ^ 63))%Z.

Definition datetime_scalar (c : cell) : outcome cell :=
  match c with
  | CVal JNone | CVal (JStr []) | CVal (JFloat S754_nan) => Ok (CTime nat_value)
  | CVal (JStr s) =>
      match iso_ns s with
      | Some t => if in_range t then Ok (CTime t)
                  else Raise (Exn ValueError NoArg)
      | None => Raise (Exn ValueError NoArg)
      end
  | CVal (JInt n) => if in_range n then Ok (CTime n)
                     else Raise (Exn ValueError NoArg)
  | CTime t => Ok (CTime t)
  | _ => Raise (Exn TypeError NoArg)
  end.

(** The documents the decoder recognises, by their canonical text. *)
(** The order book of the docstring of [process_orderbook]. *)
Definition book : json :=
  JDict [(py "marketId", JStr (py "BAT-AUD")); (py "snapshotId", JInt 1);
         (py "asks", JList [JList [JStr (py "0.2677"); JStr (py "5665.85")]]);
         (py "bids", JList [JList [JStr (py "0.2612"); JStr (py "17847.84")]])].

Definition new_order : json := JDict [(py "orderId", JStr (py "7"))].

Definition not_found : json :=
  JDict [(py "code", JStr (py "OrderNotFound"));
         (py "message", JStr (py "order was not found"))].

(** An error message as [makeHttpCall] returns it. *)
Definition rate_limited : json :=
  JDict [(py "statusCode", JInt 429); (py "message", JStr (py "rate limited"))].

Definition documents : list json := [JList []; book; new_order; not_found].

Definition loads (text : pystr) : outcome json :=
  of_option JSONDecodeError
    (find (fun d => bool_decide (json_dumps d = text)) documents).

Definition loads_bytes (raw : pybytes) : outcome json :=
  obind (of_option UnicodeDecodeError (Utf8.decode raw)) loads.

#[export] Instance ext : PyExt := {|
  json_loads := loads;
  json_loads_bytes := loads_bytes;
  DataFrame_other := fun _ => Raise (Exn ValueError NoArg);
  Series_other := fun _ => Raise (Exn ValueError NoArg);
  numeric_entry := numeric_scalar;
  numeric_column := fun col => Ok (numeric_dtype col);
  datetime_entry := datetime_scalar;
  datetime_column := Ok;
  NaT := nat_value;
  frame_setitem_other := fun _ _ _ => Raise (Exn ValueError NoArg);
  series_setitem_other := fun _ _ _ => Raise (Exn ValueError NoArg)
|}.

Definition body_of (doc : json) : pybytes :=
  default [] (Utf8.encode (json_dumps doc)).

(** The server of the examples: an order book for order-book requests,
    the new order for a POST, "not found" for a DELETE, and an empty list
    for anything else. *)
Definition server (history : list http_request) (r : http_request)
  : http_outcome :=
  if is_substring (py "/orderbook") (req_url r) then
    HttpOk (body_of book)
  else if bool_decide (req_method r = py "POST") then
    HttpOk (body_of new_order)
  else if bool_decide (req_method r = py "DELETE") then
    HTTPError 404 (body_of not_found)
  else HttpOk (body_of (JList [])).

Definition key : pybytes :=
  map byte_of_ascii (list_ascii_of_string "secret-key-bytes").

Definition strict : client := Client (py "api-key") key true.
Definition lenient : client := Client (py "api-key") key false.

(** A world whose clock starts at 1700000000000 ms and gains one
    millisecond per reading. *)
Definition world0 : world :=
  World (fun n => Z.of_nat n + 1700000000000)%Z 0 server [] [] ∅.

(** The same world with one JSON object in its store. *)
Definition holding (v : json) : world :=
  World (fun n => Z.of_nat n + 1700000000000)%Z 0 server [] []
    {[1%positive := v]}.

End Sample.


(** ** More documents and servers for the examples *)

Module Cases.
Import Sample.

(** An order book whose asks cannot be read. *)
Definition torn_book : json :=
  JDict [(py "marketId", JStr (py "BAT-AUD"));
         (py "bids", JList [JList [JStr (py "0.2612"); JStr (py "17847.84")]]);
         (py "asks", JList [JList [JStr (py "n/a"); JStr (py "5665.85")]])].

(** An order book without asks. *)
Definition thin_book : json :=
  JDict [(py "marketId", JStr (py "BTC-AUD"));
         (py "bids", JList [JList [JStr (py "100.5"); JStr (py "2")]])].

(** Two trades, the second without a fee. *)
Definition trades : list (list (pystr * json)) :=
  [ [(py "id", JStr (py "1")); (py "price", JStr (py "100.5"));
     (py "side", JStr (py "Bid")); (py "fee", JStr (py "0.25"))];
    [(py "id", JStr (py "2")); (py "price", JStr (py "99"));
     (py "side", JStr (py "Ask"))] ].

(** A decoder that knows the answer of [orderbooks] as well. *)
Definition more_documents : list json :=
  JList [book; thin_book] :: documents.

Definition loads_more (text : pystr) : outcome json :=
  of_option JSONDecodeError
    (find (fun d => bool_decide (json_dumps d = text)) more_documents).

Definition loads_more_bytes (raw : pybytes) : outcome json :=
  obind (of_option UnicodeDecodeError (Utf8.decode raw)) loads_more.

Definition ext : PyExt := {|
  json_loads := loads_more;
  json_loads_bytes := loads_more_bytes;
  DataFrame_other := fun _ => Raise (Exn ValueError NoArg);
  Series_other := fun _ => Raise (Exn ValueError NoArg);
  numeric_entry := numeric_scalar;
  numeric_column := fun col => Ok (numeric_dtype col);
  datetime_entry := datetime_scalar;
  datetime_column := Ok;
  NaT := nat_value;
  frame_setitem_other := fun _ _ _ => Raise (Exn ValueError NoArg);
  series_setitem_other := fun _ _ _ => Raise (Exn ValueError NoArg)
|}.

(** A host that cannot be reached. *)
Definition offline : world :=
  World (fun n => Z.of_nat n + 1700000000000)%Z 0 (fun _ _ => URLError)
    [] [] ∅.

(** A server that answers every request with "not found". *)
Definition refusing : world :=
  World (fun n => Z.of_nat n + 1700000000000)%Z 0
    (fun _ _ => HTTPError 404 (body_of not_found)) [] [] ∅.

(** A server that answers every request with two order books. *)
Definition batch : world :=
  World (fun n => Z.of_nat n + 1700000000000)%Z 0
    (fun _ _ => HttpOk (body_of (JList [book; thin_book]))) [] [] ∅.

End Cases.

Definition hex_digit (n : N) : ascii :=
nth (N.to_nat n) (list_ascii_of_string "0123456789abcdef") "?"%char.

(** [bs.hex()] *)
Definition hex (bs : pybytes) : string :=
string_of_list_ascii
  (flat_map (fun b => [hex_digit (Byte.to_N b / 16);
                       hex_digit (Byte.to_N b mod 16)]) bs).

Definition ascii_bytes (s : string) : pybytes :=
map byte_of_ascii (list_ascii_of_string s).

(** ** Predicates of the statements *)

(** A field list that names at least one field. *)
Definition declares_field (fields : option (list pystr)) : bool :=
  match fields with
  | Some (_ :: _) => true
  | _ => false
  end.

(** [row'] is the pair of floats read from the pair of strings [row]. *)
Definition float_row {L : PyLib} (row row' : json) : Prop :=
  exists price amount x y,
    row = JList [JStr price; JStr amount]
    /\ float_of_str price = Some x /\ float_of_str amount = Some y
    /\ row' = JList [JFloat x; JFloat y].

(** A sequence of [[price, amount]] pairs of strings that [float] reads. *)
Definition priced_rows {L : PyLib} (v : json) : Prop :=
  exists items, v = JList items
                /\ Forall (fun row => exists row', float_row row row') items.

(** A printable ASCII character. *)
Definition is_printable (c : N) : bool := (0x20 <=? c) && (c <=? 0x7E).

(** A character [urlencode] may write: unreserved, or one of [+%=&]. *)
Definition is_query_char (c : N) : bool :=
  always_safe c || (c =? 0x2B) || (c =? 0x25) || (c =? 0x3D) || (c =? 0x26).

(** The methods that serialise their payload themselves and hand
    [makeHttpCall] the text. *)
Definition serialises_payload {L : PyLib} (e : endpoint) : bool :=
  match e with
  | PlaceOrder _ _ _ _ _ _ _ _ _ _ _ | ReplaceOrder _ _ _ _
  | PlaceAndCancelOrders _ _ | CreateNewReport _ _ => true
  | _ => false
  end.

(** An order book whose sides, where present, are lists of
    [[price, amount]] pairs of strings that [float] reads. *)
Definition priced_book {L : PyLib} (book : json) : Prop :=
  exists d, book = JDict d
            /\ forall side rows, side ∈ [py "bids"; py "asks"] ->
                 dict_get side d = Some rows -> priced_rows rows.

(** The column [make_df] builds for a field from a list of records: the
    value of each record, or the missing-value marker. *)
Definition column_of {L : PyLib} (f : pystr)
    (rows : list (list (pystr * json))) : list cell :=
  map (fun row => match dict_get f row with
                  | Some v => CVal v
                  | None => nan_cell
                  end) rows.

(** A side with nothing left to convert. *)
Definition side_settled {L : PyLib} (side : pystr) (o : json) : Prop :=
  fst (process_side_nested side o) = Ok tt
  /\ snd (process_side_nested side o) = o.

(** A character of base64 text: a letter, a digit, [+], [/] or the
    padding [=]. *)
Definition is_base64_char (c : N) : bool :=
  bool_decide (c ∈ map Byte.to_N (Base64.alphabet ++ [Base64.pad])).

(** Induction on a document and the documents inside it. *)
Fixpoint json_nested_ind {L : PyLib} (P : json -> Prop)
    (HNone : P JNone) (HBool : forall b, P (JBool b))
    (HInt : forall n, P (JInt n)) (HFloat : forall x, P (JFloat x))
    (HStr : forall s, P (JStr s))
    (HList : forall items, Forall P items -> P (JList items))
    (HDict : forall entries,
        Forall (fun kv => P (snd kv)) entries -> P (JDict entries))
    (v : json) : P v :=
  match v with
  | JNone => HNone
  | JBool b => HBool b
  | JInt n => HInt n
  | JFloat x => HFloat x
  | JStr s => HStr s
  | JList items =>
      HList items
        ((fix go (l : list json) : Forall P l :=
            match l with
            | [] => @List.Forall_nil _ P
            | x :: l' =>
                @List.Forall_cons _ P x l'
                  (json_nested_ind P HNone HBool HInt HFloat HStr HList
                     HDict x)
                  (go l')
            end) items)
  | JDict entries =>
      HDict entries
        ((fix go (l : list (pystr * json))
            : Forall (fun kv => P (snd kv)) l :=
            match l with
            | [] => @List.Forall_nil _ (fun kv => P (snd kv))
            | kv :: l' =>
                @List.Forall_cons _ (fun kv => P (snd kv)) kv l'
                  (json_nested_ind P HNone HBool HInt HFloat HStr HList
                     HDict (snd kv))
                  (go l')
            end) entries)
  end.

(** * Properties *)

Lemma encode_cons (c : N) (s : pystr) :
  Utf8.encode (c :: s) =
  match Utf8.encode_char c, Utf8.encode s with
  | Some bs, Some rest => Some (bs ++ rest)
  | _, _ => None
  end.
Proof. reflexivity. Qed.

Lemma decode_cons_ascii (b : byte) (bs : pybytes) :
  (Byte.to_N b <? 0x80) = true ->
  Utf8.decode (b :: bs) = cons (Byte.to_N b) <$> Utf8.decode bs.
Proof. intros H. simpl. rewrite H. reflexivity. Qed.

Arguments py : simpl never.
Arguments str_of_int : simpl never.
Arguments Utf8.encode : simpl never.
Arguments Utf8.decode : simpl never.
Arguments Base64.b64encode : simpl never.
Arguments Hmac.hmac_sha512 : simpl never.
Arguments json_dumps : simpl never.
Arguments urlencode : simpl never.
Arguments base_url : simpl never.

(** ** Known answers of the primitives *)

Example sha512_abc :
  hex (Sha512.digest (ascii_bytes "abc")) =
  "ddaf35a193617abacc417349ae20413112e6fa4e89a97ea20a9eeee64b55d39a2192992a274fc1a836ba3c23a3feebbd454d4423643ce80e2a9ac94fa54ca49f"%string.
Proof. vm_compute. reflexivity. Qed.

(** RFC 4231, test case 2 *)
Example hmac_sha512_rfc4231 :
  hex (Hmac.hmac_sha512 (ascii_bytes "Jefe")
         (ascii_bytes "what do ya want for nothing?")) =
  "164b7a7bfcf819e2e395fbe73b56e0a387bd64222e831fd610270cd7ea2505549758bf75c05a994a6d034f65f8f0e6fdcaeab1a34d4a6b4b636e070a38bce737"%string.
Proof. vm_compute. reflexivity. Qed.

(** A key longer than the block is hashed first, and a message longer than
    a block is compressed block by block: [hmac.new(b"k" * 200, b"msg",
    hashlib.sha512).hexdigest()] and [hashlib.sha512(b"a" * 200)]. *)
Example hmac_sha512_long_key :
  hex (Hmac.hmac_sha512 (repeat (byte_of_ascii "k") 200) (ascii_bytes "msg")) =
  "b5245971beb52a5a986812c4666a05c735bf5bb7aba32eae2192adad605df4112d6c285d1c46cf81ccb7ab8c2c3b7b3c6793216909b5add05223ed21f24cdb1e"%string
  /\ hex (Sha512.digest (repeat (byte_of_ascii "a") 200)) =
     "4b11459c33f52a22ee8236782714c150a3b2c60994e9acee17fe68947a3e6789f31e7668394592da7bef827cddca88c4e6f86e4df7ed1ae6cba71f3e98faee9f"%string.
Proof. vm_compute. auto. Qed.

Example b64encode_padding :
  Base64.b64encode (ascii_bytes "a") = ascii_bytes "YQ=="
  /\ Base64.b64encode (ascii_bytes "ab") = ascii_bytes "YWI="
  /\ Base64.b64encode (ascii_bytes "abcd") = ascii_bytes "YWJjZA==".
Proof. vm_compute. auto. Qed.

Example utf8_euro_sign :
  Utf8.encode [0x20AC] = Some [byte_of_N 0xE2; byte_of_N 0x82; byte_of_N 0xAC]
  /\ Utf8.encode [0xD800] = None
  /\ Utf8.decode [byte_of_N 0xE2; byte_of_N 0x82; byte_of_N 0xAC] = Some [0x20AC]
  /\ Utf8.decode [byte_of_N 0xC0; byte_of_N 0x80] = None.
Proof. vm_compute. auto. Qed.

(** ** UTF-8 and base64 *)

Definition is_ascii (b : byte) : Prop := Byte.to_N b < 0x80.

Lemma encode_app (a b : pystr) :
  Utf8.encode (a ++ b) =
  match Utf8.encode a, Utf8.encode b with
  | Some x, Some y => Some (x ++ y)
  | _, _ => None
  end.
Proof.
  induction a as [|c a IH].
  - change (Utf8.encode []) with (Some (@nil byte)).
    change ([] ++ b) with b. destruct (Utf8.encode b); reflexivity.
  - rewrite <- app_comm_cons, !encode_cons, IH.
    destruct (Utf8.encode_char c); [|reflexivity].
    destruct (Utf8.encode a); [|reflexivity].
    destruct (Utf8.encode b); [|reflexivity].
    now rewrite app_assoc.
Qed.

Lemma encode_app_inv (a b : pystr) (bs : pybytes) :
  Utf8.encode (a ++ b) = Some bs ->
  exists x y, Utf8.encode a = Some x /\ Utf8.encode b = Some y /\ bs = x ++ y.
Proof.
  rewrite encode_app.
  destruct (Utf8.encode a) as [x|]; [|discriminate].
  destruct (Utf8.encode b) as [y|]; [|discriminate].
  intros [= <-]. eauto.
Qed.

Lemma decode_ascii (bs : pybytes) :
  Forall is_ascii bs -> Utf8.decode bs = Some (map Byte.to_N bs).
Proof.
  induction 1 as [|b bs Hb _ IH]; [reflexivity|].
  unfold is_ascii in Hb. apply N.ltb_lt in Hb.
  rewrite decode_cons_ascii, IH by exact Hb. reflexivity.
Qed.

Lemma sextet_ascii (n : N) : is_ascii (Base64.sextet n).
Proof.
  unfold Base64.sextet.
  assert (Hall : Forall is_ascii (Base64.pad :: Base64.alphabet)).
  { vm_compute. repeat (constructor; [reflexivity|]). constructor. }
  rewrite List.Forall_forall in Hall. apply Hall.
  destruct (nth_in_or_default (N.to_nat (N.land n 63)) Base64.alphabet
              Base64.pad) as [Hin | ->]; [now right | now left].
Qed.

Lemma pad_ascii : is_ascii Base64.pad.
Proof. reflexivity. Qed.

Lemma b64encode_ascii (bs : pybytes) : Forall is_ascii (Base64.b64encode bs).
Proof.
  remember (length bs) as n eqn:Hn.
  revert bs Hn. induction n as [n IH] using lt_wf_ind. intros bs ->.
  destruct bs as [|a [|b [|c rest]]]; cbn [Base64.b64encode].
  - constructor.
  - repeat constructor; auto using sextet_ascii, pad_ascii.
  - repeat constructor; auto using sextet_ascii, pad_ascii.
  - repeat (constructor; [apply sextet_ascii|]).
    eapply IH; [|reflexivity]. simpl. lia.
Qed.

(** The signature text is the base64 text read as ASCII. *)
Lemma decode_b64encode (bs : pybytes) :
  Utf8.decode (Base64.b64encode bs) = Some (map Byte.to_N (Base64.b64encode bs)).
Proof. apply decode_ascii, b64encode_ascii. Qed.

(** ** Signer *)

Section SignerProperties.
Context {L : PyLib}.

Lemma signMessage_encoded (privateKey : pybytes) (message : pystr)
    (bs : pybytes) :
  Utf8.encode message = Some bs ->
  signMessage privateKey message =
  Ok (map Byte.to_N (Base64.b64encode (Hmac.hmac_sha512 privateKey bs))).
Proof.
  intros H. unfold signMessage. rewrite H. simpl.
  now rewrite decode_b64encode.
Qed.

Lemma signMessage_unencodable (privateKey : pybytes) (message : pystr) :
  Utf8.encode message = None ->
  signMessage privateKey message = Raise (Exn UnicodeEncodeError NoArg).
Proof. intros H. unfold signMessage. now rewrite H. Qed.

Lemma canonical_message_spelled (method path now : pystr)
    (data : option pystr) :
  canonical_message method path now data =
  method ++ path ++ now ++ default [] data.
Proof.
  unfold canonical_message. destruct data as [d|]; simpl.
  - now rewrite <- !app_assoc.
  - now rewrite app_nil_r.
Qed.

(** The six headers of a request stamped [now] and signed [signature]. *)
Lemma buildHeaders_run (method apiKey : pystr) (privateKey : pybytes)
    (path : pystr) (data : option pystr) (w : world) :
  let now := str_of_int (clock w (ticks w)) in
  buildHeaders method apiKey privateKey path data w =
  (match signMessage privateKey (canonical_message method path now data) with
   | Ok signature =>
       Ok [ (py "Accept", py "application/json");
            (py "Accept-Charset", py "UTF-8");
            (py "Content-Type", py "application/json");
            (py "BM-AUTH-APIKEY", apiKey);
            (py "BM-AUTH-TIMESTAMP", now);
            (py "BM-AUTH-SIGNATURE", signature) ]
   | Raise e => Raise e
   end, set_ticks (S (ticks w)) w).
Proof.
  unfold buildHeaders, bind, time_ms, lift, ret. simpl.
  destruct (signMessage _ _); reflexivity.
Qed.

(** C1. Whatever the method, path, optional body and private key, when
    the canonical message [method + path + timestamp [+ body]] has a
    UTF-8 encoding [bs], [buildHeaders] returns headers whose
    [BM-AUTH-SIGNATURE] is the base64 text of the HMAC-SHA512 digest of
    [bs] under the raw private key, read back as a UTF-8 string. *)
Theorem buildHeaders_signs_canonical_message
    (method apiKey : pystr) (privateKey : pybytes) (path : pystr)
    (data : option pystr) (w : world) (bs : pybytes) :
  let now := str_of_int (clock w (ticks w)) in
  Utf8.encode (method ++ path ++ now ++ default [] data) = Some bs ->
  exists headers signature,
    fst (buildHeaders method apiKey privateKey path data w) = Ok headers
    /\ dict_get (py "BM-AUTH-SIGNATURE") headers = Some signature
    /\ Utf8.decode (Base64.b64encode (Hmac.hmac_sha512 privateKey bs))
       = Some signature.
Proof.
  intros now Hbs. rewrite buildHeaders_run. fold now.
  rewrite canonical_message_spelled, (signMessage_encoded _ _ _ Hbs).
  eexists _, _. split; [reflexivity|]. split; [reflexivity|].
  apply decode_b64encode.
Qed.

(** Without an encoding (a lone surrogate in the method, path or body)
    nothing is signed: the encoder's error comes out. *)
Lemma buildHeaders_unencodable
    (method apiKey : pystr) (privateKey : pybytes) (path : pystr)
    (data : option pystr) (w : world) :
  let now := str_of_int (clock w (ticks w)) in
  Utf8.encode (method ++ path ++ now ++ default [] data) = None ->
  fst (buildHeaders method apiKey privateKey path data w)
  = Raise (Exn UnicodeEncodeError NoArg).
Proof.
  intros now H. rewrite buildHeaders_run. fold now.
  rewrite canonical_message_spelled, (signMessage_unencodable _ _ H).
  reflexivity.
Qed.

(** C3. In every call of [buildHeaders] that returns headers, the clock
    is read once, and the text of that reading is both the value of
    [BM-AUTH-TIMESTAMP] and the timestamp inside the message whose
    signature is emitted. *)
Theorem buildHeaders_timestamp_agrees
    (method apiKey : pystr) (privateKey : pybytes) (path : pystr)
    (data : option pystr) (w : world) (headers : list (pystr * pystr)) :
  fst (buildHeaders method apiKey privateKey path data w) = Ok headers ->
  exists now signature,
    now = str_of_int (clock w (ticks w))
    /\ ticks (snd (buildHeaders method apiKey privateKey path data w))
       = S (ticks w)
    /\ dict_get (py "BM-AUTH-TIMESTAMP") headers = Some now
    /\ dict_get (py "BM-AUTH-SIGNATURE") headers = Some signature
    /\ signMessage privateKey (method ++ path ++ now ++ default [] data)
       = Ok signature.
Proof.
  rewrite buildHeaders_run, canonical_message_spelled. simpl.
  destruct (signMessage _ _) as [signature|e] eqn:Hs; [|discriminate].
  intros [= <-]. exists (str_of_int (clock w (ticks w))), signature.
  repeat split; assumption || reflexivity.
Qed.

End SignerProperties.

(** ** Requests *)

Section ClientProperties.
Context {L : PyLib} {X : PyExt}.

(** Reading the answer touches nothing but the store. *)
Lemma receive_frame (self : client) (r : http_outcome) (w : world) :
  let w' := snd (receive self r w) in
  sent w' = sent w /\ stdout w' = stdout w /\ ticks w' = ticks w.
Proof.
  destruct r as [raw|code raw| |e]; unfold receive, bind, lift, ret, raise,
    alloc; simpl; auto.
  - destruct (of_option _ _); simpl; auto.
    destruct (json_loads _); simpl; auto.
  - destruct (json_loads_bytes _); simpl; auto.
    destruct (set_status_code _ _); simpl; auto.
    destruct (exception_on_error self); simpl; auto.
Qed.

(** The request a call puts on the wire. *)
Lemma makeHttpCall_sends (self : client) (method path : pystr)
    (query_params : option (list (pystr * qval))) (data : option json)
    (w : world) (bs : pybytes) (qs : pystr) (body : option pybytes) :
  let now := str_of_int (clock w (ticks w)) in
  let text := json_dumps <$> data in
  Utf8.encode (method ++ path ++ now ++ default [] text) = Some bs ->
  query_text query_params qs ->
  wire_body method text body ->
  sent (snd (makeHttpCall self method path query_params data w)) =
  sent w ++
  [Request method (base_url ++ path ++ qs)
     [ (py "Accept", py "application/json");
       (py "Accept-Charset", py "UTF-8");
       (py "Content-Type", py "application/json");
       (py "BM-AUTH-APIKEY", apiKey self);
       (py "BM-AUTH-TIMESTAMP", now);
       (py "BM-AUTH-SIGNATURE",
        map Byte.to_N
          (Base64.b64encode (Hmac.hmac_sha512 (privateKey self) bs))) ]
     text body].
Proof.
  intros now text Hbs Hqs Hbody. unfold makeHttpCall. fold text.
  unfold bind at 1. rewrite buildHeaders_run. fold now.
  rewrite canonical_message_spelled, (signMessage_encoded _ _ _ Hbs).
  unfold bind at 1.
  assert (Hpath :
    (match query_params with
     | Some q => qs0 <- lift (urlencode q) ;; ret (path ++ py "?" ++ qs0)
     | None => ret path
     end) (set_ticks (S (ticks w)) w)
    = (Ok (path ++ qs), set_ticks (S (ticks w)) w)).
  { destruct query_params as [q|]; simpl in Hqs.
    - destruct Hqs as (enc & Henc & ->). unfold bind, lift, ret.
      now rewrite Henc.
    - subst qs. unfold ret. now rewrite app_nil_r. }
  rewrite Hpath. unfold bind at 1.
  assert (Hwire :
    (if is_post_or_put method
     then match text with
          | Some d =>
              bs0 <- lift (of_option UnicodeEncodeError (Utf8.encode d)) ;;
              ret (Some bs0)
          | None => raise (Exn TypeError NoArg)
          end
     else ret None) (set_ticks (S (ticks w)) w)
    = (Ok body, set_ticks (S (ticks w)) w)).
  { unfold wire_body in Hbody. destruct (is_post_or_put method).
    - destruct Hbody as (d & bs0 & -> & Hd & ->). unfold bind, lift, ret.
      now rewrite Hd.
    - now subst body. }
  rewrite Hwire. unfold bind at 1, urlopen. simpl.
  match goal with
  | |- sent (snd (receive ?s ?r ?w0)) = _ =>
      destruct (receive_frame s r w0) as (-> & _)
  end.
  reflexivity.
Qed.

Lemma post_or_put (method : pystr) :
  method = py "POST" \/ method = py "PUT" -> is_post_or_put method = true.
Proof. intros [-> | ->]; reflexivity. Qed.

(** C4. For a POST or PUT with a body, the request that goes out carries
    as its body the UTF-8 bytes [wire] of the serialised body text, and
    the bytes that were signed are the bytes of [method + path +
    timestamp] followed by exactly those bytes [wire].  The body text is
    [json.dumps] of the argument, also when the caller has serialised it
    already and passes a string. *)
Theorem makeHttpCall_signs_transmitted_body (self : client)
    (method path : pystr) (query_params : option (list (pystr * qval)))
    (data : json) (w : world) (bs : pybytes) :
  let now := str_of_int (clock w (ticks w)) in
  let text := json_dumps data in
  method = py "POST" \/ method = py "PUT" ->
  Utf8.encode (method ++ path ++ now ++ text) = Some bs ->
  (forall q, query_params = Some q -> exists enc, urlencode q = Ok enc) ->
  exists req prefix wire signature,
    sent (snd (makeHttpCall self method path query_params (Some data) w))
    = sent w ++ [req]
    /\ req_body req = Some wire
    /\ Utf8.encode text = Some wire
    /\ Utf8.encode (method ++ path ++ now) = Some prefix
    /\ bs = prefix ++ wire
    /\ dict_get (py "BM-AUTH-SIGNATURE") (req_headers req) = Some signature
    /\ Utf8.decode (Base64.b64encode (Hmac.hmac_sha512 (privateKey self) bs))
       = Some signature.
Proof.
  intros now text Hm Hbs Hq.
  assert (Hsplit : method ++ path ++ now ++ text
                   = (method ++ path ++ now) ++ text)
    by now rewrite <- !app_assoc.
  pose proof Hbs as Hbs'. rewrite Hsplit in Hbs'.
  apply encode_app_inv in Hbs' as (prefix & wire & Hprefix & Hwire & ->).
  assert (Hqs : exists qs, query_text query_params qs).
  { destruct query_params as [q|]; simpl; [|now exists []].
    destruct (Hq q eq_refl) as [enc Henc]. exists (py "?" ++ enc), enc. auto. }
  destruct Hqs as [qs Hqs].
  eexists _, prefix, wire, _. split.
  - apply (makeHttpCall_sends self method path query_params (Some data) w
             (prefix ++ wire) qs (Some wire)); [exact Hbs | exact Hqs |].
    unfold wire_body. rewrite (post_or_put _ Hm). exists text, wire. auto.
  - repeat split; try reflexivity; try assumption.
    apply decode_b64encode.
Qed.

Lemma literal_has_no_query (s : string) :
  has_query (py s) = false -> forall x, has_query x = false ->
  has_query (py s ++ x) = false.
Proof.
  unfold has_query. intros Hs x Hx. now rewrite existsb_app, Hs, Hx.
Qed.

Lemma has_query_app (a b : pystr) :
  has_query (a ++ b) = has_query a || has_query b.
Proof. apply existsb_app. Qed.

Lemma has_query_join (sep : pystr) (l : list pystr) :
  has_query sep = false -> Forall (fun s => has_query s = false) l ->
  has_query (join sep l) = false.
Proof.
  intros Hsep. induction 1 as [|x l Hx Hl IH]; [reflexivity|].
  destruct l as [|y l]; [exact Hx|].
  change (join sep (x :: y :: l)) with (x ++ sep ++ join sep (y :: l)).
  now rewrite !has_query_app, Hx, Hsep, IH.
Qed.

(** Where the code signs the bare path.  The path that is signed is the
    path argument of [makeHttpCall] as it stands: the query string made
    from [query_params] is appended to the URL after the headers are
    built and is not part of the signed bytes.  For every endpoint method
    but [tickers] and [orderbooks], that path argument holds no ['?'] as
    long as the identifiers written into it hold none. *)
Theorem makeHttpCall_signs_path_argument :
  (forall (self : client) (method path : pystr)
          (query_params : option (list (pystr * qval))) (data : option json)
          (w : world) (bs : pybytes) (qs : pystr) (body : option pybytes),
      let now := str_of_int (clock w (ticks w)) in
      let text := json_dumps <$> data in
      Utf8.encode (method ++ path ++ now ++ default [] text) = Some bs ->
      query_text query_params qs ->
      wire_body method text body ->
      exists req signature,
        sent (snd (makeHttpCall self method path query_params data w))
        = sent w ++ [req]
        /\ req_url req = base_url ++ path ++ qs
        /\ dict_get (py "BM-AUTH-SIGNATURE") (req_headers req) = Some signature
        /\ Utf8.decode
             (Base64.b64encode (Hmac.hmac_sha512 (privateKey self) bs))
           = Some signature)
  /\ (forall e : endpoint,
        writes_own_query e = false ->
        Forall (fun s => has_query s = false) (path_args e) ->
        has_query (snd (fst (fst (request_of e)))) = false).
Proof.
  split.
  - intros self method path query_params data w bs qs body now text Hbs Hqs
      Hbody.
    eexists _, _. split.
    + apply (makeHttpCall_sends self method path query_params data w bs qs
               body Hbs Hqs Hbody).
    + repeat split; try reflexivity. apply decode_b64encode.
  - intros e He Hargs.
    destruct e; try discriminate He; simpl in Hargs |- *;
      repeat match goal with
             | H : Forall _ (_ :: _) |- _ => inversion H; subst; clear H
             end;
      rewrite ?has_query_app;
      repeat match goal with
             | H : has_query _ = false |- _ => rewrite H
             end;
      try reflexivity;
      rewrite has_query_join by (assumption || reflexivity); reflexivity.
Qed.

End ClientProperties.

(** ** Validation errors *)

Section ErrorProperties.
Context {L : PyLib} {X : PyExt}.

(** [handle_error] never looks at the message it is given. *)
Lemma handle_error_run (self : client) (msg : pystr) (w : world) :
  handle_error self msg w =
  if exception_on_error self
  then (Raise (Exn ValueError (Msg (py "No market_ids provided"))), w)
  else (Ok None,
        set_stdout (stdout w ++ [py "No market_ids provided"]) w).
Proof.
  unfold handle_error. destruct (exception_on_error self); reflexivity.
Qed.

(** Turning a call down sends nothing and reads no clock. *)
Lemma handle_error_sends_nothing (self : client) (msg : pystr) (w : world) :
  sent (snd (handle_error self msg w)) = sent w
  /\ ticks (snd (handle_error self msg w)) = ticks w
  /\ store (snd (handle_error self msg w)) = store w.
Proof.
  rewrite handle_error_run. destruct (exception_on_error self); auto.
Qed.

(** A stop-type order without a trigger price is turned down before any
    request is built: nothing is sent, and the policy decides between
    raising and returning [None]. *)
Lemma place_order_requires_trigger (self : client)
    (market_id price amount side order_type : pystr)
    (targetAmount : option pystr) (timeInForce : pystr) (postOnly : bool)
    (selfTrade : pystr) (client_order_id : option pystr) (w : world) :
  order_type ∈ [py "Stop"; py "Stop Limit"; py "Take Profit"] ->
  place_order self market_id price amount side order_type None targetAmount
    timeInForce postOnly selfTrade client_order_id w
  = handle_error self (order_type ++ py " requires triggerPrice") w.
Proof.
  intros H. unfold place_order.
  rewrite (bool_decide_eq_true_2 _ H). reflexivity.
Qed.

End ErrorProperties.

(** ** Normaliser *)

Section NormaliserProperties.
Context {L : PyLib} {X : PyExt}.

Lemma load_run (l : loc) (w : world) (v : json) :
  store w !! l = Some v -> load l w = (Ok v, w).
Proof. intros H. unfold load. now rewrite H. Qed.

(** C5. An input that is a dict with the key ["statusCode"] comes back
    from [make_df] and from [make_series] as the very object that went
    in, with nothing converted, nothing raised and the world as it was,
    whatever the declared numeric and temporal fields. *)
Theorem error_message_returned_unmodified (data : loc)
    (d : list (pystr * json)) (numeric time : option (list pystr))
    (w : world) :
  store w !! data = Some (JDict d) ->
  dict_has (py "statusCode") d = true ->
  make_df data numeric time w = (Ok (VRef data), w)
  /\ make_series data numeric time w = (Ok (VRef data), w).
Proof.
  intros Hd Hs. unfold make_df, make_series, bind.
  rewrite (load_run _ _ _ Hd). simpl. rewrite Hs. split; reflexivity.
Qed.

Lemma convert_frame_empty (conv : list cell -> outcome (list cell))
    (fields : option (list pystr)) :
  convert_frame conv fields (Frame 0 []) =
  if declares_field fields then Raise (Exn KeyError NoArg)
  else Ok (Frame 0 []).
Proof.
  destruct fields as [[|k labels]|]; reflexivity.
Qed.

(** [make_df] of the empty list is the empty table when no field is
    declared (each list absent or empty); when the numeric or the
    temporal list names a field, the selection of that column from the
    empty table raises [KeyError]. *)
Theorem make_df_empty_list (data : loc) (numeric time : option (list pystr))
    (w : world) :
  store w !! data = Some (JList []) ->
  make_df data numeric time w =
  (if declares_field numeric || declares_field time
   then Raise (Exn KeyError NoArg)
   else Ok (VFrame (Frame 0 [])), w).
Proof.
  intros Hd. unfold make_df, bind. rewrite (load_run _ _ _ Hd). simpl.
  unfold lift, process_panda. rewrite convert_frame_empty.
  destruct (declares_field numeric); simpl; [reflexivity|].
  rewrite convert_frame_empty. destruct (declares_field time); reflexivity.
Qed.

(** *** Dicts *)

Lemma dict_get_set {V} (k k' : pystr) (v : V) (d : list (pystr * V)) :
  dict_get k (dict_set k' v d) =
  if decide (k = k') then Some v else dict_get k d.
Proof.
  induction d as [|[k0 v0] d IH]; simpl.
  - destruct (decide (k = k')); reflexivity.
  - destruct (decide (k' = k0)) as [->|Hne]; simpl.
    + destruct (decide (k = k0)); reflexivity.
    + destruct (decide (k = k0)) as [->|Hne'].
      * destruct (decide (k0 = k')); [congruence | reflexivity].
      * exact IH.
Qed.

Lemma dict_set_keys {V} (k : pystr) (v : V) (d : list (pystr * V)) :
  is_Some (dict_get k d) -> map fst (dict_set k v d) = map fst d.
Proof.
  induction d as [|[k0 v0] d IH]; simpl; intros [x Hx]; [discriminate|].
  destruct (decide (k = k0)); simpl; [reflexivity|].
  f_equal. apply IH. eauto.
Qed.


Lemma dict_get_map_keys {V} (g : pystr -> V) (k : pystr) (keys : list pystr) :
  In k keys -> dict_get k (map (fun x => (x, g x)) keys) = Some (g k).
Proof.
  induction keys as [|k0 keys IH]; simpl; [tauto|].
  intros H. destruct (decide (k = k0)) as [->|Hne]; [reflexivity|].
  destruct H as [->|H]; [congruence | auto].
Qed.

(** *** Outcomes *)



Lemma omap_ok {A B} (f : A -> outcome B) (l : list A) (ys : list B) :
  omap f l = Ok ys -> Forall2 (fun x y => f x = Ok y) l ys.
Proof.
  revert ys. induction l as [|x l IH]; simpl; intros ys.
  - intros [= <-]. constructor.
  - destruct (f x) as [y|] eqn:Hx; simpl; [|discriminate].
    destruct (omap f l) as [ys'|]; simpl; [|discriminate].
    intros [= <-]. constructor; auto.
Qed.

Lemma omap_length {A B} (f : A -> outcome B) (l : list A) (ys : list B) :
  omap f l = Ok ys -> length ys = length l.
Proof. intros H. apply omap_ok, Forall2_length in H. auto. Qed.

(** *** [process_orderbook] *)

Lemma float_pair_strings (row row' : json) :
  float_row row row' -> float_pair row = Ok row'.
Proof.
  intros (price & amount & x & y & -> & Hx & Hy & ->).
  unfold float_pair. simpl. rewrite Hx. simpl. rewrite Hy. reflexivity.
Qed.

Lemma float_pairs_strings (items : list json) :
  Forall (fun row => exists row', float_row row row') items ->
  exists items', float_pairs (JList items) = Ok (JList items')
                 /\ Forall2 float_row items items'.
Proof.
  unfold float_pairs. simpl.
  induction 1 as [|row items [row' Hrow] _ (items' & IH & Hall)].
  - exists []. split; [reflexivity | constructor].
  - exists (row' :: items'). split; [|now constructor].
    simpl. rewrite (float_pair_strings _ _ Hrow). simpl.
    destruct (omap float_pair items); simpl in *; [|discriminate].
    now injection IH as ->.
Qed.

Lemma process_side_dict (orderbook : loc) (side : pystr)
    (d : list (pystr * json)) (w : world) :
  store w !! orderbook = Some (JDict d) ->
  process_side orderbook side w =
  match dict_get side d with
  | Some rows =>
      match float_pairs rows with
      | Ok converted =>
          (Ok tt,
           set_store (<[orderbook := JDict (dict_set side converted d)]>
                        (store w)) w)
      | Raise e => (Raise e, w)
      end
  | None => (Ok tt, w)
  end.
Proof.
  intros Hd. unfold process_side, bind. rewrite (load_run _ _ _ Hd).
  destruct (dict_get side d) as [rows|]; [|reflexivity].
  unfold lift, save. destruct (float_pairs rows); reflexivity.
Qed.

(** One side of an order book whose rows can be read. *)
Lemma process_side_converts (orderbook : loc) (side : pystr)
    (d : list (pystr * json)) (w : world) :
  store w !! orderbook = Some (JDict d) ->
  (forall rows, dict_get side d = Some rows -> priced_rows rows) ->
  exists d1 w1,
    process_side orderbook side w = (Ok tt, w1)
    /\ store w1 !! orderbook = Some (JDict d1)
    /\ map fst d1 = map fst d
    /\ (forall k, k <> side -> dict_get k d1 = dict_get k d)
    /\ (dict_get side d = None -> dict_get side d1 = None)
    /\ (forall items, dict_get side d = Some (JList items) ->
        exists items', dict_get side d1 = Some (JList items')
                       /\ Forall2 float_row items items').
Proof.
  intros Hd Hrows. rewrite (process_side_dict _ _ _ _ Hd).
  destruct (dict_get side d) as [rows|] eqn:Hside.
  - destruct (Hrows rows eq_refl) as (items & -> & Hall).
    destruct (float_pairs_strings items Hall) as (items' & -> & H2).
    eexists _, _. split; [reflexivity|]. simpl.
    split; [apply lookup_insert_eq|].
    split; [apply dict_set_keys; rewrite Hside; eauto|].
    split; [intros k Hk; rewrite dict_get_set;
            destruct (decide (k = side)); [contradiction | reflexivity]|].
    split; [discriminate|].
    intros items0 [= <-]. exists items'. split; [|exact H2].
    rewrite dict_get_set. destruct (decide (side = side)); congruence.
  - exists d, w. repeat split; auto. discriminate.
Qed.

(** C6. For an order book whose [bids] and [asks], where present, are
    sequences of [[price, amount]] pairs of strings that [float] reads,
    [process_orderbook] returns the book with each such pair replaced by
    the pair of floats read from it, a side that is absent still absent,
    and every other key, [marketId] and [snapshotId] among them, at its
    place with its original value. *)
Theorem process_orderbook_converts_sides (orderbook : loc)
    (d : list (pystr * json)) (w : world) :
  store w !! orderbook = Some (JDict d) ->
  (forall side rows, side ∈ [py "bids"; py "asks"] ->
                     dict_get side d = Some rows -> priced_rows rows) ->
  exists d' w',
    process_orderbook orderbook w = (Ok orderbook, w')
    /\ store w' !! orderbook = Some (JDict d')
    /\ map fst d' = map fst d
    /\ (forall k, k ∉ [py "bids"; py "asks"] -> dict_get k d' = dict_get k d)
    /\ (forall side, side ∈ [py "bids"; py "asks"] ->
          dict_get side d = None -> dict_get side d' = None)
    /\ (forall side items, side ∈ [py "bids"; py "asks"] ->
          dict_get side d = Some (JList items) ->
          exists items', dict_get side d' = Some (JList items')
                         /\ Forall2 float_row items items').
Proof.
  intros Hd Hrows.
  assert (Hne : py "bids" <> py "asks") by discriminate.
  destruct (process_side_converts orderbook (py "bids") d w Hd)
    as (d1 & w1 & Hrun1 & Hd1 & Hkeys1 & Hother1 & Hnone1 & Hsome1).
  { intros rows. apply Hrows. set_solver. }
  destruct (process_side_converts orderbook (py "asks") d1 w1 Hd1)
    as (d2 & w2 & Hrun2 & Hd2 & Hkeys2 & Hother2 & Hnone2 & Hsome2).
  { intros rows. rewrite Hother1 by congruence. apply Hrows. set_solver. }
  exists d2, w2. split.
  { unfold process_orderbook, bind. rewrite Hrun1, Hrun2. reflexivity. }
  split; [exact Hd2|]. split; [congruence|].
  split.
  { intros k Hk. rewrite Hother2, Hother1; [reflexivity| |];
      intros ->; apply Hk; set_solver. }
  split.
  - intros side Hside Hnone.
    apply elem_of_cons in Hside as [->|Hside].
    + rewrite Hother2 by congruence. auto.
    + apply list_elem_of_singleton in Hside as ->.
      apply Hnone2. now rewrite Hother1 by congruence.
  - intros side items Hside Hsome.
    apply elem_of_cons in Hside as [->|Hside].
    + rewrite Hother2 by congruence. auto.
    + apply list_elem_of_singleton in Hside as ->.
      apply Hsome2. now rewrite Hother1 by congruence.
Qed.

(** *** Tables and series *)





Lemma as_records_dicts (rows : list (list (pystr * json))) :
  as_records (map JDict rows) = Some rows.
Proof.
  induction rows as [|row rows IH]; simpl; [reflexivity|]. now rewrite IH.
Qed.


Lemma frame_getitem_ok (f sub : frame) (labels : list pystr) :
  frame_getitem f labels = Ok sub ->
  nrows sub = nrows f
  /\ Forall2 (fun k kc => fst kc = k /\ dict_get k (columns f) = Some (snd kc))
       labels (columns sub).
Proof.
  unfold frame_getitem.
  destruct (omap _ labels) as [cols|] eqn:Hcols; simpl; [|discriminate].
  intros [= <-]. split; [reflexivity|]. simpl.
  apply omap_ok in Hcols. eapply Forall2_impl; [exact Hcols|].
  intros k kc Hk. simpl in Hk.
  destruct (dict_get k (columns f)); simpl in Hk; [|discriminate].
  injection Hk as <-. auto.
Qed.


Lemma fold_dict_set_other {V W} (f : pystr) (pairs : list (pystr * (W * V)))
    (cols : list (pystr * V)) :
  ~ In f (map fst pairs) ->
  dict_get f (fold_left (fun acc kc => dict_set (fst kc) (snd (snd kc)) acc)
                pairs cols)
  = dict_get f cols.
Proof.
  revert cols. induction pairs as [|kc pairs IH]; simpl; intros cols Hf;
    [reflexivity|].
  rewrite IH by tauto. rewrite dict_get_set.
  destruct (decide (f = fst kc)); [|reflexivity].
  exfalso. apply Hf. left. congruence.
Qed.

Lemma combine_fst_subset {A B} (l : list A) (l' : list B) (x : A) :
  In x (map fst (combine l l')) -> In x l.
Proof.
  revert l'. induction l as [|a l IH]; intros [|b l']; simpl; try tauto.
  intros [->|H]; eauto.
Qed.

(** Converting other fields leaves a column and the row count alone. *)
Lemma convert_frame_other (conv : list cell -> outcome (list cell))
    (fields : option (list pystr)) (panda panda' : frame) (f : pystr) :
  (forall labels, fields = Some labels -> NoDup labels /\ f ∉ labels) ->
  convert_frame conv fields panda = Ok panda' ->
  nrows panda' = nrows panda
  /\ dict_get f (columns panda') = dict_get f (columns panda).
Proof.
  intros Hfields. destruct fields as [labels|]; simpl;
    [|intros [= <-]; auto].
  destruct (Hfields labels eq_refl) as [Hnd Hf].
  destruct (frame_getitem panda labels) as [sub|]; simpl; [|discriminate].
  destruct (frame_apply conv sub) as [converted|]; simpl; [|discriminate].
  unfold frame_setitem. rewrite (bool_decide_eq_true_2 _ Hnd).
  intros [= <-]. simpl. split; [reflexivity|].
  apply fold_dict_set_other. intros Hin.
  apply combine_fst_subset, list_elem_of_In in Hin. contradiction.
Qed.




Lemma make_df_records (data : loc) (rows : list (list (pystr * json)))
    (numeric time : option (list pystr)) (w : world) :
  store w !! data = Some (JList (map JDict rows)) ->
  make_df data numeric time w =
  (process_panda (VFrame (frame_of_records rows)) numeric time, w).
Proof.
  intros Hd. unfold make_df, bind. rewrite (load_run _ _ _ Hd). simpl.
  unfold DataFrame. rewrite as_records_dicts. reflexivity.
Qed.

Lemma make_series_dict (data : loc) (d : list (pystr * json))
    (numeric time : option (list pystr)) (w : world) :
  store w !! data = Some (JDict d) ->
  dict_has (py "statusCode") d = false ->
  make_series data numeric time w =
  (process_panda (VSeries (map (fun kv => (fst kv, CVal (snd kv))) d))
     numeric time, w).
Proof.
  intros Hd Hs. unfold make_series, bind. rewrite (load_run _ _ _ Hd). simpl.
  rewrite Hs. reflexivity.
Qed.

Lemma dict_get_cells (f : pystr) (d : list (pystr * json)) :
  dict_get f (map (fun kv => (fst kv, CVal (snd kv))) d)
  = CVal <$> dict_get f d.
Proof.
  induction d as [|[k v] d IH]; simpl; [reflexivity|].
  destruct (decide (f = k)); [reflexivity | exact IH].
Qed.





End NormaliserProperties.

(** ** Effects of the normalisers *)

Section EffectProperties.
Context {L : PyLib} {X : PyExt}.

Lemma make_df_world (data : loc) (numeric time : option (list pystr))
    (w : world) :
  snd (make_df data numeric time w) = w
  /\ match fst (make_df data numeric time w) with
     | Ok (VRef l) => l = data
     | _ => True
     end.
Proof.
  unfold make_df, bind, load, lift, ret.
  destruct (store w !! data) as [v|]; simpl; [|auto].
  destruct (is_error_message v); simpl; [auto|].
  destruct (DataFrame v) as [f|]; simpl; [|auto].
  split; [reflexivity|].
  destruct (convert_frame (to_numeric ErrorsRaise) numeric f); simpl;
    [|exact I].
  destruct (convert_frame (to_datetime ErrorsRaise) time _); simpl; exact I.
Qed.

Lemma make_series_world (data : loc) (numeric time : option (list pystr))
    (w : world) :
  snd (make_series data numeric time w) = w
  /\ match fst (make_series data numeric time w) with
     | Ok (VRef l) => l = data
     | _ => True
     end.
Proof.
  unfold make_series, bind, load, lift, ret.
  destruct (store w !! data) as [v|]; simpl; [|auto].
  destruct (is_error_message v); simpl; [auto|].
  destruct (Series v) as [s|]; simpl; [|auto].
  split; [reflexivity|].
  destruct (convert_series (to_numeric_scalar ErrorsRaise) numeric s); simpl;
    [|exact I].
  destruct (convert_series (to_datetime_scalar ErrorsRaise) time _); simpl;
    exact I.
Qed.

(** One turn of the loop writes to the order book or to nothing. *)
Lemma process_side_frame (orderbook : loc) (side : pystr) (w : world) :
  let w' := snd (process_side orderbook side w) in
  delete orderbook (store w') = delete orderbook (store w)
  /\ sent w' = sent w /\ stdout w' = stdout w /\ ticks w' = ticks w.
Proof.
  unfold process_side, bind, load, lift, ret, raise, save.
  destruct (store w !! orderbook) as [o|]; simpl; [|auto].
  destruct o as [| | | | s|items|d]; simpl; auto.
  - destruct (is_substring side s); simpl; auto.
  - destruct (existsb (is_str side) items); simpl; auto.
  - destruct (dict_get side d) as [rows|]; simpl; [|auto].
    destruct (float_pairs rows); simpl; auto.
    split; [apply delete_insert_eq | auto].
Qed.

Lemma process_orderbook_result (orderbook : loc) (w : world) :
  match fst (process_orderbook orderbook w) with
  | Ok l => l = orderbook
  | Raise _ => True
  end.
Proof.
  unfold process_orderbook, bind, ret.
  destruct (process_side orderbook (py "bids") w) as [[[]|] w1]; [|exact I].
  destruct (process_side orderbook (py "asks") w1) as [[[]|] w2]; [|exact I].
  reflexivity.
Qed.

Lemma process_orderbook_frame (orderbook : loc) (w : world) :
  let w' := snd (process_orderbook orderbook w) in
  delete orderbook (store w') = delete orderbook (store w)
  /\ sent w' = sent w /\ stdout w' = stdout w /\ ticks w' = ticks w.
Proof.
  unfold process_orderbook, bind, ret.
  pose proof (process_side_frame orderbook (py "bids") w) as H1.
  destruct (process_side orderbook (py "bids") w) as [[[]|] w1]; simpl in *;
    [|exact H1].
  pose proof (process_side_frame orderbook (py "asks") w1) as H2.
  destruct (process_side orderbook (py "asks") w1) as [[[]|] w2]; simpl in *;
    destruct H1 as (E1 & E2 & E3 & E4), H2 as (F1 & F2 & F3 & F4);
    repeat split; congruence.
Qed.

(** C10, as the code has it.  [make_df] and [make_series] change nothing:
    the world after the call is the world before it, and a reference they
    return is the argument itself (the error message is handed back, not
    copied).  [process_orderbook] returns the very object it was given,
    and what it changes is confined to that object: every other object
    of the store, the requests sent and the output are as before. *)
Theorem normalisers_effects :
  (forall (data : loc) (numeric time : option (list pystr)) (w : world),
      snd (make_df data numeric time w) = w
      /\ snd (make_series data numeric time w) = w
      /\ match fst (make_df data numeric time w) with
         | Ok (VRef l) => l = data
         | _ => True
         end
      /\ match fst (make_series data numeric time w) with
         | Ok (VRef l) => l = data
         | _ => True
         end)
  /\ (forall (orderbook : loc) (w : world),
        let w' := snd (process_orderbook orderbook w) in
        match fst (process_orderbook orderbook w) with
        | Ok l => l = orderbook
        | Raise _ => True
        end
        /\ delete orderbook (store w') = delete orderbook (store w)
        /\ sent w' = sent w /\ stdout w' = stdout w /\ ticks w' = ticks w).
Proof.
  split.
  - intros data numeric time w.
    destruct (make_df_world data numeric time w) as [H1 H2].
    destruct (make_series_world data numeric time w) as [H3 H4]. auto.
  - intros orderbook w. split.
    + apply process_orderbook_result.
    + apply process_orderbook_frame.
Qed.

End EffectProperties.


(** ** The request cycle *)

Section RequestProperties.
Context {L : PyLib} {X : PyExt}.

(** [makeHttpCall] in three steps: build the request, send it, read the
    answer.  Nothing but the clock has moved when building fails. *)
Lemma makeHttpCall_run (self : client) (method path : pystr)
    (query_params : option (list (pystr * qval))) (data : option json)
    (w : world) :
  makeHttpCall self method path query_params data w =
  match prepare self method path query_params data
          (str_of_int (clock w (ticks w))) with
  | Ok req => receive self (network w (sent w) req) (after_request req w)
  | Raise e => (Raise e, set_ticks (S (ticks w)) w)
  end.
Proof.
  unfold makeHttpCall, prepare. unfold bind at 1. rewrite buildHeaders_run.
  destruct (signMessage _ _) as [signature|e]; simpl; [|reflexivity].
  unfold bind at 1.
  destruct query_params as [q|]; unfold bind, lift, ret, raise, urlopen; simpl.
  - destruct (urlencode q) as [qs|e]; simpl; [|reflexivity].
    destruct (is_post_or_put method); simpl; [|reflexivity].
    destruct data as [d|]; simpl; [|reflexivity].
    destruct (Utf8.encode (json_dumps d)); reflexivity.
  - destruct (is_post_or_put method); simpl; [|reflexivity].
    destruct data as [d|]; simpl; [|reflexivity].
    destruct (Utf8.encode (json_dumps d)); reflexivity.
Qed.

Lemma invoke_run (self : client) (e : endpoint) (w : world) :
  invoke self e w =
  match request self e w with
  | Ok req => receive self (network w (sent w) req) (after_request req w)
  | Raise ex => (Raise ex, set_ticks (S (ticks w)) w)
  end.
Proof.
  unfold invoke, request. destruct (request_of e) as [[[m p] q] d].
  apply makeHttpCall_run.
Qed.

Lemma fresh_unused (w : world) : store w !! fresh (dom (store w)) = None.
Proof. apply not_elem_of_dom, is_fresh. Qed.

(** A readable answer becomes a new object. *)
Lemma receive_ok (self : client) (raw : pybytes) (text : pystr) (v : json)
    (w : world) :
  Utf8.decode raw = Some text -> json_loads text = Ok v ->
  receive self (HttpOk raw) w =
  (Ok (fresh (dom (store w))),
   set_store (<[fresh (dom (store w)) := v]> (store w)) w).
Proof.
  intros Ht Hv. unfold receive, bind, lift, alloc. rewrite Ht. simpl.
  now rewrite Hv.
Qed.

(** An error answer whose body is a JSON object becomes a new object that
    holds the status code as well; the policy decides what is done with
    it. *)
Lemma receive_error (self : client) (code : Z) (raw : pybytes)
    (d : list (pystr * json)) (w : world) :
  json_loads_bytes raw = Ok (JDict d) ->
  receive self (HTTPError code raw) w =
  (if exception_on_error self
   then Raise (Exn Exception_ (Obj (fresh (dom (store w)))))
   else Ok (fresh (dom (store w))),
   set_store (<[fresh (dom (store w)) :=
                  JDict (dict_set (py "statusCode") (JInt code) d)]>
                (store w)) w).
Proof.
  intros Hd. unfold receive, bind, lift, alloc, raise, ret. rewrite Hd. simpl.
  destruct (exception_on_error self); reflexivity.
Qed.

(** Reading an answer keeps every object there was. *)
Lemma receive_store (self : client) (r : http_outcome) (w : world) (l : loc)
    (v : json) :
  store w !! l = Some v -> store (snd (receive self r w)) !! l = Some v.
Proof.
  intros Hl.
  assert (Hne : fresh (dom (store w)) <> l).
  { intros <-. rewrite fresh_unused in Hl. discriminate. }
  destruct r as [raw|code raw| |e]; unfold receive, bind, lift, ret, raise,
    alloc; simpl; auto.
  - destruct (of_option _ _); simpl; auto.
    destruct (json_loads _); simpl; auto.
    now rewrite lookup_insert_ne.
  - destruct (json_loads_bytes _); simpl; auto.
    destruct (set_status_code _ _); simpl; auto.
    destruct (exception_on_error self); simpl; now rewrite lookup_insert_ne.
Qed.

Lemma is_prefix_app (a b : pystr) : is_prefix a (a ++ b) = true.
Proof.
  induction a as [|c a IH]; simpl; [reflexivity|].
  now rewrite N.eqb_refl, IH.
Qed.

Lemma is_prefix_app_l (a p s : pystr) :
  is_prefix p s = true -> is_prefix (a ++ p) (a ++ s) = true.
Proof.
  intros H. induction a as [|c a IH]; simpl; [exact H|].
  now rewrite N.eqb_refl, IH.
Qed.

Lemma is_prefix_app_r (p s t : pystr) :
  is_prefix p s = true -> is_prefix p (s ++ t) = true.
Proof.
  revert s. induction p as [|c p IH]; intros [|c' s] H; simpl in *;
    try reflexivity; try discriminate.
  apply andb_true_iff in H as [-> H]. simpl. auto.
Qed.

(** What a request that was built carries. *)
Lemma prepare_request (self : client) (method path : pystr)
    (query_params : option (list (pystr * qval))) (data : option json)
    (now : pystr) (req : http_request) :
  prepare self method path query_params data now = Ok req ->
  req_method req = method
  /\ (exists qs, query_text query_params qs
                 /\ req_url req = base_url ++ path ++ qs)
  /\ req_data req = json_dumps <$> data
  /\ dict_get (py "BM-AUTH-APIKEY") (req_headers req) = Some (apiKey self)
  /\ dict_get (py "BM-AUTH-TIMESTAMP") (req_headers req) = Some now
  /\ match req_body req with
     | Some bs =>
         is_post_or_put method = true
         /\ exists d, data = Some d /\ Utf8.encode (json_dumps d) = Some bs
     | None => is_post_or_put method = false
     end.
Proof.
  unfold prepare.
  destruct (signMessage _ _) as [signature|]; simpl; [|discriminate].
  assert (Hq : forall r : outcome pystr,
    r = match query_params with
        | Some q => obind (urlencode q) (fun qs => Ok (path ++ py "?" ++ qs))
        | None => Ok path
        end ->
    forall p, r = Ok p ->
              exists qs, query_text query_params qs /\ p = path ++ qs).
  { intros r -> p. destruct query_params as [q|].
    - destruct (urlencode q) as [qs|] eqn:Henc; simpl; [|discriminate].
      intros [= <-]. exists (py "?" ++ qs). split; [|reflexivity].
      exists qs. auto.
    - intros [= <-]. exists []. split; [reflexivity|].
      now rewrite app_nil_r. }
  specialize (Hq _ eq_refl).
  destruct (match query_params with Some _ => _ | None => _ end) as [p|];
    simpl; [|discriminate].
  destruct (Hq p eq_refl) as (qs & Hqs & ->).
  destruct (is_post_or_put method) eqn:Hm.
  - destruct data as [d|]; simpl; [|discriminate].
    destruct (Utf8.encode (json_dumps d)) as [bs|] eqn:Hbs; simpl;
      [|discriminate].
    intros [= <-]. simpl. repeat split; eauto.
  - simpl. intros [= <-]. simpl. repeat split; eauto.
Qed.

(** X1. Whatever its arguments and whatever the server does, a call of
    [makeHttpCall] reads the clock once, prints nothing, keeps every
    object of the store as it was, and puts at most one request on the
    wire: there is no retry.  A call that sent nothing has raised; a
    request that was sent carries the method given and a URL that starts
    with the base URL followed by the path given. *)
Theorem makeHttpCall_sends_at_most_once (self : client) (method path : pystr)
    (query_params : option (list (pystr * qval))) (data : option json)
    (w : world) :
  let r := makeHttpCall self method path query_params data w in
  ticks (snd r) = S (ticks w)
  /\ stdout (snd r) = stdout w
  /\ (forall l v, store w !! l = Some v -> store (snd r) !! l = Some v)
  /\ ((sent (snd r) = sent w /\ is_raise (fst r))
      \/ exists req,
           sent (snd r) = sent w ++ [req]
           /\ req_method req = method
           /\ is_prefix (base_url ++ path) (req_url req) = true).
Proof.
  intros r. subst r. rewrite makeHttpCall_run.
  destruct (prepare _ _ _ _ _ _) as [req|e] eqn:Hreq; simpl.
  - destruct (receive_frame self (network w (sent w) req)
                (after_request req w)) as (Hsent & Hout & Hticks).
    simpl in Hsent, Hout, Hticks.
    split; [exact Hticks|]. split; [exact Hout|].
    split; [intros l v Hl; now apply receive_store|].
    right. exists req. split; [exact Hsent|].
    apply prepare_request in Hreq as (Hm & (qs & _ & Hurl) & _).
    split; [exact Hm|]. rewrite Hurl, app_assoc. apply is_prefix_app.
  - repeat split; auto.
Qed.

(** X2. When the server answers a request with an HTTP error whose body
    is a JSON object, [makeHttpCall] builds a new object that holds the
    entries of that body and the status code under ["statusCode"]
    (replacing an entry of that name).  With [exception_on_error] set it
    raises [Exception] carrying this object, otherwise it returns it;
    either way the normalisers recognise it as an error message. *)
Theorem makeHttpCall_http_error (self : client) (method path : pystr)
    (query_params : option (list (pystr * qval))) (data : option json)
    (w : world) (req : http_request) (code : Z) (raw : pybytes)
    (d : list (pystr * json)) :
  prepare self method path query_params data (str_of_int (clock w (ticks w)))
  = Ok req ->
  network w (sent w) req = HTTPError code raw ->
  json_loads_bytes raw = Ok (JDict d) ->
  let r := makeHttpCall self method path query_params data w in
  exists errObject entries,
    store w !! errObject = None
    /\ store (snd r) !! errObject = Some (JDict entries)
    /\ dict_get (py "statusCode") entries = Some (JInt code)
    /\ (forall k, k <> py "statusCode" -> dict_get k entries = dict_get k d)
    /\ is_error_message (JDict entries) = true
    /\ sent (snd r) = sent w ++ [req]
    /\ fst r = if exception_on_error self
               then Raise (Exn Exception_ (Obj errObject))
               else Ok errObject.
Proof.
  intros Hreq Hnet Hd r. subst r.
  rewrite makeHttpCall_run, Hreq, Hnet, (receive_error _ _ _ _ _ Hd).
  exists (fresh (dom (store w))),
    (dict_set (py "statusCode") (JInt code) d). simpl.
  split; [apply fresh_unused|].
  split; [apply lookup_insert_eq|].
  split; [rewrite dict_get_set; now destruct (decide _)|].
  split.
  { intros k Hk. rewrite dict_get_set. now destruct (decide _). }
  split.
  { unfold dict_has. rewrite dict_get_set. now destruct (decide _). }
  split; reflexivity.
Qed.

(** X3. When the server answers a request with a body that is UTF-8 text
    of a JSON document, [makeHttpCall] returns a reference to a new
    object that holds the decoded document, under either error policy.
    A body that is not UTF-8 raises [UnicodeDecodeError] and text that
    [json.loads] rejects raises what [json.loads] raised: neither is
    turned into an error object. *)
Theorem makeHttpCall_decodes_response (self : client) (method path : pystr)
    (query_params : option (list (pystr * qval))) (data : option json)
    (w : world) (req : http_request) (raw : pybytes) :
  prepare self method path query_params data (str_of_int (clock w (ticks w)))
  = Ok req ->
  network w (sent w) req = HttpOk raw ->
  let r := makeHttpCall self method path query_params data w in
  match Utf8.decode raw with
  | Some text =>
      match json_loads text with
      | Ok v =>
          exists response,
            fst r = Ok response
            /\ store w !! response = None
            /\ store (snd r) !! response = Some v
      | Raise e => r = (Raise e, after_request req w)
      end
  | None => r = (Raise (Exn UnicodeDecodeError NoArg), after_request req w)
  end.
Proof.
  intros Hreq Hnet r. subst r. rewrite makeHttpCall_run, Hreq, Hnet.
  destruct (Utf8.decode raw) as [text|] eqn:Ht.
  - destruct (json_loads text) as [v|e] eqn:Hv.
    + rewrite (receive_ok _ _ _ _ _ Ht Hv).
      exists (fresh (dom (store w))). simpl.
      split; [reflexivity|]. split; [apply fresh_unused|].
      apply lookup_insert_eq.
    + unfold receive, bind, lift. rewrite Ht. simpl. now rewrite Hv.
  - unfold receive, bind, lift. now rewrite Ht.
Qed.

(** X4. The error policy covers HTTP error answers only.  A [URLError]
    that carries no response (the host cannot be reached) makes
    [makeHttpCall] raise [AttributeError], also when [exception_on_error]
    is off: the handler reads the body of the error, and this error has
    none.  The request has been sent and counted; no error object is
    built. *)
Theorem makeHttpCall_transport_failure (self : client) (method path : pystr)
    (query_params : option (list (pystr * qval))) (data : option json)
    (w : world) (req : http_request) :
  prepare self method path query_params data (str_of_int (clock w (ticks w)))
  = Ok req ->
  network w (sent w) req = URLError ->
  makeHttpCall self method path query_params data w
  = (Raise (Exn AttributeError NoArg), after_request req w).
Proof.
  intros Hreq Hnet. now rewrite makeHttpCall_run, Hreq, Hnet.
Qed.

End RequestProperties.

(** ** The requests of the endpoint methods *)

Section EndpointProperties.
Context {L : PyLib} {X : PyExt}.

Lemma signMessage_outcome (privateKey : pybytes) (message : pystr) :
  signMessage privateKey message =
  match Utf8.encode message with
  | Some bs =>
      Ok (map Byte.to_N (Base64.b64encode (Hmac.hmac_sha512 privateKey bs)))
  | None => Raise (Exn UnicodeEncodeError NoArg)
  end.
Proof.
  destruct (Utf8.encode message) as [bs|] eqn:H.
  - now apply signMessage_encoded.
  - now apply signMessage_unencodable.
Qed.

Lemma omap_raise_kind {A B} (f : A -> outcome B) (l : list A) (e0 e : exn) :
  (forall x e', f x = Raise e' -> e' = e0) ->
  omap f l = Raise e -> e = e0.
Proof.
  intros Hf. induction l as [|x l IH]; simpl; [discriminate|].
  destruct (f x) as [y|e'] eqn:Hx; simpl.
  - destruct (omap f l) as [ys|e']; simpl; [discriminate|].
    intros [= <-]. now apply IH.
  - intros [= <-]. eauto.
Qed.

Lemma quote_plus_raises (s : pystr) (e : exn) :
  quote_plus s = Raise e -> e = Exn UnicodeEncodeError NoArg.
Proof.
  unfold quote_plus. destruct (Utf8.encode s); simpl; [discriminate|].
  now intros [= <-].
Qed.

Lemma urlencode_raises (q : list (pystr * qval)) (e : exn) :
  urlencode q = Raise e -> e = Exn UnicodeEncodeError NoArg.
Proof.
  unfold urlencode.
  destruct (omap _ q) as [l|e'] eqn:H; simpl; [discriminate|].
  intros [= <-]. revert H. apply omap_raise_kind.
  intros [k v] e0. simpl.
  destruct (quote_plus k) as [k'|e1] eqn:Hk; simpl.
  - destruct (quote_plus (qval_str v)) as [v'|e2] eqn:Hv; simpl;
      [discriminate|].
    intros [= <-]. eapply quote_plus_raises, Hv.
  - intros [= <-]. eapply quote_plus_raises, Hk.
Qed.

(** A request that has a body whenever its method needs one can fail to
    be built for one reason only: a string that has no UTF-8 encoding. *)
Lemma prepare_raises (self : client) (method path : pystr)
    (query_params : option (list (pystr * qval))) (data : option json)
    (now : pystr) (e : exn) :
  (is_post_or_put method = true -> is_Some data) ->
  prepare self method path query_params data now = Raise e ->
  e = Exn UnicodeEncodeError NoArg.
Proof.
  intros Hdata. unfold prepare. rewrite signMessage_outcome.
  destruct (Utf8.encode _); simpl; [|now intros [= <-]].
  destruct query_params as [q|]; simpl.
  - destruct (urlencode q) as [qs|e'] eqn:Hq; simpl.
    + destruct (is_post_or_put method); simpl; [|discriminate].
      destruct data as [d|]; simpl.
      * destruct (Utf8.encode (json_dumps d)); simpl; [discriminate|].
        now intros [= <-].
      * destruct (Hdata eq_refl) as [? [=]].
    + intros [= <-]. eapply urlencode_raises, Hq.
  - destruct (is_post_or_put method); simpl; [|discriminate].
    destruct data as [d|]; simpl.
    + destruct (Utf8.encode (json_dumps d)); simpl; [discriminate|].
      now intros [= <-].
    + destruct (Hdata eq_refl) as [? [=]].
Qed.

(** The table of the endpoints: a known method, a versioned path, and a
    payload exactly for POST and PUT. *)
Lemma request_of_shape (e : endpoint) :
  let '(method, path, _, data) := request_of e in
  method ∈ [py "GET"; py "POST"; py "PUT"; py "DELETE"]
  /\ is_prefix (py "/v3/") path = true
  /\ is_post_or_put method = match data with Some _ => true | None => false end.
Proof.
  destruct e; simpl; (split; [repeat constructor | split; reflexivity]).
Qed.

Lemma post_or_put_elem (method : pystr) :
  is_post_or_put method = true <-> method ∈ [py "POST"; py "PUT"].
Proof.
  unfold is_post_or_put. rewrite orb_true_iff, !bool_decide_eq_true.
  rewrite !elem_of_cons, elem_of_nil. tauto.
Qed.

(** X5. Every endpoint method asks for one of GET, POST, PUT and DELETE
    on a URL that starts with the base URL and the version prefix
    [/v3/], and hands [urlopen] a body exactly when the method is POST or
    PUT; that body is the UTF-8 encoding of the text signed as [data].
    Building the request fails for one reason only, a string without
    UTF-8 encoding (a lone surrogate), which raises
    [UnicodeEncodeError]. *)
Theorem endpoint_request_well_formed (self : client) (e : endpoint)
    (w : world) :
  match request self e w with
  | Ok req =>
      req_method req ∈ [py "GET"; py "POST"; py "PUT"; py "DELETE"]
      /\ is_prefix (base_url ++ py "/v3/") (req_url req) = true
      /\ (is_Some (req_body req) <-> req_method req ∈ [py "POST"; py "PUT"])
      /\ (forall bs, req_body req = Some bs ->
            exists text, req_data req = Some text
                         /\ Utf8.encode text = Some bs)
  | Raise ex => ex = Exn UnicodeEncodeError NoArg
  end.
Proof.
  unfold request. pose proof (request_of_shape e) as Hshape.
  destruct (request_of e) as [[[method path] q] data].
  destruct Hshape as (Hm & Hp & Hd).
  destruct (prepare _ _ _ _ _ _) as [req|ex] eqn:Hreq.
  - apply prepare_request in Hreq
      as (Hmethod & (qs & _ & Hurl) & Hdata & _ & _ & Hbody).
    rewrite Hmethod, Hurl. split; [exact Hm|].
    split; [apply is_prefix_app_l, is_prefix_app_r, Hp|].
    rewrite <- post_or_put_elem.
    destruct (req_body req) as [bs|].
    + destruct Hbody as (Hpp & d & -> & Hbs). split.
      * split; [auto | eauto].
      * intros bs' [= <-]. exists (json_dumps d). now rewrite Hdata.
    + split.
      * rewrite Hbody. split; [intros [? [=]] | discriminate].
      * discriminate.
  - eapply prepare_raises, Hreq. rewrite Hd.
    destruct data; [eauto | discriminate].
Qed.

(** X6. [place_order], [replace_order], [place_and_cancel_orders] and
    [create_new_report] serialise their payload and [makeHttpCall]
    serialises the result again: the body they sign and send is the JSON
    text of a string (it starts with a double quote) whose content is the
    JSON text of the payload.  Of the methods with a body only
    [request_withdrawal] sends the JSON text of an object. *)
Theorem body_serialised_twice (self : client) (e : endpoint) (w : world)
    (req : http_request) (text : pystr) :
  request self e w = Ok req ->
  req_data req = Some text ->
  if serialises_payload e
  then exists payload,
         text = json_dumps (JStr (json_dumps payload))
         /\ hd_error text = Some 0x22
  else exists fields,
         text = json_dumps (JDict fields) /\ hd_error text = Some 0x7B.
Proof.
  unfold request. intros Hreq Htext.
  destruct (request_of e) as [[[method path] q] data] eqn:He.
  apply prepare_request in Hreq as (_ & _ & Hdata & _).
  rewrite Hdata in Htext.
  destruct e; simpl in He; injection He as <- <- <- <-;
    try discriminate Htext; simpl in Htext; injection Htext as <-; simpl;
    eexists; (split; [reflexivity | reflexivity]).
Qed.

(** *** The characters of the body and of the query string *)

Lemma forallb_flat_map {A B} (p : B -> bool) (f : A -> list B) (l : list A) :
  (forall x, forallb p (f x) = true) -> forallb p (flat_map f l) = true.
Proof.
  intros Hf. induction l as [|x l IH]; simpl; [reflexivity|].
  now rewrite forallb_app, Hf, IH.
Qed.

Lemma forallb_join {A} (p : N -> bool) (f : A -> pystr) (sep : pystr)
    (l : list A) :
  forallb p sep = true ->
  Forall (fun x => forallb p (f x) = true) l ->
  forallb p (join sep (map f l)) = true.
Proof.
  intros Hsep. induction 1 as [|x l Hx Hl IH]; [reflexivity|].
  simpl. destruct (map f l) as [|y ys] eqn:Hmap; [exact Hx|].
  now rewrite !forallb_app, Hx, Hsep, IH.
Qed.

Lemma land_nibble (n : N) : (N.to_nat (N.land n 0xF) < 16)%nat.
Proof.
  change 0xF with (N.ones 4). rewrite N.land_ones.
  pose proof (N.mod_lt n (2 ^ 4)) as H. change (2 ^ 4) with 16 in *. lia.
Qed.

Lemma hex_lower_printable (n : N) : is_printable (hex_lower n) = true.
Proof.
  unfold hex_lower. pose proof (land_nibble n) as H.
  generalize dependent (N.to_nat (N.land n 0xF)). intros k H.
  do 16 (destruct k as [|k]; [reflexivity|]). lia.
Qed.

Lemma hex_upper_safe (n : N) : always_safe (hex_upper n) = true.
Proof.
  unfold hex_upper. pose proof (land_nibble n) as H.
  generalize dependent (N.to_nat (N.land n 0xF)). intros k H.
  do 16 (destruct k as [|k]; [reflexivity|]). lia.
Qed.

Lemma u_escape_printable (n : N) : forallb is_printable (u_escape n) = true.
Proof.
  unfold u_escape. simpl. now rewrite !hex_lower_printable.
Qed.

Lemma escape_char_printable (c : N) :
  forallb is_printable (escape_char c) = true.
Proof.
  unfold escape_char.
  repeat (match goal with
          | |- context [if ?b then _ else _] => destruct b eqn:?
          end; try reflexivity).
  - simpl. unfold is_printable. now rewrite Heqb6.
  - apply u_escape_printable.
  - now rewrite forallb_app, !u_escape_printable.
Qed.

Lemma encode_basestring_ascii_printable (s : pystr) :
  forallb is_printable (encode_basestring_ascii s) = true.
Proof.
  unfold encode_basestring_ascii. rewrite !forallb_app.
  rewrite (forallb_flat_map _ _ _ escape_char_printable). reflexivity.
Qed.

Lemma string_of_uint_printable (u : Decimal.uint) :
  forallb is_printable (py (NilEmpty.string_of_uint u)) = true.
Proof. induction u; simpl; auto. Qed.

Lemma str_of_int_printable (z : Z) :
  forallb is_printable (str_of_int z) = true.
Proof.
  unfold str_of_int, NilZero.string_of_int.
  destruct (Z.to_int z) as [u|u]; unfold NilZero.string_of_uint.
  - destruct u; try reflexivity;
      apply (string_of_uint_printable (_ _)) || apply string_of_uint_printable.
  - change (forallb is_printable
              (0x2D :: py (match u with
                           | Decimal.Nil => "0"%string
                           | _ => NilEmpty.string_of_uint u
                           end)) = true).
    simpl. destruct u; try reflexivity; apply string_of_uint_printable.
Qed.

Lemma json_dumps_printable (v : json) :
  (forall x, forallb is_printable (float_json x) = true) ->
  forallb is_printable (json_dumps v) = true.
Proof.
  intros Hfloat. induction v using json_nested_ind.
  - reflexivity.
  - destruct b; reflexivity.
  - apply str_of_int_printable.
  - apply Hfloat.
  - apply encode_basestring_ascii_printable.
  - change (forallb is_printable
              (py "[" ++ join (py ", ") (map json_dumps items) ++ py "]")
            = true).
    rewrite !forallb_app, forallb_join; auto.
  - change (forallb is_printable
              (py "{"
               ++ join (py ", ")
                    (map (fun kv => encode_basestring_ascii (fst kv)
                                    ++ py ": " ++ json_dumps (snd kv))
                       entries)
               ++ py "}") = true).
    rewrite !forallb_app, forallb_join; auto.
    eapply Forall_impl; [eassumption|]. intros [k x] Hx. cbn [fst snd] in *.
    now rewrite !forallb_app, encode_basestring_ascii_printable, Hx.
Qed.

Lemma encode_printable (s : pystr) :
  forallb is_printable s = true -> Utf8.encode s = Some (map byte_of_N s).
Proof.
  induction s as [|c s IH]; [reflexivity|].
  simpl. intros [Hc Hs]%andb_true_iff. rewrite encode_cons, (IH Hs).
  unfold Utf8.encode_char.
  unfold is_printable in Hc. apply andb_true_iff in Hc as [_ Hc].
  apply N.leb_le in Hc.
  destruct (c <? 0x80) eqn:Hlt; [reflexivity|].
  apply N.ltb_ge in Hlt. lia.
Qed.

(** X7. Whatever Unicode the strings of a payload hold, lone surrogates
    included, the text [json.dumps] makes of it consists of printable
    ASCII characters only (anything else is written as a backslash
    escape), so the body [makeHttpCall] hands to [urlopen] always exists
    and has one byte per character of the signed text.  The text written
    for a float is taken from the interface and assumed printable. *)
Theorem json_dumps_body_is_ascii (v : json) :
  (forall x, forallb is_printable (float_json x) = true) ->
  forallb is_printable (json_dumps v) = true
  /\ Utf8.encode (json_dumps v) = Some (map byte_of_N (json_dumps v)).
Proof.
  intros Hfloat. pose proof (json_dumps_printable v Hfloat) as H.
  split; [exact H | now apply encode_printable].
Qed.

Lemma always_safe_query (c : N) :
  always_safe c = true -> is_query_char c = true.
Proof. unfold is_query_char. now intros ->. Qed.

Lemma quote_byte_chars (b : byte) :
  forallb is_query_char (quote_byte b) = true
  /\ forallb (fun c => negb (c =? 0x3D) && negb (c =? 0x26)) (quote_byte b)
     = true.
Proof.
  unfold quote_byte. destruct (Byte.to_N b =? 0x20) eqn:Hsp;
    [split; reflexivity|].
  destruct (always_safe (Byte.to_N b)) eqn:Hsafe.
  - cbn [forallb]. rewrite (always_safe_query _ Hsafe). split; [reflexivity|].
    destruct (Byte.to_N b =? 0x3D) eqn:H1.
    { apply N.eqb_eq in H1. rewrite H1 in Hsafe. discriminate. }
    destruct (Byte.to_N b =? 0x26) eqn:H2.
    { apply N.eqb_eq in H2. rewrite H2 in Hsafe. discriminate. }
    reflexivity.
  - cbn [forallb].
    rewrite !(always_safe_query _ (hex_upper_safe _)). split; [reflexivity|].
    assert (Hne : forall n, negb (hex_upper n =? 0x3D)
                            && negb (hex_upper n =? 0x26) = true).
    { intros n. pose proof (hex_upper_safe n) as Hs.
      destruct (hex_upper n =? 0x3D) eqn:H1.
      { apply N.eqb_eq in H1. rewrite H1 in Hs. discriminate. }
      destruct (hex_upper n =? 0x26) eqn:H2.
      { apply N.eqb_eq in H2. rewrite H2 in Hs. discriminate. }
      reflexivity. }
    now rewrite !Hne.
Qed.

Lemma quote_plus_chars (s enc : pystr) :
  quote_plus s = Ok enc ->
  forallb is_query_char enc = true
  /\ forallb (fun c => negb (c =? 0x3D) && negb (c =? 0x26)) enc = true.
Proof.
  unfold quote_plus. destruct (Utf8.encode s) as [bs|]; simpl;
    [|discriminate].
  intros [= <-]. split; apply forallb_flat_map; intros b;
    apply quote_byte_chars.
Qed.

(** X8. The query string [makeHttpCall] appends after ["?"] consists of
    unreserved characters and of [+], [%], [=] and [&] only, whatever
    the keys and values are: it holds no ["?"], ["#"], ["/"] or space,
    and the keys and values themselves contribute no [=] and no [&]
    (each parameter is [key=value] with both parts escaped, and the
    parameters are joined by [&]). *)
Theorem urlencode_query_chars (query : list (pystr * qval)) (qs : pystr) :
  urlencode query = Ok qs ->
  forallb is_query_char qs = true
  /\ has_query qs = false
  /\ count_occ N.eq_dec qs 0x3D = length query.
Proof.
  unfold urlencode.
  destruct (omap _ query) as [l|] eqn:Hl; simpl; [|discriminate].
  intros [= <-]. apply omap_ok in Hl.
  assert (Hparts : Forall (fun p =>
            forallb is_query_char p = true
            /\ count_occ N.eq_dec p 0x3D = 1%nat) l
          /\ length l = length query).
  { split; [|symmetry; eapply Forall2_length, Hl].
    induction Hl as [|[k v] p query l Hp _ IH]; constructor; [|exact IH].
    cbn [fst snd] in Hp.
    destruct (quote_plus k) as [k'|] eqn:Hk; cbn [obind] in Hp;
      [|discriminate].
    destruct (quote_plus (qval_str v)) as [v'|] eqn:Hv; cbn [obind] in Hp;
      [|discriminate].
    assert (Hp' : k' ++ py "=" ++ v' = p) by congruence. subst p. clear Hp.
    apply quote_plus_chars in Hk as [Hk1 Hk2].
    apply quote_plus_chars in Hv as [Hv1 Hv2].
    split.
    - now rewrite !forallb_app, Hk1, Hv1.
    - assert (Hzero : forall t,
        forallb (fun c => negb (c =? 0x3D) && negb (c =? 0x26)) t = true ->
        count_occ N.eq_dec t 0x3D = 0%nat).
      { induction t as [|c t IHt]; [reflexivity|]. simpl.
        intros [Hc Ht]%andb_true_iff. apply andb_true_iff in Hc as [Hc _].
        destruct (N.eq_dec c 0x3D) as [->|]; [discriminate|]. auto. }
      rewrite !count_occ_app, (Hzero _ Hk2), (Hzero _ Hv2). reflexivity. }
  destruct Hparts as [Hparts <-]. clear Hl.
  assert (Hjoin : forallb is_query_char (join (py "&") l) = true
                  /\ count_occ N.eq_dec (join (py "&") l) 0x3D = length l).
  { induction Hparts as [|p l [Hp1 Hp2] Hl IH]; [split; reflexivity|].
    destruct l as [|p' l'].
    - split; [exact Hp1 | exact Hp2].
    - destruct IH as [IH1 IH2].
      change (join (py "&") (p :: p' :: l'))
        with (p ++ py "&" ++ join (py "&") (p' :: l')).
      split.
      + now rewrite !forallb_app, Hp1, IH1.
      + rewrite !count_occ_app, Hp2, IH2. reflexivity. }
  destruct Hjoin as [H1 H2]. split; [exact H1|]. split; [|exact H2].
  unfold has_query. apply not_true_is_false. intros Hex.
  apply existsb_exists in Hex as (c & Hin & Hc). apply N.eqb_eq in Hc.
  subst c. rewrite forallb_forall in H1. specialize (H1 _ Hin).
  discriminate.
Qed.

End EndpointProperties.

(** ** Validation *)

Section ValidationProperties.
Context {L : PyLib} {X : PyExt}.

Lemma invoke_sent (self : client) (e : endpoint) (w : world) :
  sent (snd (invoke self e w)) <> sent w ->
  exists req, request self e w = Ok req
              /\ sent (snd (invoke self e w)) = sent w ++ [req].
Proof.
  rewrite invoke_run. destruct (request self e w) as [req|ex]; simpl.
  - intros _. exists req. split; [reflexivity|].
    apply (receive_frame self (network w (sent w) req) (after_request req w)).
  - intros H. now destruct H.
Qed.


(** X10. [request_withdrawal] puts on the wire only withdrawals that
    pass its checks: if a request leaves, the asset name and the amount
    are non-empty; for AUD the bank details are all given or all absent
    and a payment description has at most 18 characters; for any other
    asset a destination address is given.  The request is the single
    POST of the withdrawal; a call that fails a check sends nothing. *)
Theorem request_withdrawal_sends_validated_request (self : client)
    (asset_name amount : pystr)
    (to_address account_name account_number bsb_number bank_name
       payment_description client_transfer_id : option pystr) (w : world) :
  let r := request_withdrawal self asset_name amount to_address account_name
             account_number bsb_number bank_name payment_description
             client_transfer_id w in
  let bank := [account_name; account_number; bsb_number; bank_name] in
  sent (snd r) <> sent w ->
  asset_name <> [] /\ amount <> []
  /\ (asset_name = py "AUD" ->
      (existsb truthy bank = true -> forallb truthy bank = true)
      /\ (truthy payment_description = true ->
          (length (default [] payment_description) <= 18)%nat))
  /\ (asset_name <> py "AUD" -> truthy to_address = true)
  /\ exists req,
       request self
         (RequestWithdrawal asset_name amount to_address account_name
            account_number bsb_number bank_name payment_description
            client_transfer_id) w = Ok req
       /\ sent (snd r) = sent w ++ [req]
       /\ req_method req = py "POST"
       /\ req_url req = base_url ++ py "/v3/withdrawals".
Proof.
  intros r bank. subst r. unfold request_withdrawal. fold bank.
  destruct (negb (truthy (Some asset_name))) eqn:H1.
  { intros H. destruct H. apply handle_error_sends_nothing. }
  destruct (negb (truthy (Some amount))) eqn:H2.
  { intros H. destruct H. apply handle_error_sends_nothing. }
  destruct (bool_decide (asset_name = py "AUD") && existsb truthy bank
            && negb (forallb truthy bank)) eqn:H3.
  { intros H. destruct H. apply handle_error_sends_nothing. }
  destruct (bool_decide (asset_name = py "AUD") && truthy payment_description
            && Nat.ltb 18 (length (default [] payment_description))) eqn:H4.
  { intros H. destruct H. apply handle_error_sends_nothing. }
  destruct (negb (bool_decide (asset_name = py "AUD"))
            && negb (truthy to_address)) eqn:H5.
  { intros H. destruct H. apply handle_error_sends_nothing. }
  set (e := RequestWithdrawal _ _ _ _ _ _ _ _ _).
  unfold bind. intros Hsent.
  assert (Hinv : sent (snd (invoke self e w)) <> sent w).
  { destruct (invoke self e w) as [[l|ex] w']; exact Hsent. }
  destruct (invoke_sent self e w Hinv) as (req & Hreq & Hs).
  split. { intros ->. discriminate H1. }
  split. { intros ->. discriminate H2. }
  split.
  { intros Haud. rewrite (bool_decide_eq_true_2 _ Haud) in H3, H4.
    cbn [andb] in H3, H4. split.
    - intros Hany. rewrite Hany in H3. cbn [andb] in H3.
      now apply negb_false_iff in H3.
    - intros Hdesc. rewrite Hdesc in H4. cbn [andb] in H4.
      apply Nat.ltb_ge in H4. exact H4. }
  split.
  { intros Hne. rewrite (bool_decide_eq_false_2 _ Hne) in H5.
    cbn [andb negb] in H5. now apply negb_false_iff in H5. }
  exists req. split; [exact Hreq|]. split.
  { destruct (invoke self e w) as [[l|ex] w']; exact Hs. }
  unfold request in Hreq. cbn [e request_of] in Hreq.
  apply prepare_request in Hreq as (Hm & (qs & Hqs & Hurl) & _).
  split; [exact Hm|]. simpl in Hqs. subst qs.
  now rewrite app_nil_r in Hurl.
Qed.

End ValidationProperties.

(** ** The endpoint methods and the answer of the server *)

Section MethodProperties.
Context {L : PyLib} {X : PyExt}.

Lemma set_store_id (w : world) : set_store (store w) w = w.
Proof. now destruct w. Qed.

Lemma invoke_http_error (self : client) (e : endpoint) (w : world)
    (req : http_request) (code : Z) (raw : pybytes)
    (d : list (pystr * json)) :
  request self e w = Ok req ->
  network w (sent w) req = HTTPError code raw ->
  json_loads_bytes raw = Ok (JDict d) ->
  invoke self e w =
  (if exception_on_error self
   then Raise (Exn Exception_ (Obj (fresh (dom (store w)))))
   else Ok (fresh (dom (store w))),
   set_store (<[fresh (dom (store w)) :=
                  JDict (dict_set (py "statusCode") (JInt code) d)]>
                (store w)) (after_request req w)).
Proof.
  intros Hreq Hnet Hd.
  now rewrite invoke_run, Hreq, Hnet, (receive_error _ _ _ _ _ Hd).
Qed.

Lemma invoke_ok (self : client) (e : endpoint) (w : world)
    (req : http_request) (raw : pybytes) (text : pystr) (v : json) :
  request self e w = Ok req ->
  network w (sent w) req = HttpOk raw ->
  Utf8.decode raw = Some text -> json_loads text = Ok v ->
  invoke self e w =
  (Ok (fresh (dom (store w))),
   set_store (<[fresh (dom (store w)) := v]> (store w))
     (after_request req w)).
Proof.
  intros Hreq Hnet Ht Hv.
  now rewrite invoke_run, Hreq, Hnet, (receive_ok _ _ _ _ _ Ht Hv).
Qed.

Lemma status_code_set (code : Z) (d : list (pystr * json)) :
  is_error_message (JDict (dict_set (py "statusCode") (JInt code) d)) = true.
Proof.
  unfold is_error_message, dict_has. rewrite dict_get_set.
  now destruct (decide _).
Qed.

(** The normalisers on an error message. *)
Lemma make_df_error_object (data : loc) (v : json)
    (numeric time : option (list pystr)) (w : world) :
  store w !! data = Some v -> is_error_message v = true ->
  make_df data numeric time w = (Ok (VRef data), w)
  /\ make_series data numeric time w = (Ok (VRef data), w).
Proof.
  intros Hv Herr. unfold make_df, make_series, bind.
  rewrite (load_run _ _ _ Hv), Herr. auto.
Qed.

(** A method that hands the response to a continuation which gives an
    error message back. *)
Lemma bind_invoke_http_error {A} (self : client) (e : endpoint)
    (k : loc -> M A) (wrap : loc -> A) (w : world) (req : http_request)
    (code : Z) (raw : pybytes) (d : list (pystr * json)) :
  (forall data v w', store w' !! data = Some v ->
                     is_error_message v = true ->
                     k data w' = (Ok (wrap data), w')) ->
  request self e w = Ok req ->
  network w (sent w) req = HTTPError code raw ->
  json_loads_bytes raw = Ok (JDict d) ->
  exists errObject,
    store w !! errObject = None
    /\ store (snd ((data <- invoke self e ;; k data) w)) !! errObject
       = Some (JDict (dict_set (py "statusCode") (JInt code) d))
    /\ fst ((data <- invoke self e ;; k data) w)
       = if exception_on_error self
         then Raise (Exn Exception_ (Obj errObject))
         else Ok (wrap errObject).
Proof.
  intros Hk Hreq Hnet Hd. exists (fresh (dom (store w))).
  split; [apply fresh_unused|].
  unfold bind. rewrite (invoke_http_error _ _ _ _ _ _ _ Hreq Hnet Hd).
  destruct (exception_on_error self).
  - simpl. split; [apply lookup_insert_eq | reflexivity].
  - erewrite Hk; [|apply lookup_insert_eq | apply status_code_set].
    simpl. split; [apply lookup_insert_eq | reflexivity].
Qed.

(** X11. For each of the fifteen methods that return [make_df] or
    [make_series] of the response ([markets], [ticker], [order_by_id],
    [list_trades], [trade_by_id], the listings and look-ups of
    withdrawals, deposits and transfers, [deposit_address],
    [withdrawal_fees], [list_assets], [transactions]): when the server
    answers with an HTTP error whose body is a JSON object, the method
    raises [Exception] carrying the error object if [exception_on_error]
    is set, and otherwise returns the error object itself, a dict with
    the status code added, where the caller expects a table or a
    series.  Nothing is converted. *)
Theorem normalised_method_http_error (self : client) (e : endpoint)
    (m : M value) (w : world) (req : http_request) (code : Z)
    (raw : pybytes) (d : list (pystr * json)) :
  table_method self e = Some m \/ record_method self e = Some m ->
  request self e w = Ok req ->
  network w (sent w) req = HTTPError code raw ->
  json_loads_bytes raw = Ok (JDict d) ->
  exists errObject,
    store w !! errObject = None
    /\ store (snd (m w)) !! errObject
       = Some (JDict (dict_set (py "statusCode") (JInt code) d))
    /\ fst (m w) = if exception_on_error self
                   then Raise (Exn Exception_ (Obj errObject))
                   else Ok (VRef errObject).
Proof.
  intros Hm Hreq Hnet Hd.
  assert (Hdf : forall numeric time data v w',
    store w' !! data = Some v -> is_error_message v = true ->
    make_df data numeric time w' = (Ok (VRef data), w')).
  { intros. now apply make_df_error_object with (v := v). }
  assert (Hse : forall numeric time data v w',
    store w' !! data = Some v -> is_error_message v = true ->
    make_series data numeric time w' = (Ok (VRef data), w')).
  { intros. now apply make_df_error_object with (v := v). }
  destruct Hm as [Hm|Hm]; destruct e; simpl in Hm; try discriminate Hm;
    injection Hm as <-;
    first [ eapply (bind_invoke_http_error self _ _ VRef), Hd;
            [apply Hdf | exact Hreq | exact Hnet]
          | eapply (bind_invoke_http_error self _ _ VRef), Hd;
            [apply Hse | exact Hreq | exact Hnet] ].
Qed.

Lemma process_side_absent (orderbook : loc) (side : pystr)
    (d : list (pystr * json)) (w : world) :
  store w !! orderbook = Some (JDict d) -> dict_get side d = None ->
  process_side orderbook side w = (Ok tt, w).
Proof.
  intros Hd Hside. now rewrite (process_side_dict _ _ _ _ Hd), Hside.
Qed.

(** X12. [orderbook] under an HTTP error whose body is a JSON object
    without the keys ["bids"] and ["asks"]: [process_orderbook] finds
    no side to convert, so the method raises [Exception] carrying the
    error object if [exception_on_error] is set and otherwise returns
    the error object itself, unchanged, where the caller expects an
    order book. *)
Theorem orderbook_http_error (self : client) (market_id : pystr)
    (level : qval) (w : world) (req : http_request) (code : Z)
    (raw : pybytes) (d : list (pystr * json)) :
  request self (Orderbook market_id level) w = Ok req ->
  network w (sent w) req = HTTPError code raw ->
  json_loads_bytes raw = Ok (JDict d) ->
  dict_get (py "bids") d = None -> dict_get (py "asks") d = None ->
  let r := orderbook self market_id level w in
  exists errObject,
    store w !! errObject = None
    /\ store (snd r) !! errObject
       = Some (JDict (dict_set (py "statusCode") (JInt code) d))
    /\ fst r = if exception_on_error self
               then Raise (Exn Exception_ (Obj errObject))
               else Ok (Some (VRef errObject)).
Proof.
  intros Hreq Hnet Hd Hbids Hasks r. subst r. unfold orderbook.
  exists (fresh (dom (store w))). split; [apply fresh_unused|].
  unfold bind. rewrite (invoke_http_error _ _ _ _ _ _ _ Hreq Hnet Hd).
  destruct (exception_on_error self).
  { simpl. split; [apply lookup_insert_eq | reflexivity]. }
  set (d' := dict_set (py "statusCode") (JInt code) d).
  set (w' := set_store _ _).
  assert (Hl : store w' !! fresh (dom (store w)) = Some (JDict d'))
    by apply lookup_insert_eq.
  assert (Hb : dict_get (py "bids") d' = None).
  { unfold d'. rewrite dict_get_set.
    destruct (decide _) as [Heq|]; [|exact Hbids]. vm_compute in Heq.
    discriminate Heq. }
  assert (Ha : dict_get (py "asks") d' = None).
  { unfold d'. rewrite dict_get_set.
    destruct (decide _) as [Heq|]; [|exact Hasks]. vm_compute in Heq.
    discriminate Heq. }
  assert (Hrun : process_orderbook (fresh (dom (store w))) w'
                 = (Ok (fresh (dom (store w))), w')).
  { unfold process_orderbook, bind.
    now rewrite (process_side_absent _ _ _ _ Hl Hb),
      (process_side_absent _ _ _ _ Hl Ha). }
  rewrite Hrun. simpl. split; [exact Hl | reflexivity].
Qed.

Lemma dict_set_nonempty {V} (k : pystr) (v : V) (d : list (pystr * V)) :
  Nat.eqb (length (dict_set k v d)) 0 = false.
Proof.
  destruct d as [|[k' v'] d]; simpl; [reflexivity|].
  destruct (decide (k = k')); reflexivity.
Qed.

(** X13. [orderbooks] indexes the response by position.  When the server
    answers with an HTTP error whose body is a JSON object and
    [exception_on_error] is off, [makeHttpCall] returns the error
    object, a dict, and the loop asks it for the key [0]: the method
    raises [KeyError] and the caller never sees the error object.  With
    [exception_on_error] set the method raises [Exception] carrying
    it. *)
Theorem orderbooks_http_error (self : client) (market_ids : list pystr)
    (w : world) (req : http_request) (code : Z) (raw : pybytes)
    (d : list (pystr * json)) :
  request self (Orderbooks market_ids) w = Ok req ->
  network w (sent w) req = HTTPError code raw ->
  json_loads_bytes raw = Ok (JDict d) ->
  let r := orderbooks self market_ids w in
  exists errObject,
    store w !! errObject = None
    /\ store (snd r) !! errObject
       = Some (JDict (dict_set (py "statusCode") (JInt code) d))
    /\ fst r = if exception_on_error self
               then Raise (Exn Exception_ (Obj errObject))
               else Raise (Exn KeyError NoArg).
Proof.
  intros Hreq Hnet Hd r. subst r. unfold orderbooks.
  exists (fresh (dom (store w))). split; [apply fresh_unused|].
  unfold bind. rewrite (invoke_http_error _ _ _ _ _ _ _ Hreq Hnet Hd).
  destruct (exception_on_error self).
  { simpl. split; [apply lookup_insert_eq | reflexivity]. }
  set (w' := set_store _ _).
  assert (Hl : store w' !! fresh (dom (store w))
               = Some (JDict (dict_set (py "statusCode") (JInt code) d)))
    by apply lookup_insert_eq.
  rewrite (load_run _ _ _ Hl). unfold lift, py_len.
  rewrite dict_set_nonempty. simpl. split; [exact Hl | reflexivity].
Qed.

(** *** [orderbooks] on a list of order books *)

Lemma process_side_nested_agrees (orderbook : loc) (side : pystr) (o : json)
    (w : world) :
  store w !! orderbook = Some o ->
  fst (process_side orderbook side w) = fst (process_side_nested side o)
  /\ store (snd (process_side orderbook side w)) !! orderbook
     = Some (snd (process_side_nested side o)).
Proof.
  intros Ho. unfold process_side, bind. rewrite (load_run _ _ _ Ho).
  destruct o as [| | | |s|items|d]; simpl; auto.
  - destruct (is_substring side s); simpl; auto.
  - destruct (existsb (is_str side) items); simpl; auto.
  - destruct (dict_get side d) as [rows|]; simpl; auto.
    unfold lift, save.
    destruct (float_pairs rows); simpl; auto.
    split; [reflexivity | apply lookup_insert_eq].
Qed.

(** [process_orderbook] on an object of its own does to it what the
    nested run does to an element. *)
Lemma process_orderbook_nested_agrees (orderbook : loc) (o : json)
    (w : world) :
  store w !! orderbook = Some o ->
  fst (process_orderbook orderbook w)
  = match fst (process_orderbook_nested o) with
    | Ok _ => Ok orderbook
    | Raise e => Raise e
    end
  /\ store (snd (process_orderbook orderbook w)) !! orderbook
     = Some (snd (process_orderbook_nested o)).
Proof.
  intros Ho. unfold process_orderbook, process_orderbook_nested, bind.
  destruct (process_side_nested_agrees orderbook (py "bids") o w Ho)
    as [H1 H2].
  destruct (process_side orderbook (py "bids") w) as [r1 w1].
  destruct (process_side_nested (py "bids") o) as [r1' o1].
  simpl in H1, H2. subst r1'. destruct r1 as [[]|e]; [|auto].
  destruct (process_side_nested_agrees orderbook (py "asks") o1 w1 H2)
    as [H3 H4].
  destruct (process_side orderbook (py "asks") w1) as [r2 w2].
  destruct (process_side_nested (py "asks") o1) as [r2' o2].
  simpl in H3, H4. subst r2'. destruct r2 as [[]|e]; auto.
Qed.

Lemma priced_book_converts (book : json) :
  priced_book book -> fst (process_orderbook_nested book) = Ok tt.
Proof.
  intros (d & -> & Hsides). unfold process_orderbook_nested.
  assert (Hside : forall side d0,
    (forall rows, dict_get side d0 = Some rows -> priced_rows rows) ->
    exists d1, process_side_nested side (JDict d0) = (Ok tt, JDict d1)
               /\ forall k, k <> side -> dict_get k d1 = dict_get k d0).
  { intros side d0 Hrows. simpl.
    destruct (dict_get side d0) as [rows|] eqn:Hget; [|eauto].
    destruct (Hrows rows eq_refl) as (items & -> & Hitems).
    destruct (float_pairs_strings items Hitems) as (items' & -> & _).
    eexists. split; [reflexivity|].
    intros k Hk. rewrite dict_get_set. now destruct (decide _). }
  destruct (Hside (py "bids") d) as (d1 & -> & Hother).
  { intros rows. apply Hsides. set_solver. }
  destruct (Hside (py "asks") d1) as (d2 & -> & _); [|reflexivity].
  intros rows. rewrite Hother.
  - apply Hsides. set_solver.
  - intros Heq. vm_compute in Heq. discriminate Heq.
Qed.

Lemma orderbooks_loop_converts (orderbooks : loc) (todo visited : list json)
    (w : world) :
  Forall (fun book => fst (process_orderbook_nested book) = Ok tt) todo ->
  store w !! orderbooks = Some (JList (visited ++ todo)) ->
  fst (orderbooks_loop orderbooks visited todo w) = Ok tt
  /\ store (snd (orderbooks_loop orderbooks visited todo w)) !! orderbooks
     = Some (JList (visited
                    ++ map (fun book => snd (process_orderbook_nested book))
                         todo)).
Proof.
  intros Hall. revert visited w.
  induction Hall as [|book todo Hbook _ IH]; intros visited w Hstore.
  - simpl. auto.
  - simpl. destruct (process_orderbook_nested book) as [r book'].
    simpl in Hbook. subst r. unfold bind at 1. unfold save at 1.
    unfold bind at 1. unfold lift at 1.
    set (w1 := set_store _ w).
    specialize (IH (visited ++ [book']) w1).
    rewrite <- !app_assoc in IH. apply IH. apply lookup_insert_eq.
Qed.

(** X14. When the server answers [orderbooks] with a list of order
    books whose sides are lists of [[price, amount]] pairs of strings
    that [float] reads, the method returns the decoded list, a new
    object, in which every element is what [process_orderbook] makes of
    that element when it is given it as an object of its own: the books
    are converted one by one, in place and in order. *)
Theorem orderbooks_converts_each_book (self : client)
    (market_ids : list pystr) (w : world) (req : http_request)
    (raw : pybytes) (text : pystr) (books : list json) :
  request self (Orderbooks market_ids) w = Ok req ->
  network w (sent w) req = HttpOk raw ->
  Utf8.decode raw = Some text ->
  json_loads text = Ok (JList books) ->
  Forall priced_book books ->
  let r := orderbooks self market_ids w in
  exists response books',
    fst r = Ok response
    /\ store w !! response = None
    /\ store (snd r) !! response = Some (JList books')
    /\ Forall2 (fun book book' =>
                  forall (l : loc) (w0 : world),
                    store w0 !! l = Some book ->
                    fst (process_orderbook l w0) = Ok l
                    /\ store (snd (process_orderbook l w0)) !! l = Some book')
         books books'.
Proof.
  intros Hreq Hnet Ht Hv Hbooks r. subst r. unfold orderbooks.
  exists (fresh (dom (store w))),
    (map (fun book => snd (process_orderbook_nested book)) books).
  unfold bind. rewrite (invoke_ok _ _ _ _ _ _ _ Hreq Hnet Ht Hv).
  set (response := fresh (dom (store w))). set (w' := set_store _ _).
  assert (Hl : store w' !! response = Some (JList books))
    by apply lookup_insert_eq.
  assert (Hconv : Forall (fun book =>
                            fst (process_orderbook_nested book) = Ok tt)
                    books).
  { eapply Forall_impl; [exact Hbooks|]. apply priced_book_converts. }
  assert (Hrel : Forall2 (fun book book' =>
                  forall (l : loc) (w0 : world),
                    store w0 !! l = Some book ->
                    fst (process_orderbook l w0) = Ok l
                    /\ store (snd (process_orderbook l w0)) !! l = Some book')
         books (map (fun book => snd (process_orderbook_nested book)) books)).
  { clear -Hconv. induction Hconv as [|book books Hbook _ IH];
      constructor; [|exact IH].
    intros l w0 Hl.
    destruct (process_orderbook_nested_agrees l book w0 Hl) as [H1 H2].
    rewrite Hbook in H1. auto. }
  rewrite (load_run _ _ _ Hl). unfold lift. cbn [py_len].
  destruct books as [|book books].
  - simpl. repeat split; auto. apply fresh_unused.
  - cbn [length Nat.eqb].
    destruct (orderbooks_loop_converts response (book :: books) [] w' Hconv Hl)
      as [H1 H2].
    destruct (orderbooks_loop response [] (book :: books) w') as [r1 w1].
    simpl in H1, H2. subst r1. unfold ret. simpl.
    repeat split; auto. apply fresh_unused.
Qed.

(** *** Empty answers *)

Lemma make_df_empty_raises (data : loc) (numeric time : option (list pystr))
    (w : world) :
  store w !! data = Some (JList []) -> declares_field numeric = true ->
  make_df data numeric time w = (Raise (Exn KeyError NoArg), w).
Proof.
  intros Hd Hn. unfold make_df, bind. rewrite (load_run _ _ _ Hd). simpl.
  unfold lift, process_panda. change (frame_of_records []) with (Frame 0 []).
  now rewrite convert_frame_empty, Hn.
Qed.

(** X15. When the server answers with the empty list (there is nothing
    to list), each of the eight methods that return [make_df] of the
    response with declared numeric fields ([markets], [list_trades],
    [list_withdrawals], [list_deposits], [list_deposits_withdrawals],
    [withdrawal_fees], [list_assets], [transactions]) raises [KeyError]
    instead of returning an empty table: the empty table has none of
    the declared columns. *)
Theorem table_method_empty_answer_raises (self : client) (e : endpoint)
    (m : M value) (w : world) (req : http_request) (raw : pybytes)
    (text : pystr) :
  table_method self e = Some m ->
  request self e w = Ok req ->
  network w (sent w) req = HttpOk raw ->
  Utf8.decode raw = Some text ->
  json_loads text = Ok (JList []) ->
  fst (m w) = Raise (Exn KeyError NoArg)
  /\ sent (snd (m w)) = sent w ++ [req].
Proof.
  intros Hm Hreq Hnet Ht Hv.
  assert (H : forall numeric time,
    declares_field numeric = true ->
    let r := (data <- invoke self e ;; make_df data numeric time) w in
    fst r = Raise (Exn KeyError NoArg) /\ sent (snd r) = sent w ++ [req]).
  { intros numeric time Hn. unfold bind.
    rewrite (invoke_ok _ _ _ _ _ _ _ Hreq Hnet Ht Hv).
    rewrite make_df_empty_raises; [auto | apply lookup_insert_eq | exact Hn]. }
  destruct e; simpl in Hm; try discriminate Hm; injection Hm as <-;
    apply H; reflexivity.
Qed.

(** X16. [orders] looks at the length of the response before it builds
    a table: when the server answers with the empty list, the method
    returns that list itself (a new object holding [[]]), not a table,
    and does not raise. *)
Theorem orders_empty_answer (self : client)
    (market_id status before after limit : option qval) (w : world)
    (req : http_request) (raw : pybytes) (text : pystr) :
  request self (Orders market_id status before after limit) w = Ok req ->
  network w (sent w) req = HttpOk raw ->
  Utf8.decode raw = Some text ->
  json_loads text = Ok (JList []) ->
  let r := orders self market_id status before after limit w in
  exists data,
    fst r = Ok (VRef data)
    /\ store w !! data = None
    /\ store (snd r) !! data = Some (JList []).
Proof.
  intros Hreq Hnet Ht Hv r. subst r. unfold orders.
  exists (fresh (dom (store w))).
  unfold bind. rewrite (invoke_ok _ _ _ _ _ _ _ Hreq Hnet Ht Hv).
  set (w' := set_store _ _).
  assert (Hl : store w' !! fresh (dom (store w)) = Some (JList []))
    by apply lookup_insert_eq.
  rewrite (load_run _ _ _ Hl). simpl.
  repeat split; auto. apply fresh_unused.
Qed.

End MethodProperties.

(** ** More on [process_orderbook] *)

Section OrderbookProperties.
Context {L : PyLib} {X : PyExt}.

(** X17. [process_orderbook] converts the sides one after the other on
    the object it was given and does not undo anything: when the bids
    can be read and the asks cannot, the call raises what the
    conversion of the asks raised, and the caller's object is left with
    floats in its bids and the original asks. *)
Theorem process_orderbook_partial_update (orderbook : loc)
    (d : list (pystr * json)) (bids : list json) (asks : json) (e : exn)
    (w : world) :
  store w !! orderbook = Some (JDict d) ->
  dict_get (py "bids") d = Some (JList bids) ->
  Forall (fun row => exists row', float_row row row') bids ->
  dict_get (py "asks") d = Some asks ->
  float_pairs asks = Raise e ->
  exists bids' d',
    Forall2 float_row bids bids'
    /\ fst (process_orderbook orderbook w) = Raise e
    /\ store (snd (process_orderbook orderbook w)) !! orderbook
       = Some (JDict d')
    /\ dict_get (py "bids") d' = Some (JList bids')
    /\ forall k, k <> py "bids" -> dict_get k d' = dict_get k d.
Proof.
  intros Hd Hbids Hrows Hasks Hbad.
  destruct (float_pairs_strings bids Hrows) as (bids' & Hconv & Hall).
  exists bids', (dict_set (py "bids") (JList bids') d).
  split; [exact Hall|].
  unfold process_orderbook, bind.
  rewrite (process_side_dict _ _ _ _ Hd), Hbids, Hconv.
  set (w1 := set_store _ w).
  assert (H1 : store w1 !! orderbook
               = Some (JDict (dict_set (py "bids") (JList bids') d)))
    by apply lookup_insert_eq.
  assert (Hother : forall k, k <> py "bids" ->
            dict_get k (dict_set (py "bids") (JList bids') d) = dict_get k d).
  { intros k Hk. rewrite dict_get_set. now destruct (decide _). }
  rewrite (process_side_dict _ _ _ _ H1), Hother, Hasks, Hbad.
  - simpl. repeat split; auto.
    rewrite dict_get_set. now destruct (decide _).
  - intros Heq. vm_compute in Heq. discriminate Heq.
Qed.

Lemma py_float_float (v p : json) :
  py_float v = Ok p -> exists x, p = JFloat x.
Proof.
  destruct v as [|b|n|x|s|items|d]; simpl; try discriminate.
  - destruct (float_of_int _); simpl; [|discriminate]. intros [= <-]. eauto.
  - destruct (float_of_int _); simpl; [|discriminate]. intros [= <-]. eauto.
  - intros [= <-]. eauto.
  - destruct (float_of_str _); simpl; [|discriminate]. intros [= <-]. eauto.
Qed.

Lemma float_pair_settled (row row' : json) :
  float_pair row = Ok row' -> float_pair row' = Ok row'.
Proof.
  unfold float_pair.
  destruct (unpack2 row) as [[price amount]|]; simpl; [|discriminate].
  destruct (py_float price) as [p|] eqn:Hp; simpl; [|discriminate].
  destruct (py_float amount) as [a|] eqn:Ha; simpl; [|discriminate].
  intros [= <-].
  apply py_float_float in Hp as [x ->]. apply py_float_float in Ha as [y ->].
  reflexivity.
Qed.

Lemma omap_settled {A} (f : A -> outcome A) (l l' : list A) :
  (forall x y, f x = Ok y -> f y = Ok y) ->
  omap f l = Ok l' -> omap f l' = Ok l'.
Proof.
  intros Hf. revert l'. induction l as [|x l IH]; simpl; intros l'.
  - now intros [= <-].
  - destruct (f x) as [y|] eqn:Hx; simpl; [|discriminate].
    destruct (omap f l) as [ys|]; simpl; [|discriminate].
    intros [= <-]. simpl. now rewrite (Hf _ _ Hx), (IH ys eq_refl).
Qed.

(** Rows that have been converted convert to themselves. *)
Lemma float_pairs_settled (rows converted : json) :
  float_pairs rows = Ok converted -> float_pairs converted = Ok converted.
Proof.
  unfold float_pairs.
  destruct (py_iter rows) as [items|]; simpl; [|discriminate].
  destruct (omap float_pair items) as [l|] eqn:Hl; simpl; [|discriminate].
  intros [= <-]. simpl.
  now rewrite (omap_settled _ _ _ float_pair_settled Hl).
Qed.

Lemma dict_set_same {V} (k : pystr) (v : V) (d : list (pystr * V)) :
  dict_get k d = Some v -> dict_set k v d = d.
Proof.
  induction d as [|[k' v'] d IH]; simpl; [discriminate|].
  destruct (decide (k = k')) as [->|].
  - now intros [= ->].
  - intros H. now rewrite IH.
Qed.

Lemma process_side_settled (orderbook : loc) (side : pystr) (o : json)
    (w : world) :
  store w !! orderbook = Some o -> side_settled side o ->
  process_side orderbook side w = (Ok tt, w).
Proof.
  intros Ho [H1 H2]. unfold process_side, bind. rewrite (load_run _ _ _ Ho).
  destruct o as [| | | |s|items|d]; simpl in *; try discriminate.
  - destruct (is_substring side s); [discriminate | reflexivity].
  - destruct (existsb (is_str side) items); [discriminate | reflexivity].
  - destruct (dict_get side d) as [rows|]; [|reflexivity].
    unfold lift, save.
    destruct (float_pairs rows) as [converted|]; simpl in *; [|discriminate].
    rewrite H2, (insert_id _ _ _ Ho). now rewrite set_store_id.
Qed.

(** A turn of the loop that went through leaves its side settled, and
    keeps the other side settled if it was. *)
Lemma process_side_nested_settles (side : pystr) (o : json) :
  fst (process_side_nested side o) = Ok tt ->
  side_settled side (snd (process_side_nested side o))
  /\ forall side', side' <> side -> side_settled side' o ->
       side_settled side' (snd (process_side_nested side o)).
Proof.
  unfold side_settled.
  destruct o as [| | | |s|items|d]; simpl; try discriminate.
  - destruct (is_substring side s) eqn:H; simpl; [discriminate|].
    rewrite H. auto.
  - destruct (existsb (is_str side) items) eqn:H; simpl; [discriminate|].
    rewrite H. auto.
  - destruct (dict_get side d) as [rows|] eqn:Hside; simpl.
    + destruct (float_pairs rows) as [converted|] eqn:Hconv; simpl;
        [|discriminate].
      intros _. split.
      * rewrite dict_get_set, decide_True by reflexivity.
        rewrite (float_pairs_settled _ _ Hconv). simpl. split; [reflexivity|].
        f_equal. apply dict_set_same.
        now rewrite dict_get_set, decide_True by reflexivity.
      * intros side' Hne. rewrite dict_get_set, decide_False by exact Hne.
        destruct (dict_get side' d) as [rows'|] eqn:Hside'; [|auto].
        destruct (float_pairs rows') as [converted'|]; simpl;
          [|intros [[=] _]].
        intros [_ Heq]. split; [reflexivity|].
        injection Heq as Heq. f_equal.
        apply dict_set_same.
        rewrite dict_get_set, decide_False by exact Hne.
        pose proof (f_equal (dict_get side') Heq) as Hg.
        rewrite dict_get_set, decide_True in Hg by reflexivity.
        symmetry. exact Hg.
    + rewrite Hside. auto.
Qed.

(** X18. [process_orderbook] is idempotent: applied to an object it has
    already converted without raising, it returns the object again and
    changes nothing, since [float] of a float is that float.  So an
    order book may pass through it twice, as it would if the result of
    [orderbook] were handed to it again. *)
Theorem process_orderbook_idempotent (orderbook : loc) (w : world) :
  fst (process_orderbook orderbook w) = Ok orderbook ->
  let w' := snd (process_orderbook orderbook w) in
  process_orderbook orderbook w' = (Ok orderbook, w').
Proof.
  unfold process_orderbook, bind.
  destruct (store w !! orderbook) as [o|] eqn:Ho.
  2:{ unfold process_side at 1, bind, load. rewrite Ho. discriminate. }
  destruct (process_side_nested_agrees orderbook (py "bids") o w Ho)
    as [H1 H2].
  destruct (process_side orderbook (py "bids") w) as [[[]|e1] w1];
    [|discriminate].
  simpl in H1, H2. symmetry in H1.
  destruct (process_side_nested_settles _ _ H1) as [Hb _].
  set (o1 := snd (process_side_nested (py "bids") o)) in *.
  destruct (process_side_nested_agrees orderbook (py "asks") o1 w1 H2)
    as [H3 H4].
  destruct (process_side orderbook (py "asks") w1) as [[[]|e2] w2];
    [|discriminate].
  simpl in H3, H4. symmetry in H3.
  destruct (process_side_nested_settles _ _ H3) as [Ha Hkeep].
  set (o2 := snd (process_side_nested (py "asks") o1)) in *.
  intros _. simpl.
  rewrite (process_side_settled _ _ _ _ H4).
  - now rewrite (process_side_settled _ _ _ _ H4 Ha).
  - apply Hkeep; [|exact Hb]. intros Heq. vm_compute in Heq.
    discriminate Heq.
Qed.

End OrderbookProperties.

(** ** More on [make_df] and [make_series] *)

Section TableProperties.
Context {L : PyLib} {X : PyExt}.

Lemma dict_get_map_keys_None {V} (g : pystr -> V) (k : pystr)
    (keys : list pystr) :
  ~ In k keys -> dict_get k (map (fun x => (x, g x)) keys) = None.
Proof.
  induction keys as [|k0 keys IH]; simpl; [reflexivity|].
  intros H. destruct (decide (k = k0)) as [->|]; [tauto|]. apply IH. tauto.
Qed.

Lemma frame_of_records_get (rows : list (list (pystr * json))) (f : pystr) :
  dict_get f (columns (frame_of_records rows)) =
  if bool_decide (f ∈ record_keys rows) then Some (column_of f rows)
  else None.
Proof.
  unfold frame_of_records, column_of. cbn [columns].
  case_bool_decide as Hf.
  - apply (dict_get_map_keys
             (fun k => map (fun row => match dict_get k row with
                                       | Some v => CVal v
                                       | None => nan_cell
                                       end) rows)).
    now apply list_elem_of_In.
  - apply (dict_get_map_keys_None
             (fun k => map (fun row => match dict_get k row with
                                       | Some v => CVal v
                                       | None => nan_cell
                                       end) rows)).
    intros H. apply Hf. now apply list_elem_of_In.
Qed.

Lemma process_panda_frame_ok (f table : frame)
    (numeric time : option (list pystr)) :
  process_panda (VFrame f) numeric time = Ok (VFrame table) ->
  exists f1, convert_frame (to_numeric ErrorsRaise) numeric f = Ok f1
             /\ convert_frame (to_datetime ErrorsRaise) time f1 = Ok table.
Proof.
  simpl. destruct (convert_frame (to_numeric ErrorsRaise) numeric f) as [f1|]; simpl;
    [|discriminate].
  destruct (convert_frame (to_datetime ErrorsRaise) time f1) as [f2|] eqn:H2; simpl;
    [|discriminate].
  intros [= <-]. exists f1. auto.
Qed.



Lemma fold_dict_set_declared {V W} (R : pystr -> W * V -> Prop)
    (labels : list pystr) (cols : list (W * V)) (base : list (pystr * V))
    (f : pystr) :
  NoDup labels -> Forall2 R labels cols -> f ∈ labels ->
  exists kc,
    R f kc
    /\ dict_get f (fold_left (fun acc kc => dict_set (fst kc) (snd (snd kc)) acc)
                     (combine labels cols) base)
       = Some (snd kc).
Proof.
  intros Hnd Hall. revert base.
  induction Hall as [|k kc labels cols Hk Hall IH]; intros base Hf.
  - inversion Hf.
  - apply NoDup_cons in Hnd as [Hk' Hnd]. simpl.
    destruct (decide (f = k)) as [->|Hne].
    + exists kc. split; [exact Hk|].
      rewrite fold_dict_set_other.
      * rewrite dict_get_set. now destruct (decide _).
      * intros Hin. apply combine_fst_subset, list_elem_of_In in Hin.
        contradiction.
    + apply IH; [exact Hnd|]. apply elem_of_cons in Hf as [?|?]; tauto.
Qed.

Lemma frame_apply_ok (conv : list cell -> outcome (list cell))
    (sub converted : frame) :
  nrows sub <> 0%nat -> columns sub <> [] ->
  frame_apply conv sub = Ok converted ->
  Forall2 (fun kc kc' => fst kc' = fst kc /\ conv (snd kc) = Ok (snd kc'))
    (columns sub) (columns converted).
Proof.
  intros Hn Hc. unfold frame_apply.
  destruct (Nat.eqb_spec (nrows sub) 0); [contradiction|].
  destruct (Nat.eqb_spec (length (columns sub)) 0) as [Hz|_].
  { destruct (columns sub); [contradiction | discriminate]. }
  simpl.
  destruct (omap _ (columns sub)) as [cols|] eqn:Hcols; simpl;
    [|discriminate].
  intros [= <-]. simpl. apply omap_ok in Hcols.
  eapply Forall2_impl; [exact Hcols|]. intros kc kc' H. simpl in H.
  destruct (conv (snd kc)); simpl in H; [|discriminate].
  injection H as <-. auto.
Qed.

Lemma Forall2_compose {A B C} (R : A -> B -> Prop) (S : B -> C -> Prop)
    (l : list A) (m : list B) (n : list C) :
  Forall2 R l m -> Forall2 S m n ->
  Forall2 (fun a c => exists b, R a b /\ S b c) l n.
Proof.
  intros H. revert n. induction H; intros n Hn; inversion Hn; subst;
    constructor; eauto.
Qed.

(** A declared column of a table with rows holds what the converter made
    of it. *)
Lemma convert_frame_declared (conv : list cell -> outcome (list cell))
    (labels : list pystr) (panda panda' : frame) (f : pystr) :
  NoDup labels -> f ∈ labels -> nrows panda <> 0%nat ->
  convert_frame conv (Some labels) panda = Ok panda' ->
  exists col col',
    dict_get f (columns panda) = Some col
    /\ conv col = Ok col'
    /\ dict_get f (columns panda') = Some col'.
Proof.
  intros Hnd Hf Hrows. simpl.
  destruct (frame_getitem panda labels) as [sub|] eqn:Hsub; simpl;
    [|discriminate].
  destruct (frame_apply conv sub) as [converted|] eqn:Hconv; simpl;
    [|discriminate].
  unfold frame_setitem. rewrite (bool_decide_eq_true_2 _ Hnd).
  intros [= <-]. simpl.
  apply frame_getitem_ok in Hsub as [Hn Hsub].
  apply frame_apply_ok in Hconv.
  - pose proof (Forall2_compose _ _ _ _ _ Hsub Hconv) as Hall.
    destruct (fold_dict_set_declared _ _ _ (columns panda) f Hnd Hall Hf)
      as (kc' & (kc & [Hk1 Hk2] & [Hk3 Hk4]) & Hget).
    exists (snd kc), (snd kc'). auto.
  - now rewrite Hn.
  - intros Hnil. rewrite Hnil in Hsub. inversion Hsub. subst. inversion Hf.
Qed.

(** X20. In the table [make_df] returns for a non-empty list of
    records, the column of a field declared numeric (and not temporal)
    is what [pd.to_numeric] made of the column of the values the
    records hold for that field. *)
Theorem declared_numeric_field_is_converted (data : loc)
    (rows : list (list (pystr * json))) (labels : list pystr)
    (time : option (list pystr)) (f : pystr) (table : frame) (w : world) :
  store w !! data = Some (JList (map JDict rows)) ->
  rows <> [] ->
  NoDup labels -> f ∈ labels ->
  (forall tl, time = Some tl -> NoDup tl /\ f ∉ tl) ->
  fst (make_df data (Some labels) time w) = Ok (VFrame table) ->
  exists converted,
    to_numeric ErrorsRaise (column_of f rows) = Ok converted
    /\ dict_get f (columns table) = Some converted.
Proof.
  intros Hd Hrows Hnd Hf Htime. rewrite (make_df_records _ _ _ _ _ Hd).
  cbn [fst]. intros H. apply process_panda_frame_ok in H as (f1 & H1 & H2).
  apply (convert_frame_declared _ _ _ _ f Hnd Hf) in H1
    as (col & col' & Hcol & Hconv & Hget).
  - apply (convert_frame_other _ _ _ _ f Htime) in H2 as [_ Hc2].
    rewrite frame_of_records_get in Hcol.
    case_bool_decide; [|discriminate]. injection Hcol as <-.
    exists col'. split; [exact Hconv|]. now rewrite Hc2.
  - simpl. destruct rows; [contradiction | discriminate].
Qed.

Lemma omap_raise_at {A B} (f : A -> outcome B) (l : list A) (x : A)
    (e0 : exn) :
  (forall y e, f y = Raise e -> e = e0) -> In x l -> f x = Raise e0 ->
  omap f l = Raise e0.
Proof.
  intros Hf. induction l as [|y l IH]; simpl; [tauto|].
  intros Hin Hx. destruct (f y) as [b|e] eqn:Hy; simpl.
  - destruct Hin as [->|Hin]; [congruence|].
    now rewrite (IH Hin Hx).
  - now rewrite (Hf _ _ Hy).
Qed.

Lemma add_keys_from (row : list (pystr * json)) (acc : list pystr)
    (k : pystr) :
  k ∈ fold_left add_key row acc -> k ∈ acc \/ In k (map fst row).
Proof.
  revert acc. induction row as [|kv row IH]; simpl; intros acc H; [auto|].
  apply IH in H as [H|H]; [|auto].
  unfold add_key in H. case_bool_decide; [auto|].
  apply elem_of_app in H as [H|H]; [auto|].
  apply list_elem_of_singleton in H. auto.
Qed.

Lemma record_keys_from (rows : list (list (pystr * json)))
    (acc : list pystr) (k : pystr) :
  k ∈ fold_left (fun acc row => fold_left add_key row acc) rows acc ->
  k ∈ acc \/ exists row, In row rows /\ In k (map fst row).
Proof.
  revert acc. induction rows as [|row rows IH]; simpl; intros acc H; [auto|].
  apply IH in H as [H|(row' & H1 & H2)]; [|eauto].
  apply add_keys_from in H as [H|H]; eauto.
Qed.

Lemma dict_get_None {V} (k : pystr) (d : list (pystr * V)) :
  dict_get k d = None -> ~ In k (map fst d).
Proof.
  induction d as [|[k' v] d IH]; simpl; [tauto|].
  destruct (decide (k = k')); [discriminate|].
  intros H [Heq|Hin]; [congruence | now apply IH].
Qed.

(** X21. A field declared numeric that no record of the answer holds
    makes [make_df] raise [KeyError] (the selection of the declared
    columns fails before anything is converted), and a field declared
    numeric that the record lacks makes [make_series] raise [KeyError]:
    a declared field is required, not optional.  The empty list is the
    case of no records at all. *)
Theorem declared_field_missing_raises (data : loc) (labels : list pystr)
    (time : option (list pystr)) (f : pystr) (w : world) :
  f ∈ labels ->
  (forall rows,
      store w !! data = Some (JList (map JDict rows)) ->
      (forall row, In row rows -> dict_get f row = None) ->
      make_df data (Some labels) time w = (Raise (Exn KeyError NoArg), w))
  /\ (forall d,
        store w !! data = Some (JDict d) ->
        dict_has (py "statusCode") d = false ->
        dict_get f d = None ->
        make_series data (Some labels) time w
        = (Raise (Exn KeyError NoArg), w)).
Proof.
  intros Hf. apply list_elem_of_In in Hf. split.
  - intros rows Hd Hnone. rewrite (make_df_records _ _ _ _ _ Hd).
    f_equal. simpl. unfold frame_getitem.
    rewrite (omap_raise_at _ labels f (Exn KeyError NoArg)); auto.
    + intros y e. destruct (dict_get y _); simpl; [discriminate|].
      now intros [= <-].
    + rewrite frame_of_records_get. case_bool_decide as Hin; [|reflexivity].
      exfalso. unfold record_keys in Hin.
      apply record_keys_from in Hin as [Hin|(row & Hrow & Hk)];
        [inversion Hin|].
      exact (dict_get_None _ _ (Hnone row Hrow) Hk).
  - intros d Hd Herr Hnone. rewrite (make_series_dict _ _ _ _ _ Hd Herr).
    f_equal. simpl. unfold series_getitem.
    rewrite (omap_raise_at _ labels f (Exn KeyError NoArg)); auto.
    + intros y e. destruct (dict_get y _); simpl; [discriminate|].
      now intros [= <-].
    + now rewrite dict_get_cells, Hnone.
Qed.

End TableProperties.

(** ** The size of a signature *)

Section SignatureProperties.
Context {L : PyLib} {X : PyExt}.

Lemma be_bytes_length (count : nat) (x : N) :
  length (Sha512.be_bytes count x) = count.
Proof. induction count as [|k IH]; simpl; [reflexivity | now rewrite IH]. Qed.

Lemma compress_length (h : list N) (block : pybytes) :
  length h = 8%nat -> length (Sha512.compress h block) = 8%nat.
Proof.
  intros Hh. unfold Sha512.compress.
  rewrite length_map, length_combine, Hh. reflexivity.
Qed.

Lemma digest_length (msg : pybytes) : length (Sha512.digest msg) = 64%nat.
Proof.
  unfold Sha512.digest.
  assert (Hh : forall blocks h, length h = 8%nat ->
                 length (fold_left Sha512.compress blocks h) = 8%nat).
  { induction blocks as [|b blocks IH]; simpl; intros h Hh; [exact Hh|].
    apply IH, compress_length, Hh. }
  specialize (Hh (Sha512.blocks (msg ++ Sha512.padding (length msg)))
                Sha512.H0 eq_refl).
  destruct (fold_left _ _ _) as [|a [|b [|c [|d [|e [|f [|g [|h [|]]]]]]]]];
    try discriminate Hh.
  cbn [map concat]. rewrite !length_app, !be_bytes_length. reflexivity.
Qed.

Lemma hmac_sha512_length (key msg : pybytes) :
  length (Hmac.hmac_sha512 key msg) = 64%nat.
Proof. apply digest_length. Qed.

Lemma b64encode_three (a b c : byte) (rest : pybytes) :
  exists s1 s2 s3 s4,
    Base64.b64encode (a :: b :: c :: rest)
    = Base64.sextet s1 :: Base64.sextet s2 :: Base64.sextet s3
        :: Base64.sextet s4 :: Base64.b64encode rest.
Proof. do 4 eexists. reflexivity. Qed.

(** Base64 writes four characters for every three bytes, the last group
    padded. *)
Lemma b64encode_length (bs : pybytes) :
  length (Base64.b64encode bs) = (4 * ((length bs + 2) / 3))%nat.
Proof.
  assert (H : forall n bs, (length bs <= n)%nat ->
    length (Base64.b64encode bs) = (4 * ((length bs + 2) / 3))%nat).
  { induction n as [|n IH]; intros [|a [|b [|c rest]]] Hn;
      try reflexivity; simpl in Hn; try lia.
    destruct (b64encode_three a b c rest) as (s1 & s2 & s3 & s4 & ->).
    cbn [length]. rewrite IH by lia.
    replace (S (S (S (length rest))) + 2)%nat
      with (length rest + 2 + 1 * 3)%nat by lia.
    rewrite Nat.div_add by discriminate. lia. }
  apply (H (length bs)). lia.
Qed.

Lemma sextet_base64 (n : N) :
  is_base64_char (Byte.to_N (Base64.sextet n)) = true.
Proof.
  unfold Base64.sextet.
  assert (H : (N.to_nat (N.land n 0x3F) < 64)%nat).
  { change 0x3F with (N.ones 6). rewrite N.land_ones.
    pose proof (N.mod_lt n (2 ^ 6)) as H. change (2 ^ 6) with 64 in *. lia. }
  generalize dependent (N.to_nat (N.land n 0x3F)). intros k H.
  do 64 (destruct k as [|k]; [vm_compute; reflexivity|]). lia.
Qed.

Lemma b64encode_chars (bs : pybytes) :
  forallb is_base64_char (map Byte.to_N (Base64.b64encode bs)) = true.
Proof.
  assert (Hpad : is_base64_char (Byte.to_N Base64.pad) = true)
    by (vm_compute; reflexivity).
  assert (H : forall n bs, (length bs <= n)%nat ->
    forallb is_base64_char (map Byte.to_N (Base64.b64encode bs)) = true).
  { induction n as [|n IH]; intros [|a [|b [|c rest]]] Hn;
      try reflexivity; simpl in Hn; try lia.
    - change (Base64.b64encode [a])
        with (let n := N.shiftl (Byte.to_N a) 16 in
              [Base64.sextet (N.shiftr n 18); Base64.sextet (N.shiftr n 12);
               Base64.pad; Base64.pad]).
      cbn [map forallb]. now rewrite !sextet_base64, Hpad.
    - change (Base64.b64encode [a; b])
        with (let n := N.lor (N.shiftl (Byte.to_N a) 16)
                         (N.shiftl (Byte.to_N b) 8) in
              [Base64.sextet (N.shiftr n 18); Base64.sextet (N.shiftr n 12);
               Base64.sextet (N.shiftr n 6); Base64.pad]).
      cbn [map forallb]. now rewrite !sextet_base64, Hpad.
    - destruct (b64encode_three a b c rest) as (s1 & s2 & s3 & s4 & ->).
      cbn [map forallb]. rewrite !sextet_base64. apply IH. lia. }
  apply (H (length bs)). lia.
Qed.

(** X22. Every signature [signMessage] returns, and so every
    [BM-AUTH-SIGNATURE] header [buildHeaders] returns, is a string of
    88 base64 characters whatever the key and the message are: an
    HMAC-SHA512 digest has 64 bytes and base64 writes four characters
    for every three bytes. *)
Theorem signature_is_88_base64_characters (method apiKey : pystr)
    (privateKey : pybytes) (path : pystr) (data : option pystr) (w : world) :
  (forall message signature,
      signMessage privateKey message = Ok signature ->
      length signature = 88%nat
      /\ forallb is_base64_char signature = true)
  /\ (forall headers signature,
        fst (buildHeaders method apiKey privateKey path data w) = Ok headers ->
        dict_get (py "BM-AUTH-SIGNATURE") headers = Some signature ->
        length signature = 88%nat
        /\ forallb is_base64_char signature = true).
Proof.
  assert (Hsign : forall message signature,
    signMessage privateKey message = Ok signature ->
    length signature = 88%nat /\ forallb is_base64_char signature = true).
  { intros message signature. rewrite signMessage_outcome.
    destruct (Utf8.encode message) as [bs|]; [|discriminate].
    intros [= <-]. split.
    - now rewrite length_map, b64encode_length, hmac_sha512_length.
    - apply b64encode_chars. }
  split; [exact Hsign|].
  intros headers signature. rewrite buildHeaders_run. cbn [fst].
  destruct (signMessage _ _) as [s|] eqn:Hs; [|discriminate].
  intros [= <-]. intros Hget. vm_compute in Hget. injection Hget as <-.
  eapply Hsign, Hs.
Qed.

End SignatureProperties.

(** * Worked examples

    The statements above at concrete inputs, run with the interpreter of
    [Sample]: key [b"secret-key-bytes"], clock at 1700000000000 ms. *)

Import Sample.

(** The signature CPython computes for the same key and message:
    [base64.b64encode(hmac.new(b"secret-key-bytes",
    b"GET/v3/markets1700000000000", hashlib.sha512).digest())]. *)
Example buildHeaders_known_answer :
  fst (buildHeaders (py "GET") (py "api-key") key (py "/v3/markets") None
         world0)
  = Ok [ (py "Accept", py "application/json");
         (py "Accept-Charset", py "UTF-8");
         (py "Content-Type", py "application/json");
         (py "BM-AUTH-APIKEY", py "api-key");
         (py "BM-AUTH-TIMESTAMP", py "1700000000000");
         (py "BM-AUTH-SIGNATURE",
          py "luJoWdZefjve4bWsCgr5xWpFZx2pWc+yf5slB8hdxDTJJKGrdXhRVrcESrK57LPKZS+YDA6l6gZkc2vwOXQWgA==") ].
Proof. vm_compute. reflexivity. Qed.

Lemma buildHeaders_signs_canonical_message_witness :
  let bs := ascii_bytes "POST/v3/reports1700000000000{}" in
  Utf8.encode (py "POST" ++ py "/v3/reports" ++ py "1700000000000"
               ++ default [] (Some (py "{}"))) = Some bs
  /\ exists headers signature,
       fst (buildHeaders (py "POST") (py "api-key") key (py "/v3/reports")
              (Some (py "{}")) world0) = Ok headers
       /\ dict_get (py "BM-AUTH-SIGNATURE") headers = Some signature
       /\ Utf8.decode (Base64.b64encode (Hmac.hmac_sha512 key bs))
          = Some signature.
Proof.
  intros bs.
  assert (H : Utf8.encode (py "POST" ++ py "/v3/reports" ++ py "1700000000000"
                           ++ default [] (Some (py "{}"))) = Some bs)
    by (vm_compute; reflexivity).
  split; [exact H|].
  exact (buildHeaders_signs_canonical_message (py "POST") (py "api-key") key
           (py "/v3/reports") (Some (py "{}")) world0 bs H).
Defined.

Lemma buildHeaders_timestamp_agrees_witness :
  let headers :=
    [ (py "Accept", py "application/json");
      (py "Accept-Charset", py "UTF-8");
      (py "Content-Type", py "application/json");
      (py "BM-AUTH-APIKEY", py "api-key");
      (py "BM-AUTH-TIMESTAMP", py "1700000000000");
      (py "BM-AUTH-SIGNATURE",
       py "luJoWdZefjve4bWsCgr5xWpFZx2pWc+yf5slB8hdxDTJJKGrdXhRVrcESrK57LPKZS+YDA6l6gZkc2vwOXQWgA==") ] in
  fst (buildHeaders (py "GET") (py "api-key") key (py "/v3/markets") None
         world0) = Ok headers
  /\ exists now signature,
       now = str_of_int (clock world0 (ticks world0))
       /\ ticks (snd (buildHeaders (py "GET") (py "api-key") key
                        (py "/v3/markets") None world0))
          = S (ticks world0)
       /\ dict_get (py "BM-AUTH-TIMESTAMP") headers = Some now
       /\ dict_get (py "BM-AUTH-SIGNATURE") headers = Some signature
       /\ signMessage key
            (py "GET" ++ py "/v3/markets" ++ now ++ default [] None)
          = Ok signature.
Proof.
  intros headers.
  assert (H : fst (buildHeaders (py "GET") (py "api-key") key
                     (py "/v3/markets") None world0) = Ok headers)
    by (vm_compute; reflexivity).
  split; [exact H|].
  exact (buildHeaders_timestamp_agrees (py "GET") (py "api-key") key
           (py "/v3/markets") None world0 headers H).
Defined.

(** [place_order] hands [makeHttpCall] a body it has serialised already;
    the string is serialised once more, and that text is both signed and
    sent. *)
Lemma makeHttpCall_signs_transmitted_body_witness :
  let data := JStr (json_dumps (JDict [(py "price", JStr (py "100"))])) in
  let bs := default [] (Utf8.encode (py "POST" ++ py "/v3/orders"
                                     ++ py "1700000000000" ++ json_dumps data)) in
  (py "POST" = py "POST" \/ py "POST" = py "PUT")
  /\ Utf8.encode (py "POST" ++ py "/v3/orders"
                  ++ str_of_int (clock world0 (ticks world0))
                  ++ json_dumps data) = Some bs
  /\ exists req prefix wire signature,
       sent (snd (makeHttpCall strict (py "POST") (py "/v3/orders") None
                    (Some data) world0)) = sent world0 ++ [req]
       /\ req_body req = Some wire
       /\ Utf8.encode (json_dumps data) = Some wire
       /\ Utf8.encode (py "POST" ++ py "/v3/orders"
                       ++ str_of_int (clock world0 (ticks world0)))
          = Some prefix
       /\ bs = prefix ++ wire
       /\ dict_get (py "BM-AUTH-SIGNATURE") (req_headers req) = Some signature
       /\ Utf8.decode
            (Base64.b64encode (Hmac.hmac_sha512 (privateKey strict) bs))
          = Some signature.
Proof.
  intros data bs.
  assert (H1 : py "POST" = py "POST" \/ py "POST" = py "PUT")
    by (left; reflexivity).
  assert (H2 : Utf8.encode (py "POST" ++ py "/v3/orders"
                            ++ str_of_int (clock world0 (ticks world0))
                            ++ json_dumps data) = Some bs)
    by (vm_compute; reflexivity).
  split; [exact H1|]. split; [exact H2|].
  apply (makeHttpCall_signs_transmitted_body strict (py "POST")
           (py "/v3/orders") None data world0 bs H1 H2).
  intros q Hq. discriminate Hq.
Defined.

(** [orderbook]: the level goes into the URL, not into the signature. *)
Lemma makeHttpCall_signs_path_argument_witness :
  let path := py "/v3/markets/BAT-AUD/orderbook" in
  let query := Some [(py "level", QInt 1)] in
  let bs := ascii_bytes "GET/v3/markets/BAT-AUD/orderbook1700000000000" in
  (Utf8.encode (py "GET" ++ path ++ str_of_int (clock world0 (ticks world0))
                ++ default [] (json_dumps <$> None)) = Some bs
   /\ query_text query (py "?level=1")
   /\ wire_body (py "GET") (json_dumps <$> None) None
   /\ exists req signature,
        sent (snd (makeHttpCall strict (py "GET") path query None world0))
        = sent world0 ++ [req]
        /\ req_url req = base_url ++ path ++ py "?level=1"
        /\ dict_get (py "BM-AUTH-SIGNATURE") (req_headers req) = Some signature
        /\ Utf8.decode
             (Base64.b64encode (Hmac.hmac_sha512 (privateKey strict) bs))
           = Some signature)
  /\ (writes_own_query (OrderById (py "12")) = false
      /\ Forall (fun s => has_query s = false) (path_args (OrderById (py "12")))
      /\ has_query (snd (fst (fst (request_of (OrderById (py "12")))))) = false).
Proof.
  intros path query bs.
  assert (H1 : Utf8.encode (py "GET" ++ path
                            ++ str_of_int (clock world0 (ticks world0))
                            ++ default [] (json_dumps <$> None)) = Some bs)
    by (vm_compute; reflexivity).
  assert (H2 : query_text query (py "?level=1")).
  { exists (py "level=1"). split; vm_compute; reflexivity. }
  assert (H3 : wire_body (py "GET") (json_dumps <$> None) None)
    by (vm_compute; reflexivity).
  assert (H4 : writes_own_query (OrderById (py "12")) = false)
    by reflexivity.
  assert (H5 : Forall (fun s => has_query s = false)
                 (path_args (OrderById (py "12"))))
    by (repeat constructor).
  split.
  - split; [exact H1|]. split; [exact H2|]. split; [exact H3|].
    exact (proj1 makeHttpCall_signs_path_argument strict (py "GET") path query
             None world0 bs (py "?level=1") None H1 H2 H3).
  - split; [exact H4|]. split; [exact H5|].
    exact (proj2 makeHttpCall_signs_path_argument (OrderById (py "12")) H4 H5).
Defined.

(** C2.  [tickers] departs from the way [makeHttpCall] and every other
    method have it: the path it passes already ends in
    [?marketId=BTC-AUD], and the signature that goes out is the one of
    the message with that query string, not the one of the message with
    the bare path. *)
Lemma tickers_signs_query_string :
  exists req signature,
    sent (snd (tickers strict [py "BTC-AUD"] world0)) = [req]
    /\ req_url req
       = py "https://api.btcmarkets.net/v3/markets/tickers?marketId=BTC-AUD"
    /\ dict_get (py "BM-AUTH-SIGNATURE") (req_headers req) = Some signature
    /\ signMessage key
         (py "GET/v3/markets/tickers?marketId=BTC-AUD1700000000000")
       = Ok signature
    /\ signMessage key (py "GET/v3/markets/tickers1700000000000")
       <> Ok signature.
Proof.
  eexists _, _. split; [vm_compute; reflexivity|].
  split; [vm_compute; reflexivity|].
  split; [vm_compute; reflexivity|].
  split; [vm_compute; reflexivity|].
  vm_compute. discriminate.
Qed.

(** [orderbooks] does the same. *)
Example orderbooks_signs_query_string :
  exists req signature,
    sent (snd (orderbooks strict [py "BAT-AUD"; py "BTC-AUD"] world0)) = [req]
    /\ req_url req
       = py "https://api.btcmarkets.net/v3/markets/orderbooks?marketId=BAT-AUD&marketId=BTC-AUD"
    /\ dict_get (py "BM-AUTH-SIGNATURE") (req_headers req) = Some signature
    /\ signMessage key
         (py "GET/v3/markets/orderbooks?marketId=BAT-AUD&marketId=BTC-AUD1700000000000")
       = Ok signature
    /\ signMessage key (py "GET/v3/markets/orderbooks1700000000000")
       <> Ok signature.
Proof.
  eexists _, _. split; [vm_compute; reflexivity|].
  split; [vm_compute; reflexivity|].
  split; [vm_compute; reflexivity|].
  split; [vm_compute; reflexivity|].
  vm_compute. discriminate.
Qed.

Lemma error_message_returned_unmodified_witness :
  let d := [(py "statusCode", JInt 429);
            (py "message", JStr (py "rate limited"))] in
  let numeric := Some [py "statusCode"] in
  let time := Some [py "message"] in
  store (holding rate_limited) !! 1%positive = Some (JDict d)
  /\ dict_has (py "statusCode") d = true
  /\ make_df 1%positive numeric time (holding rate_limited)
     = (Ok (VRef 1%positive), holding rate_limited)
  /\ make_series 1%positive numeric time (holding rate_limited)
     = (Ok (VRef 1%positive), holding rate_limited).
Proof.
  intros d numeric time.
  assert (H1 : store (holding rate_limited) !! 1%positive = Some (JDict d))
    by reflexivity.
  assert (H2 : dict_has (py "statusCode") d = true) by reflexivity.
  split; [exact H1|]. split; [exact H2|].
  exact (error_message_returned_unmodified 1%positive d numeric time
           (holding rate_limited) H1 H2).
Defined.

Lemma book_rows_priced (side : pystr) (rows : json) :
  side ∈ [py "bids"; py "asks"] ->
  dict_get side
    [(py "marketId", JStr (py "BAT-AUD")); (py "snapshotId", JInt 1);
     (py "asks", JList [JList [JStr (py "0.2677"); JStr (py "5665.85")]]);
     (py "bids", JList [JList [JStr (py "0.2612"); JStr (py "17847.84")]])]
  = Some rows ->
  priced_rows rows.
Proof.
  intros Hside.
  apply elem_of_cons in Hside as [->|Hside];
    [|apply list_elem_of_singleton in Hside as ->];
    intros [= <-]; eexists; (split; [reflexivity|]);
    repeat constructor; eexists; eexists _, _, _, _;
    (split; [reflexivity|]); (split; [vm_compute; reflexivity|]);
    (split; [vm_compute; reflexivity|]); reflexivity.
Qed.

Lemma process_orderbook_converts_sides_witness :
  let d := [(py "marketId", JStr (py "BAT-AUD")); (py "snapshotId", JInt 1);
            (py "asks", JList [JList [JStr (py "0.2677"); JStr (py "5665.85")]]);
            (py "bids", JList [JList [JStr (py "0.2612"); JStr (py "17847.84")]])]
  in
  store (holding book) !! 1%positive = Some (JDict d)
  /\ (forall side rows, side ∈ [py "bids"; py "asks"] ->
                        dict_get side d = Some rows -> priced_rows rows)
  /\ exists d' w',
       process_orderbook 1%positive (holding book) = (Ok 1%positive, w')
       /\ store w' !! 1%positive = Some (JDict d')
       /\ map fst d' = map fst d
       /\ (forall k, k ∉ [py "bids"; py "asks"] ->
                     dict_get k d' = dict_get k d)
       /\ (forall side, side ∈ [py "bids"; py "asks"] ->
             dict_get side d = None -> dict_get side d' = None)
       /\ (forall side items, side ∈ [py "bids"; py "asks"] ->
             dict_get side d = Some (JList items) ->
             exists items', dict_get side d' = Some (JList items')
                            /\ Forall2 float_row items items').
Proof.
  intros d.
  assert (H1 : store (holding book) !! 1%positive = Some (JDict d))
    by reflexivity.
  split; [exact H1|]. split; [exact book_rows_priced|].
  exact (process_orderbook_converts_sides 1%positive d (holding book) H1
           book_rows_priced).
Defined.

(** The floats of the example are the binary64 values nearest to the
    decimals: 0.2677 = 4822454480988327 * 2^-54, and so on. *)
Example process_orderbook_book :
  store (snd (process_orderbook 1%positive (holding book))) !! 1%positive
  = Some
      (JDict
         [(py "marketId", JStr (py "BAT-AUD")); (py "snapshotId", JInt 1);
          (py "asks",
           JList [JList [JFloat (S754_finite false 4822454480988327 (-54));
                         JFloat (S754_finite false 6229667956234650 (-40))]]);
          (py "bids",
           JList [JList [JFloat (S754_finite false 4705360890676694 (-54));
                         JFloat (S754_finite false 4905976902671401 (-38))]])]).
Proof. reflexivity. Qed.


(** The same trade with a price and a timestamp that pandas reads: the
    calls return, with a float, an integer and a timestamp (in
    nanoseconds since the epoch) in place of the three texts. *)
Example make_df_converts_trade :
  let row := [(py "price", JStr (py "100.5")); (py "amount", JStr (py "2"));
              (py "timestamp", JStr (py "2019-08-14T03:20:43.123000Z"))] in
  let price := CVal (JFloat (S754_finite false 7072058789855232 (-46))) in
  let amount := CVal (JInt 2) in
  let timestamp := CTime 1565752843123000000%Z in
  fst (make_df 1%positive (Some [py "price"; py "amount"])
         (Some [py "timestamp"]) (holding (JList [JDict row])))
  = Ok (VFrame (Frame 1 [(py "price", [price]); (py "amount", [amount]);
                         (py "timestamp", [timestamp])]))
  /\ fst (make_series 1%positive (Some [py "price"; py "amount"])
            (Some [py "timestamp"]) (holding (JDict row)))
     = Ok (VSeries [(py "price", price); (py "amount", amount);
                    (py "timestamp", timestamp)]).
Proof. split; reflexivity. Qed.

(** It is the default [errors='raise'] that makes these calls fail: under
    ['coerce'] the column of the price would have come back as [NaN]. *)
Example to_numeric_policies :
  to_numeric ErrorsRaise [CVal (JStr (py "abc"))]
  = Raise (Exn ValueError NoArg)
  /\ to_numeric ErrorsCoerce [CVal (JStr (py "abc"))]
     = Ok [CVal (JFloat S754_nan)].
Proof. split; reflexivity. Qed.


Lemma make_df_empty_list_witness :
  store (holding (JList [])) !! 1%positive = Some (JList [])
  /\ make_df 1%positive None None (holding (JList []))
     = (if declares_field None || declares_field None
        then Raise (Exn KeyError NoArg)
        else Ok (VFrame (Frame 0 [])), holding (JList [])).
Proof.
  assert (H : store (holding (JList [])) !! 1%positive = Some (JList []))
    by reflexivity.
  split; [exact H|].
  exact (make_df_empty_list 1%positive None None (holding (JList [])) H).
Defined.

(** C8.  [make_df] of the empty list does not get as far as an empty
    table once a field is declared: [make_df([], numeric=["price",
    "amount"])] raises [KeyError], since [pd.DataFrame([])] has no
    columns to select.  [orders] steps around this for its own call;
    [fee_by_market] passes [[]] with two numeric fields and [time=[]]
    when the response has no fees, the second call below. *)
Lemma make_df_empty_list_raises :
  let w := holding (JList []) in
  make_df 1%positive (Some [py "price"; py "amount"]) None w
  = (Raise (Exn KeyError NoArg), w)
  /\ make_df 1%positive (Some [py "makerFeeRate"; py "takerFeeRate"])
       (Some []) w
     = (Raise (Exn KeyError NoArg), w).
Proof.
  intros w.
  assert (H : store w !! 1%positive = Some (JList [])) by reflexivity.
  split; rewrite (make_df_empty_list _ _ _ _ H); reflexivity.
Qed.

(** C9 fails on the message.  With [exception_on_error] set,
    [place_order] of a [Stop] order without [triggerPrice] sends nothing
    and raises [ValueError], but the text it carries is the fixed
    "No market_ids provided" that [handle_error] assigns to [msg], not
    the "Stop requires triggerPrice" passed at the failure site. *)
Theorem place_order_error_message_lost :
  place_order strict (py "BTC-AUD") (py "100") (py "1") (py "Bid")
    (py "Stop") None None (py "GTC") false (py "P") None world0
  = (Raise (Exn ValueError (Msg (py "No market_ids provided"))), world0)
  /\ py "No market_ids provided" <> py "Stop" ++ py " requires triggerPrice".
Proof.
  split.
  - rewrite place_order_requires_trigger by (left; reflexivity).
    now rewrite handle_error_run.
  - vm_compute. discriminate.
Qed.

(** Under the other policy the same call prints that text and returns
    [None]; again nothing is sent. *)
Example place_order_lenient :
  place_order lenient (py "BTC-AUD") (py "100") (py "1") (py "Bid")
    (py "Stop") None None (py "GTC") false (py "P") None world0
  = (Ok None, set_stdout [py "No market_ids provided"] world0).
Proof.
  rewrite place_order_requires_trigger by (left; reflexivity).
  now rewrite handle_error_run.
Qed.

(** C10 fails for [process_orderbook]: the object passed in is the object
    returned, and after the call it holds floats where it held strings. *)
Lemma process_orderbook_overwrites_argument :
  store (holding book) !! 1%positive = Some book
  /\ fst (process_orderbook 1%positive (holding book)) = Ok 1%positive
  /\ store (snd (process_orderbook 1%positive (holding book))) !! 1%positive
     <> Some book.
Proof.
  split; [reflexivity|]. split; [reflexivity|].
  rewrite process_orderbook_book. discriminate.
Qed.

(** ** The further properties at concrete inputs *)

(** [cancel_order("7")] with an object in the store already. *)
Lemma makeHttpCall_sends_at_most_once_witness :
  let w := holding book in
  let r := makeHttpCall lenient (py "DELETE") (py "/v3/orders/7") None None w
  in
  ticks (snd r) = S (ticks w)
  /\ stdout (snd r) = stdout w
  /\ (forall l v, store w !! l = Some v -> store (snd r) !! l = Some v)
  /\ ((sent (snd r) = sent w /\ is_raise (fst r))
      \/ exists req,
           sent (snd r) = sent w ++ [req]
           /\ req_method req = py "DELETE"
           /\ is_prefix (base_url ++ py "/v3/orders/7") (req_url req) = true).
Proof.
  exact (@makeHttpCall_sends_at_most_once lib ext lenient (py "DELETE")
           (py "/v3/orders/7") None None (holding book)).
Defined.

(** [cancel_order("7")]: the server answers 404 with a JSON object. *)
Lemma makeHttpCall_http_error_witness :
  let d := [(py "code", JStr (py "OrderNotFound"));
            (py "message", JStr (py "order was not found"))] in
  exists req,
    prepare lenient (py "DELETE") (py "/v3/orders/7") None None
      (str_of_int (clock world0 (ticks world0))) = Ok req
    /\ network world0 (sent world0) req = HTTPError 404 (body_of not_found)
    /\ json_loads_bytes (body_of not_found) = Ok (JDict d)
    /\ let r := makeHttpCall lenient (py "DELETE") (py "/v3/orders/7") None
                  None world0 in
       exists errObject entries,
         store world0 !! errObject = None
         /\ store (snd r) !! errObject = Some (JDict entries)
         /\ dict_get (py "statusCode") entries = Some (JInt 404)
         /\ (forall k, k <> py "statusCode" ->
                       dict_get k entries = dict_get k d)
         /\ is_error_message (JDict entries) = true
         /\ sent (snd r) = sent world0 ++ [req]
         /\ fst r = if exception_on_error lenient
                    then Raise (Exn Exception_ (Obj errObject))
                    else Ok errObject.
Proof.
  intros d. eexists.
  split; [vm_compute; reflexivity|].
  split; [vm_compute; reflexivity|].
  split; [reflexivity|].
  eapply (@makeHttpCall_http_error lib ext lenient (py "DELETE") (py "/v3/orders/7")
           None None world0 _ 404 (body_of not_found) d);
    [vm_compute; reflexivity | vm_compute; reflexivity | reflexivity].
Defined.

(** [markets()]: the server answers with the empty list. *)
Lemma makeHttpCall_decodes_response_witness :
  exists req,
    prepare strict (py "GET") (py "/v3/markets") None None
      (str_of_int (clock world0 (ticks world0))) = Ok req
    /\ network world0 (sent world0) req = HttpOk (body_of (JList []))
    /\ let r := makeHttpCall strict (py "GET") (py "/v3/markets") None None
                  world0 in
       match Utf8.decode (body_of (JList [])) with
       | Some text =>
           match json_loads text with
           | Ok v =>
               exists response,
                 fst r = Ok response
                 /\ store world0 !! response = None
                 /\ store (snd r) !! response = Some v
           | Raise e => r = (Raise e, after_request req world0)
           end
       | None =>
           r = (Raise (Exn UnicodeDecodeError NoArg), after_request req world0)
       end.
Proof.
  eexists.
  split; [vm_compute; reflexivity|].
  split; [vm_compute; reflexivity|].
  eapply (@makeHttpCall_decodes_response lib ext strict (py "GET") (py "/v3/markets")
           None None world0 _ (body_of (JList [])));
    vm_compute; reflexivity.
Defined.

(** [markets()] when the host cannot be reached, errors not raised. *)
Lemma makeHttpCall_transport_failure_witness :
  exists req,
    prepare lenient (py "GET") (py "/v3/markets") None None
      (str_of_int (clock Cases.offline (ticks Cases.offline))) = Ok req
    /\ network Cases.offline (sent Cases.offline) req = URLError
    /\ makeHttpCall lenient (py "GET") (py "/v3/markets") None None
         Cases.offline
       = (Raise (Exn AttributeError NoArg), after_request req Cases.offline).
Proof.
  eexists.
  split; [vm_compute; reflexivity|].
  split; [reflexivity|].
  eapply (@makeHttpCall_transport_failure lib ext lenient (py "GET") (py "/v3/markets")
           None None Cases.offline);
    [vm_compute; reflexivity | reflexivity].
Defined.

(** [orders(market_id="BTC-AUD", limit=10)] *)
Lemma endpoint_request_well_formed_witness :
  match request strict
          (Orders (Some (QStr (py "BTC-AUD"))) None None None
             (Some (QInt 10))) world0 with
  | Ok req =>
      req_method req ∈ [py "GET"; py "POST"; py "PUT"; py "DELETE"]
      /\ is_prefix (base_url ++ py "/v3/") (req_url req) = true
      /\ (is_Some (req_body req) <-> req_method req ∈ [py "POST"; py "PUT"])
      /\ (forall bs, req_body req = Some bs ->
            exists text, req_data req = Some text
                         /\ Utf8.encode text = Some bs)
  | Raise ex => ex = Exn UnicodeEncodeError NoArg
  end.
Proof.
  exact (@endpoint_request_well_formed lib strict
           (Orders (Some (QStr (py "BTC-AUD"))) None None None
              (Some (QInt 10))) world0).
Defined.

(** [replace_order("7", "101", "2")] *)
Lemma body_serialised_twice_witness :
  let e := ReplaceOrder (py "7") (py "101") (py "2") None in
  exists req text,
    request strict e world0 = Ok req
    /\ req_data req = Some text
    /\ if serialises_payload e
       then exists payload,
              text = json_dumps (JStr (json_dumps payload))
              /\ hd_error text = Some 0x22
       else exists fields,
              text = json_dumps (JDict fields) /\ hd_error text = Some 0x7B.
Proof.
  intros e. eexists. eexists.
  split; [vm_compute; reflexivity|].
  split; [reflexivity|].
  eapply (@body_serialised_twice lib strict e world0);
    [vm_compute; reflexivity | reflexivity].
Defined.

(** A client order id with an emoji, a lone surrogate and an accent. *)
Lemma json_dumps_body_is_ascii_witness :
  let v := JDict [(py "clientOrderId", JStr [0x1F600; 0xD800; 0xE9]);
                  (py "amount", JInt (-12))] in
  (forall x, forallb is_printable (float_json x) = true)
  /\ forallb is_printable (json_dumps v) = true
  /\ Utf8.encode (json_dumps v) = Some (map byte_of_N (json_dumps v)).
Proof.
  intros v.
  assert (H : forall x, forallb is_printable (float_json x) = true)
    by (intros x; reflexivity).
  split; [exact H|]. exact (@json_dumps_body_is_ascii lib v H).
Defined.

(** The filters of [orders]: a status of two words and a limit. *)
Lemma urlencode_query_chars_witness :
  let query := [(py "marketId", QStr (py "BTC-AUD"));
                (py "status", QStr (py "Partially Matched"));
                (py "limit", QInt 10)] in
  let qs := py "marketId=BTC-AUD&status=Partially+Matched&limit=10" in
  urlencode query = Ok qs
  /\ forallb is_query_char qs = true
  /\ has_query qs = false
  /\ count_occ N.eq_dec qs 0x3D = length query.
Proof.
  intros query qs.
  assert (H : urlencode query = Ok qs) by (vm_compute; reflexivity).
  split; [exact H|]. exact (urlencode_query_chars query qs H).
Defined.


(** A withdrawal of bitcoin to an address. *)
Lemma request_withdrawal_sends_validated_request_witness :
  let r := request_withdrawal strict (py "BTC") (py "0.5")
             (Some (py "bc1qexample")) None None None None None None world0 in
  let bank : list (option pystr) := [None; None; None; None] in
  sent (snd r) <> sent world0
  /\ py "BTC" <> [] /\ py "0.5" <> []
  /\ (py "BTC" = py "AUD" ->
      (existsb truthy bank = true -> forallb truthy bank = true)
      /\ (truthy None = true -> (length (default [] (@None pystr)) <= 18)%nat))
  /\ (py "BTC" <> py "AUD" -> truthy (Some (py "bc1qexample")) = true)
  /\ exists req,
       request strict
         (RequestWithdrawal (py "BTC") (py "0.5") (Some (py "bc1qexample"))
            None None None None None None) world0 = Ok req
       /\ sent (snd r) = sent world0 ++ [req]
       /\ req_method req = py "POST"
       /\ req_url req = base_url ++ py "/v3/withdrawals".
Proof.
  intros r bank.
  assert (H : sent (snd r) <> sent world0)
    by (vm_compute; intros Heq; discriminate Heq).
  split; [exact H|].
  exact (@request_withdrawal_sends_validated_request lib ext strict (py "BTC")
           (py "0.5") (Some (py "bc1qexample")) None None None None None None
           world0 H).
Defined.

(** [list_trades(limit=5)] against a server that refuses. *)
Lemma normalised_method_http_error_witness :
  let e := ListTrades None None None None (Some (QInt 5)) in
  let m := list_trades lenient None None None None (Some (QInt 5)) in
  let d := [(py "code", JStr (py "OrderNotFound"));
            (py "message", JStr (py "order was not found"))] in
  exists req,
    (table_method lenient e = Some m \/ record_method lenient e = Some m)
    /\ request lenient e Cases.refusing = Ok req
    /\ network Cases.refusing (sent Cases.refusing) req
       = HTTPError 404 (body_of not_found)
    /\ json_loads_bytes (body_of not_found) = Ok (JDict d)
    /\ exists errObject,
         store Cases.refusing !! errObject = None
         /\ store (snd (m Cases.refusing)) !! errObject
            = Some (JDict (dict_set (py "statusCode") (JInt 404) d))
         /\ fst (m Cases.refusing)
            = if exception_on_error lenient
              then Raise (Exn Exception_ (Obj errObject))
              else Ok (VRef errObject).
Proof.
  intros e m d.
  assert (H1 : table_method lenient e = Some m
               \/ record_method lenient e = Some m) by (left; reflexivity).
  destruct (request lenient e Cases.refusing) as [req|ex] eqn:H2;
    [|vm_compute in H2; discriminate H2].
  exists req.
  assert (H3 : network Cases.refusing (sent Cases.refusing) req
               = HTTPError 404 (body_of not_found)) by reflexivity.
  assert (H4 : json_loads_bytes (body_of not_found) = Ok (JDict d))
    by reflexivity.
  split; [exact H1|]. split; [reflexivity|]. split; [exact H3|].
  split; [exact H4|].
  exact (@normalised_method_http_error lib ext lenient e m Cases.refusing req
           404 (body_of not_found) d H1 H2 H3 H4).
Defined.

(** [orderbook("BAT-AUD")] against a server that refuses. *)
Lemma orderbook_http_error_witness :
  let d := [(py "code", JStr (py "OrderNotFound"));
            (py "message", JStr (py "order was not found"))] in
  exists req,
    request lenient (Orderbook (py "BAT-AUD") (QInt 1)) Cases.refusing = Ok req
    /\ network Cases.refusing (sent Cases.refusing) req
       = HTTPError 404 (body_of not_found)
    /\ json_loads_bytes (body_of not_found) = Ok (JDict d)
    /\ dict_get (py "bids") d = None
    /\ dict_get (py "asks") d = None
    /\ let r := orderbook lenient (py "BAT-AUD") (QInt 1) Cases.refusing in
       exists errObject,
         store Cases.refusing !! errObject = None
         /\ store (snd r) !! errObject
            = Some (JDict (dict_set (py "statusCode") (JInt 404) d))
         /\ fst r = if exception_on_error lenient
                    then Raise (Exn Exception_ (Obj errObject))
                    else Ok (Some (VRef errObject)).
Proof.
  intros d. eexists.
  split; [vm_compute; reflexivity|].
  split; [reflexivity|].
  split; [reflexivity|].
  split; [reflexivity|].
  split; [reflexivity|].
  eapply (@orderbook_http_error lib ext lenient (py "BAT-AUD") (QInt 1) Cases.refusing
           _ 404 (body_of not_found) d);
    [vm_compute; reflexivity | reflexivity..].
Defined.

(** [orderbooks(["BAT-AUD", "BTC-AUD"])] against a server that refuses. *)
Lemma orderbooks_http_error_witness :
  let d := [(py "code", JStr (py "OrderNotFound"));
            (py "message", JStr (py "order was not found"))] in
  let ids := [py "BAT-AUD"; py "BTC-AUD"] in
  exists req,
    request lenient (Orderbooks ids) Cases.refusing = Ok req
    /\ network Cases.refusing (sent Cases.refusing) req
       = HTTPError 404 (body_of not_found)
    /\ json_loads_bytes (body_of not_found) = Ok (JDict d)
    /\ let r := orderbooks lenient ids Cases.refusing in
       exists errObject,
         store Cases.refusing !! errObject = None
         /\ store (snd r) !! errObject
            = Some (JDict (dict_set (py "statusCode") (JInt 404) d))
         /\ fst r = if exception_on_error lenient
                    then Raise (Exn Exception_ (Obj errObject))
                    else Raise (Exn KeyError NoArg).
Proof.
  intros d ids. eexists.
  split; [vm_compute; reflexivity|].
  split; [reflexivity|].
  split; [reflexivity|].
  eapply (@orderbooks_http_error lib ext lenient ids Cases.refusing _ 404
           (body_of not_found) d);
    [vm_compute; reflexivity | reflexivity..].
Defined.

Lemma thin_book_rows_priced (side : pystr) (rows : json) :
  side ∈ [py "bids"; py "asks"] ->
  dict_get side
    [(py "marketId", JStr (py "BTC-AUD"));
     (py "bids", JList [JList [JStr (py "100.5"); JStr (py "2")]])]
  = Some rows ->
  priced_rows rows.
Proof.
  intros Hside.
  apply elem_of_cons in Hside as [->|Hside];
    [|apply list_elem_of_singleton in Hside as ->];
    intros [= <-]; eexists; (split; [reflexivity|]);
    repeat constructor; eexists; eexists _, _, _, _;
    (split; [reflexivity|]); (split; [vm_compute; reflexivity|]);
    (split; [vm_compute; reflexivity|]); reflexivity.
Qed.

Lemma batch_books_priced : Forall priced_book [book; Cases.thin_book].
Proof.
  constructor; [|constructor; [|constructor]].
  - eexists. split; [reflexivity|]. exact book_rows_priced.
  - eexists. split; [reflexivity|]. exact thin_book_rows_priced.
Qed.

(** [orderbooks(["BAT-AUD", "BTC-AUD"])] answered with two books. *)
Lemma orderbooks_converts_each_book_witness :
  let ids := [py "BAT-AUD"; py "BTC-AUD"] in
  let books := [book; Cases.thin_book] in
  let text := json_dumps (JList books) in
  exists req,
    request strict (Orderbooks ids) Cases.batch = Ok req
    /\ network Cases.batch (sent Cases.batch) req
       = HttpOk (body_of (JList books))
    /\ Utf8.decode (body_of (JList books)) = Some text
    /\ json_loads (PyExt := Cases.ext) text = Ok (JList books)
    /\ Forall priced_book books
    /\ let r := orderbooks (X := Cases.ext) strict ids Cases.batch in
       exists response books',
         fst r = Ok response
         /\ store Cases.batch !! response = None
         /\ store (snd r) !! response = Some (JList books')
         /\ Forall2 (fun book book' =>
                       forall (l : loc) (w0 : world),
                         store w0 !! l = Some book ->
                         fst (process_orderbook l w0) = Ok l
                         /\ store (snd (process_orderbook l w0)) !! l
                            = Some book')
              books books'.
Proof.
  intros ids books text. eexists.
  split; [vm_compute; reflexivity|].
  split; [reflexivity|].
  split; [vm_compute; reflexivity|].
  split; [reflexivity|].
  split; [exact batch_books_priced|].
  eapply (@orderbooks_converts_each_book lib Cases.ext strict ids
           Cases.batch _ (body_of (JList books)) text books);
    [vm_compute; reflexivity | reflexivity | vm_compute; reflexivity
    | reflexivity | exact batch_books_priced].
Defined.

(** [list_trades(limit=5)] when there are no trades. *)
Lemma table_method_empty_answer_raises_witness :
  let e := ListTrades None None None None (Some (QInt 5)) in
  let m := list_trades strict None None None None (Some (QInt 5)) in
  exists req,
    table_method strict e = Some m
    /\ request strict e world0 = Ok req
    /\ network world0 (sent world0) req = HttpOk (body_of (JList []))
    /\ Utf8.decode (body_of (JList [])) = Some (py "[]")
    /\ json_loads (py "[]") = Ok (JList [])
    /\ fst (m world0) = Raise (Exn KeyError NoArg)
    /\ sent (snd (m world0)) = sent world0 ++ [req].
Proof.
  intros e m.
  assert (H1 : table_method strict e = Some m) by reflexivity.
  destruct (request strict e world0) as [req|ex] eqn:H2;
    [|vm_compute in H2; discriminate H2].
  exists req.
  assert (H3 : network world0 (sent world0) req
               = HttpOk (body_of (JList []))).
  { vm_compute in H2. injection H2 as <-. vm_compute. reflexivity. }
  assert (H4 : Utf8.decode (body_of (JList [])) = Some (py "[]"))
    by (vm_compute; reflexivity).
  assert (H5 : json_loads (py "[]") = Ok (JList [])) by reflexivity.
  split; [exact H1|]. split; [reflexivity|]. split; [exact H3|].
  split; [exact H4|]. split; [exact H5|].
  exact (@table_method_empty_answer_raises lib ext strict e m world0 req
           (body_of (JList [])) (py "[]") H1 H2 H3 H4 H5).
Defined.

(** [orders(status="open")] when there are no orders. *)
Lemma orders_empty_answer_witness :
  let status := Some (QStr (py "open")) in
  exists req,
    request strict (Orders None status None None None) world0 = Ok req
    /\ network world0 (sent world0) req = HttpOk (body_of (JList []))
    /\ Utf8.decode (body_of (JList [])) = Some (py "[]")
    /\ json_loads (py "[]") = Ok (JList [])
    /\ let r := orders strict None status None None None world0 in
       exists data,
         fst r = Ok (VRef data)
         /\ store world0 !! data = None
         /\ store (snd r) !! data = Some (JList []).
Proof.
  intros status. eexists.
  split; [vm_compute; reflexivity|].
  split; [vm_compute; reflexivity|].
  split; [vm_compute; reflexivity|].
  split; [reflexivity|].
  eapply (@orders_empty_answer lib ext strict None status None None None world0 _
           (body_of (JList [])) (py "[]"));
    [vm_compute; reflexivity | vm_compute; reflexivity
    | vm_compute; reflexivity | reflexivity].
Defined.

(** An order book whose asks hold the price ["n/a"]. *)
Lemma process_orderbook_partial_update_witness :
  let d := [(py "marketId", JStr (py "BAT-AUD"));
            (py "bids",
             JList [JList [JStr (py "0.2612"); JStr (py "17847.84")]]);
            (py "asks", JList [JList [JStr (py "n/a"); JStr (py "5665.85")]])]
  in
  let bids := [JList [JStr (py "0.2612"); JStr (py "17847.84")]] in
  let asks := JList [JList [JStr (py "n/a"); JStr (py "5665.85")]] in
  let w := holding Cases.torn_book in
  store w !! 1%positive = Some (JDict d)
  /\ dict_get (py "bids") d = Some (JList bids)
  /\ Forall (fun row => exists row', float_row row row') bids
  /\ dict_get (py "asks") d = Some asks
  /\ float_pairs asks = Raise (Exn ValueError NoArg)
  /\ exists bids' d',
       Forall2 float_row bids bids'
       /\ fst (process_orderbook 1%positive w) = Raise (Exn ValueError NoArg)
       /\ store (snd (process_orderbook 1%positive w)) !! 1%positive
          = Some (JDict d')
       /\ dict_get (py "bids") d' = Some (JList bids')
       /\ forall k, k <> py "bids" -> dict_get k d' = dict_get k d.
Proof.
  intros d bids asks w.
  assert (H1 : store w !! 1%positive = Some (JDict d)) by reflexivity.
  assert (H2 : dict_get (py "bids") d = Some (JList bids)) by reflexivity.
  assert (H3 : Forall (fun row => exists row', float_row row row') bids).
  { repeat constructor. eexists. eexists _, _, _, _.
    split; [reflexivity|]. split; [vm_compute; reflexivity|].
    split; [vm_compute; reflexivity|]. reflexivity. }
  assert (H4 : dict_get (py "asks") d = Some asks) by reflexivity.
  assert (H5 : float_pairs asks = Raise (Exn ValueError NoArg))
    by reflexivity.
  repeat (split; [assumption|]).
  exact (@process_orderbook_partial_update lib 1%positive d bids asks
           (Exn ValueError NoArg) w H1 H2 H3 H4 H5).
Defined.

(** The order book of the docstring, converted twice. *)
Lemma process_orderbook_idempotent_witness :
  fst (process_orderbook 1%positive (holding book)) = Ok 1%positive
  /\ let w' := snd (process_orderbook 1%positive (holding book)) in
     process_orderbook 1%positive w' = (Ok 1%positive, w').
Proof.
  assert (H : fst (process_orderbook 1%positive (holding book))
              = Ok 1%positive) by reflexivity.
  split; [exact H|].
  exact (@process_orderbook_idempotent lib 1%positive (holding book) H).
Defined.

Lemma trades_fields_distinct :
  NoDup [py "price"; py "fee"]
  /\ (py "side" ∉ [py "price"; py "fee"])
  /\ (py "price" ∈ [py "price"; py "fee"])
  /\ (py "volume" ∉ [py "price"; py "fee"]).
Proof.
  repeat split; apply (bool_decide_unpack _); vm_compute; exact I.
Qed.


(** Two trades: the prices are read as numbers. *)
Lemma declared_numeric_field_is_converted_witness :
  let labels := [py "price"; py "fee"] in
  let w := holding (JList (map JDict Cases.trades)) in
  exists table,
    store w !! 1%positive = Some (JList (map JDict Cases.trades))
    /\ Cases.trades <> []
    /\ NoDup labels
    /\ py "price" ∈ labels
    /\ (forall tl, @None (list pystr) = Some tl ->
                   NoDup tl /\ py "price" ∉ tl)
    /\ fst (make_df 1%positive (Some labels) None w) = Ok (VFrame table)
    /\ exists converted,
         to_numeric ErrorsRaise (column_of (py "price") Cases.trades)
           = Ok converted
         /\ dict_get (py "price") (columns table) = Some converted.
Proof.
  intros labels w. eexists.
  assert (H1 : store w !! 1%positive = Some (JList (map JDict Cases.trades)))
    by reflexivity.
  assert (H2 : Cases.trades <> []) by discriminate.
  assert (H3 : NoDup labels) by apply trades_fields_distinct.
  assert (H4 : py "price" ∈ labels) by apply trades_fields_distinct.
  assert (H5 : forall tl, @None (list pystr) = Some tl ->
                          NoDup tl /\ py "price" ∉ tl).
  { intros tl Hl. discriminate Hl. }
  repeat (split; [assumption|]).
  split; [reflexivity|].
  eapply (@declared_numeric_field_is_converted lib ext 1%positive Cases.trades labels
           None (py "price") _ w H1 H2 H3 H4 H5).
  reflexivity.
Defined.

(** Two trades without a volume, and a record without one. *)
Lemma declared_field_missing_raises_witness :
  let labels := [py "price"; py "volume"] in
  let w := holding (JList (map JDict Cases.trades)) in
  let d := [(py "price", JStr (py "100.5")); (py "side", JStr (py "Bid"))] in
  let w2 := holding (JDict d) in
  py "volume" ∈ labels
  /\ store w !! 1%positive = Some (JList (map JDict Cases.trades))
  /\ (forall row, In row Cases.trades -> dict_get (py "volume") row = None)
  /\ make_df 1%positive (Some labels) None w = (Raise (Exn KeyError NoArg), w)
  /\ store w2 !! 1%positive = Some (JDict d)
  /\ dict_has (py "statusCode") d = false
  /\ dict_get (py "volume") d = None
  /\ make_series 1%positive (Some labels) None w2
     = (Raise (Exn KeyError NoArg), w2).
Proof.
  intros labels w d w2.
  assert (H1 : py "volume" ∈ labels) by (right; left; reflexivity).
  assert (H2 : store w !! 1%positive = Some (JList (map JDict Cases.trades)))
    by reflexivity.
  assert (H3 : forall row, In row Cases.trades ->
                           dict_get (py "volume") row = None).
  { intros row [<-|[<-|[]]]; reflexivity. }
  assert (H4 : store w2 !! 1%positive = Some (JDict d)) by reflexivity.
  assert (H5 : dict_has (py "statusCode") d = false) by reflexivity.
  assert (H6 : dict_get (py "volume") d = None) by reflexivity.
  split; [exact H1|]. split; [exact H2|]. split; [exact H3|].
  split.
  { exact (proj1 (@declared_field_missing_raises lib ext 1%positive labels None
                    (py "volume") w H1) Cases.trades H2 H3). }
  split; [exact H4|]. split; [exact H5|]. split; [exact H6|].
  exact (proj2 (@declared_field_missing_raises lib ext 1%positive labels None
                  (py "volume") w2 H1) d H4 H5 H6).
Defined.

(** The signature of [GET /v3/markets] at 1700000000000 ms. *)
Lemma signature_is_88_base64_characters_witness :
  exists signature headers,
    signMessage key (py "GET/v3/markets1700000000000") = Ok signature
    /\ fst (buildHeaders (py "GET") (py "api-key") key (py "/v3/markets")
              None world0) = Ok headers
    /\ dict_get (py "BM-AUTH-SIGNATURE") headers = Some signature
    /\ length signature = 88%nat
    /\ forallb is_base64_char signature = true.
Proof.
  eexists. eexists.
  split; [vm_compute; reflexivity|].
  split; [vm_compute; reflexivity|].
  split; [reflexivity|].
  eapply (proj2 (@signature_is_88_base64_characters lib (py "GET") (py "api-key")
                   key (py "/v3/markets") None world0));
    [vm_compute; reflexivity | reflexivity].
Defined.
